(** * ClientContext: TCP connection handling on top of lwIP

    A shallow embedding of [ClientContext.h] (arduino-pico WiFi library) and
    of the cooperative wait primitive [esp_delay] that it uses.

    Target data model: RP2040, ILP32.  [size_t] and [uint32_t] are 32-bit
    unsigned, [ptrdiff_t] and [int] are 32-bit signed, [int8_t] is 8-bit
    signed.  Every machine integer is a [Z] kept in range by an explicit
    wrap-around function.

    The lwIP stack itself is not part of the sources.  Its entry points are
    modelled by a trace of the calls made ([Call]) and by scripted replies
    held in the [World]; theorems quantify over every script. *)

From Stdlib Require Import ZArith List Bool Lia.
From Stdlib Require Import Strings.Byte.
Import ListNotations.
Open Scope Z_scope.

(** ** Machine integers *)

Definition u8 (x : Z) : Z := x mod 256.
Definition u16 (x : Z) : Z := x mod 65536.
Definition u32 (x : Z) : Z := x mod 4294967296.

(** Conversion of a 32-bit pattern to [ptrdiff_t] / [int]. *)
Definition s32 (x : Z) : Z :=
  let y := u32 x in if y <? 2147483648 then y else y - 4294967296.

(** Conversion of an [int] to [int8_t]. *)
Definition s8 (x : Z) : Z :=
  let y := u8 x in if y <? 128 then y else y - 256.

(** ** lwIP constants and types used by the class *)

Definition ERR_OK : Z := 0.
Definition ERR_MEM : Z := -1.
Definition ERR_ABRT : Z := -13.
Definition ERR_ARG : Z := -16.

Definition SOF_KEEPALIVE : Z := 8.
Definition TCP_WRITE_FLAG_COPY : Z := 1.
Definition TCP_WRITE_FLAG_MORE : Z := 2.

Inductive tcp_state : Type :=
| CLOSED | LISTEN | SYN_SENT | SYN_RCVD | ESTABLISHED | FIN_WAIT_1
| FIN_WAIT_2 | CLOSE_WAIT | CLOSING | LAST_ACK | TIME_WAIT.

Definition tcp_state_eqb (a b : tcp_state) : bool :=
  match a, b with
  | CLOSED, CLOSED | LISTEN, LISTEN | SYN_SENT, SYN_SENT
  | SYN_RCVD, SYN_RCVD | ESTABLISHED, ESTABLISHED
  | FIN_WAIT_1, FIN_WAIT_1 | FIN_WAIT_2, FIN_WAIT_2
  | CLOSE_WAIT, CLOSE_WAIT | CLOSING, CLOSING | LAST_ACK, LAST_ACK
  | TIME_WAIT, TIME_WAIT => true
  | _, _ => false
  end.

(** The fields of lwIP's [struct tcp_pcb] that the class reads or writes. *)
Record tcp_pcb : Type := mk_pcb {
  pcb_state : tcp_state;
  so_options : Z;   (* u8  *)
  keep_idle : Z;    (* u32, milliseconds *)
  keep_intvl : Z;   (* u32, milliseconds *)
  keep_cnt : Z      (* u32 *)
}.

(** Modelled from the spec: lwIP's [struct pbuf], declared outside the
    sources; one segment of the "ordered sequence of arrived-data segments".
    [payload] is the segment's bytes, [len] its length and [tot_len] the
    length of the chain from here on (both [u16_t] in lwIP). *)
Record pbuf : Type := mk_pbuf {
  payload : list byte;
  len : Z;
  tot_len : Z
}.

(** A [pbuf*]: the chain reached through [next]; [[]] is the null pointer. *)
Definition chain : Type := list pbuf.

Definition head_tot (ch : chain) : Z :=
  match ch with [] => 0 | p :: _ => tot_len p end.

(** Modelled from the spec: lwIP's [pbuf_cat(h, t)], defined outside the
    sources, which "appends newly arrived data to the chain": every pbuf of
    [h] gains [t->tot_len], and the last pbuf of [h] is linked to [t]. *)
Definition pbuf_cat (h t : chain) : chain :=
  map (fun p => mk_pbuf (payload p) (len p) (u16 (tot_len p + head_tot t))) h ++ t.

(** ** Calls into the stack, and what the stack does on its own

    Modelled from the spec: the network stack and the Arduino core are
    external collaborators.  A call into them is recorded in a trace; what
    they answer, and which callbacks they run while the application yields,
    is scripted in the [World]. *)

Inductive Call : Type :=
| C_tcp_arg (attached : bool)
| C_tcp_sent (attached : bool)
| C_tcp_recv (attached : bool)
| C_tcp_err (attached : bool)
| C_tcp_poll (attached : bool)
| C_tcp_abort
| C_tcp_close (ret : Z)
| C_tcp_connect (port : Z) (ret : Z)
| C_tcp_recved (n : Z)
| C_tcp_sndbuf (ret : Z)
| C_tcp_write (offset size flags : Z) (ret : Z)
| C_tcp_output
| C_pbuf_free
| C_pbuf_ref
| C_discard_cb
| C_delete.

(** Callbacks the stack may run while the application yields in [delay]. *)
Inductive StackEvent : Type :=
| EvConnected
| EvError (err : Z)
| EvRecv (pb : chain)      (* [[]]: the peer closed *)
| EvAcked (n : Z)
| EvPoll.

Record World : Type := mk_world {
  now : Z;                          (* milliseconds since boot, unbounded *)
  calls : list Call;                (* oldest first *)
  yields : list (list StackEvent);  (* callbacks run by each coming delay *)
  connect_ret : Z;                  (* what tcp_connect answers *)
  close_ret : Z;                    (* what tcp_close answers *)
  sndbuf_script : list Z;           (* answers of the coming tcp_sndbuf *)
  write_script : list Z;            (* answers of the coming tcp_write *)
  freed : bool                      (* the context has been deleted *)
}.

(** ** The context *)

Record ClientContext : Type := mk_ctx {
  _pcb : option tcp_pcb;
  _rx_buf : chain;
  _rx_buf_offset : Z;               (* size_t *)
  _discard_cb : bool;               (* a discard callback is registered *)
  _datasource : option Z;           (* base of the caller's buffer *)
  _datalen : Z;                     (* size_t *)
  _written : Z;                     (* size_t *)
  _timeout_ms : Z;                  (* uint32_t *)
  _op_start_time : Z;               (* uint32_t *)
  _send_waiting : bool;
  _connect_pending : bool;
  _refcnt : Z;                      (* int8_t *)
  _sync : bool
}.

Definition with_pcb (v : option tcp_pcb) (c : ClientContext) : ClientContext :=
  mk_ctx v (_rx_buf c) (_rx_buf_offset c) (_discard_cb c) (_datasource c)
    (_datalen c) (_written c) (_timeout_ms c) (_op_start_time c)
    (_send_waiting c) (_connect_pending c) (_refcnt c) (_sync c).

Definition with_rx (b : chain) (off : Z) (c : ClientContext) : ClientContext :=
  mk_ctx (_pcb c) b off (_discard_cb c) (_datasource c)
    (_datalen c) (_written c) (_timeout_ms c) (_op_start_time c)
    (_send_waiting c) (_connect_pending c) (_refcnt c) (_sync c).

Definition with_cursor (ds : option Z) (dl wr : Z) (c : ClientContext) : ClientContext :=
  mk_ctx (_pcb c) (_rx_buf c) (_rx_buf_offset c) (_discard_cb c) ds
    dl wr (_timeout_ms c) (_op_start_time c)
    (_send_waiting c) (_connect_pending c) (_refcnt c) (_sync c).

Definition with_timeout (t : Z) (c : ClientContext) : ClientContext :=
  mk_ctx (_pcb c) (_rx_buf c) (_rx_buf_offset c) (_discard_cb c) (_datasource c)
    (_datalen c) (_written c) t (_op_start_time c)
    (_send_waiting c) (_connect_pending c) (_refcnt c) (_sync c).

Definition with_op_start (t : Z) (c : ClientContext) : ClientContext :=
  mk_ctx (_pcb c) (_rx_buf c) (_rx_buf_offset c) (_discard_cb c) (_datasource c)
    (_datalen c) (_written c) (_timeout_ms c) t
    (_send_waiting c) (_connect_pending c) (_refcnt c) (_sync c).

Definition with_send_waiting (b : bool) (c : ClientContext) : ClientContext :=
  mk_ctx (_pcb c) (_rx_buf c) (_rx_buf_offset c) (_discard_cb c) (_datasource c)
    (_datalen c) (_written c) (_timeout_ms c) (_op_start_time c)
    b (_connect_pending c) (_refcnt c) (_sync c).

Definition with_connect_pending (b : bool) (c : ClientContext) : ClientContext :=
  mk_ctx (_pcb c) (_rx_buf c) (_rx_buf_offset c) (_discard_cb c) (_datasource c)
    (_datalen c) (_written c) (_timeout_ms c) (_op_start_time c)
    (_send_waiting c) b (_refcnt c) (_sync c).

Definition with_refcnt (n : Z) (c : ClientContext) : ClientContext :=
  mk_ctx (_pcb c) (_rx_buf c) (_rx_buf_offset c) (_discard_cb c) (_datasource c)
    (_datalen c) (_written c) (_timeout_ms c) (_op_start_time c)
    (_send_waiting c) (_connect_pending c) n (_sync c).

(** ** A state-and-fault monad

    A method runs on the context and the world.  It either finishes with a
    value, or faults where the C++ has no defined behaviour (or where a
    bounded loop of the model ran out of fuel). *)

Inductive fault : Type := NullDeref | OutOfBounds | UseAfterFree | OutOfFuel.

Inductive outcome (A : Type) : Type :=
| Done (a : A)
| Fault (f : fault).
Arguments Done {A} a.
Arguments Fault {A} f.

Record State : Type := mk_state { ctx : ClientContext; env : World }.

Definition M (A : Type) : Type := State -> outcome (A * State).

Definition ret {A} (a : A) : M A := fun s => Done (a, s).

Definition bind {A B} (m : M A) (k : A -> M B) : M B :=
  fun s => match m s with
           | Done (a, s') => k a s'
           | Fault f => Fault f
           end.

Definition fail {A} (f : fault) : M A := fun _ => Fault f.

Declare Scope m_scope.
Delimit Scope m_scope with m.
Notation "x <- m ;; k" := (bind m (fun x => k))
  (at level 61, m at next level, right associativity) : m_scope.
Notation "m ;; k" := (bind m (fun _ => k))
  (at level 61, right associativity) : m_scope.
Open Scope m_scope.

Definition self : M ClientContext := fun s => Done (ctx s, s).

Definition update (f : ClientContext -> ClientContext) : M unit :=
  fun s => Done (tt, mk_state (f (ctx s)) (env s)).

Definition when (b : bool) (m : M unit) : M unit := if b then m else ret tt.

(** A call into the stack is recorded at the end of the trace. *)
Definition call (c : Call) : M unit :=
  fun s =>
    let w := env s in
    Done (tt, mk_state (ctx s)
                (mk_world (now w) (calls w ++ [c]) (yields w) (connect_ret w)
                   (close_ret w) (sndbuf_script w) (write_script w) (freed w))).

(** Modelled from the spec: [millis()], defined outside the sources; the
    clock as a [uint32_t]. *)
Definition millis : M Z := fun s => Done (u32 (now (env s)), s).

(** ** lwIP entry points

    Modelled from the spec: the functions of the stack that the class calls,
    all defined outside the sources.  Each records its call; [tcp_connect],
    [tcp_close], [tcp_sndbuf] and [tcp_write] answer what the [World]
    scripts. *)

Definition tcp_arg (attached : bool) : M unit := call (C_tcp_arg attached).
Definition tcp_sent (attached : bool) : M unit := call (C_tcp_sent attached).
Definition tcp_recv (attached : bool) : M unit := call (C_tcp_recv attached).
Definition tcp_err (attached : bool) : M unit := call (C_tcp_err attached).
Definition tcp_poll (attached : bool) : M unit := call (C_tcp_poll attached).
Definition tcp_abort : M unit := call C_tcp_abort.
Definition tcp_recved (n : Z) : M unit := call (C_tcp_recved n).
Definition tcp_output : M unit := call C_tcp_output.
Definition pbuf_free : M unit := call C_pbuf_free.
Definition pbuf_ref : M unit := call C_pbuf_ref.

Definition tcp_close : M Z :=
  fun s => (call (C_tcp_close (close_ret (env s))) ;; ret (close_ret (env s))) s.

(** [tcp_connect]: refuses a null pcb; on success the pcb is in SYN_SENT. *)
Definition tcp_connect (port : Z) : M Z :=
  c <- self ;;
  match _pcb c with
  | None => call (C_tcp_connect port ERR_ARG) ;; ret ERR_ARG
  | Some p =>
      fun s =>
        let r := connect_ret (env s) in
        (call (C_tcp_connect port r) ;;
         when (r =? ERR_OK)
           (update (with_pcb (Some (mk_pcb SYN_SENT (so_options p) (keep_idle p)
                                      (keep_intvl p) (keep_cnt p))))) ;;
         ret r) s
  end.

Definition next_sndbuf : M Z :=
  fun s =>
    let w := env s in
    Done (hd 0 (sndbuf_script w),
          mk_state (ctx s)
            (mk_world (now w) (calls w) (yields w) (connect_ret w) (close_ret w)
               (tl (sndbuf_script w)) (write_script w) (freed w))).

Definition next_write_ret : M Z :=
  fun s =>
    let w := env s in
    Done (hd ERR_OK (write_script w),
          mk_state (ctx s)
            (mk_world (now w) (calls w) (yields w) (connect_ret w) (close_ret w)
               (sndbuf_script w) (tl (write_script w)) (freed w))).

(** [tcp_sndbuf]: the next scripted window (0 once the script is used up),
    converted to [size_t]. *)
Definition tcp_sndbuf : M Z :=
  v <- next_sndbuf ;;
  call (C_tcp_sndbuf (u32 v)) ;;
  ret (u32 v).

(** [tcp_write(pcb, datasource + offset, size, flags)]: the next scripted
    answer ([ERR_OK] once the script is used up). *)
Definition tcp_write (offset size flags : Z) : M Z :=
  r <- next_write_ret ;;
  call (C_tcp_write offset size flags r) ;;
  ret r.

(** [delete this]. *)
Definition delete_this : M unit :=
  call C_delete ;;
  fun s =>
    let w := env s in
    Done (tt, mk_state (ctx s)
                (mk_world (now w) (calls w) (yields w) (connect_ret w)
                   (close_ret w) (sndbuf_script w) (write_script w) true)).

(** ** Methods of [ClientContext] *)

Definition abort : M Z :=
  c <- self ;;
  match _pcb c with
  | Some _ =>
      tcp_arg false ;;
      tcp_sent false ;;
      tcp_recv false ;;
      tcp_err false ;;
      tcp_poll false ;;
      tcp_abort ;;
      update (with_pcb None)
  | None => ret tt
  end ;;
  ret ERR_ABRT.

Definition close : M Z :=
  c <- self ;;
  match _pcb c with
  | Some _ =>
      tcp_arg false ;;
      tcp_sent false ;;
      tcp_recv false ;;
      tcp_err false ;;
      tcp_poll false ;;
      err <- tcp_close ;;
      err' <- (if negb (err =? ERR_OK)
               then tcp_abort ;; ret ERR_ABRT
               else ret err) ;;
      update (with_pcb None) ;;
      ret err'
  | None => ret ERR_OK
  end.

Definition ref : M unit :=
  c <- self ;;
  update (with_refcnt (s8 (_refcnt c + 1))).

Definition getSize : M Z :=
  c <- self ;;
  match _rx_buf c with
  | [] => ret 0
  | p :: _ => ret (u32 (tot_len p - _rx_buf_offset c))
  end.

Definition _consume (size : Z) : M unit :=
  c <- self ;;
  match _rx_buf c with
  | [] => fail NullDeref
  | p :: next =>
      let left := s32 (len p - _rx_buf_offset c - size) in
      (if 0 <? left then
         update (with_rx (p :: next) (u32 (_rx_buf_offset c + size)))
       else
         match next with
         | [] =>
             pbuf_free ;;
             update (with_rx [] 0)
         | _ :: _ =>
             update (with_rx next 0) ;;
             pbuf_ref ;;
             pbuf_free
         end) ;;
      match _pcb c with
      | Some _ => tcp_recved size
      | None => ret tt
      end
  end.

(** [payload[i]]. *)
Definition payload_at (p : pbuf) (i : Z) : M byte :=
  match (if i <? 0 then None else nth_error (payload p) (Z.to_nat i)) with
  | Some b => ret b
  | None => fail OutOfBounds
  end.

(** The [n] bytes that [memcpy(dst, payload + off, n)] stores into [dst]. *)
Definition memcpy_from (p : pbuf) (off n : Z) : M (list byte) :=
  if (0 <=? off) && (0 <=? n) && (off + n <=? Z.of_nat (length (payload p)))
  then ret (firstn (Z.to_nat n) (skipn (Z.to_nat off) (payload p)))
  else fail OutOfBounds.

Definition read : M byte :=
  c <- self ;;
  match _rx_buf c with
  | [] => ret x00
  | p :: _ =>
      ch <- payload_at p (_rx_buf_offset c) ;;
      _consume 1 ;;
      ret ch
  end.

(** The [while (size)] loop of [read(dst, size)]; [dst] collects the bytes
    stored so far. *)
Fixpoint read_loop (fuel : nat) (size size_read : Z) (dst : list byte)
  : M (Z * list byte) :=
  if size =? 0 then ret (size_read, dst)
  else
    match fuel with
    | O => fail OutOfFuel
    | S fuel' =>
        c <- self ;;
        match _rx_buf c with
        | [] => fail NullDeref
        | p :: _ =>
            let buf_size := u32 (len p - _rx_buf_offset c) in
            let copy_size := if size <? buf_size then size else buf_size in
            bytes <- memcpy_from p (_rx_buf_offset c) copy_size ;;
            _consume copy_size ;;
            read_loop fuel' (u32 (size - copy_size)) (u32 (size_read + copy_size))
              (dst ++ bytes)
        end
    end.

(** [read(dst, size)]: the number of bytes read and the bytes stored.  Every
    turn of the loop lowers [size] or drops the head pbuf, so the fuel given
    is never used up ([read_buf_fuel]). *)
Definition read_buf (size : Z) : M (Z * list byte) :=
  c <- self ;;
  match _rx_buf c with
  | [] => ret (0, [])
  | p :: _ =>
      let max_size := u32 (tot_len p - _rx_buf_offset c) in
      let size := if size <? max_size then size else max_size in
      read_loop (Z.to_nat size + length (_rx_buf c)) size 0 []
  end.

Definition peek : M byte :=
  c <- self ;;
  match _rx_buf c with
  | [] => ret x00
  | p :: _ => payload_at p (_rx_buf_offset c)
  end.

Definition peekBytes (size : Z) : M (Z * list byte) :=
  c <- self ;;
  match _rx_buf c with
  | [] => ret (0, [])
  | p :: _ =>
      let max_size := u32 (tot_len p - _rx_buf_offset c) in
      let size := if size <? max_size then size else max_size in
      let buf_size := u32 (len p - _rx_buf_offset c) in
      let copy_size := if size <? buf_size then size else buf_size in
      bytes <- memcpy_from p (_rx_buf_offset c) copy_size ;;
      ret (copy_size, bytes)
  end.

Definition discard_received : M unit :=
  c <- self ;;
  match _rx_buf c with
  | [] => ret tt
  | p :: _ =>
      match _pcb c with
      | Some _ => tcp_recved (tot_len p)
      | None => ret tt
      end ;;
      pbuf_free ;;
      update (with_rx [] 0)
  end.

Definition unref : M unit :=
  c <- self ;;
  let n := s8 (_refcnt c - 1) in
  update (with_refcnt n) ;;
  if n =? 0 then
    discard_received ;;
    close ;;
    when (_discard_cb c) (call C_discard_cb) ;;
    delete_this
  else ret tt.

Definition state : M tcp_state :=
  c <- self ;;
  match _pcb c with
  | None => ret CLOSED
  | Some p =>
      match pcb_state p with
      | CLOSE_WAIT | CLOSING => ret CLOSED
      | st => ret st
      end
  end.

Definition peekAvailable : M Z :=
  c <- self ;;
  match _rx_buf c with
  | [] => ret 0
  | p :: _ => ret (u32 (len p - _rx_buf_offset c))
  end.

Definition peekConsume (consume : Z) : M unit := _consume consume.

(** [_pcb->...] on a null handle has no defined behaviour. *)
Definition deref_pcb : M tcp_pcb :=
  c <- self ;;
  match _pcb c with
  | Some p => ret p
  | None => fail NullDeref
  end.

(** [idle_sec] and [intv_sec] are [uint16_t], [count] is [uint8_t]. *)
Definition keepAlive (idle_sec intv_sec count : Z) : M unit :=
  p <- deref_pcb ;;
  if negb (idle_sec =? 0) && negb (intv_sec =? 0) && negb (count =? 0) then
    update (with_pcb (Some (mk_pcb (pcb_state p)
                              (u8 (Z.lor (so_options p) SOF_KEEPALIVE))
                              (u32 (1000 * idle_sec))
                              (u32 (1000 * intv_sec))
                              count)))
  else
    update (with_pcb (Some (mk_pcb (pcb_state p)
                              (u8 (Z.land (so_options p) (Z.lnot SOF_KEEPALIVE)))
                              (keep_idle p) (keep_intvl p) (keep_cnt p)))).

Definition isKeepAliveEnabled : M bool :=
  p <- deref_pcb ;;
  ret (negb (Z.land (so_options p) SOF_KEEPALIVE =? 0)).

Definition getKeepAliveIdle : M Z :=
  en <- isKeepAliveEnabled ;;
  if en then p <- deref_pcb ;; ret (u16 (u32 (keep_idle p + 500) / 1000))
  else ret 0.

Definition getKeepAliveInterval : M Z :=
  en <- isKeepAliveEnabled ;;
  if en then p <- deref_pcb ;; ret (u16 (u32 (keep_intvl p + 500) / 1000))
  else ret 0.

Definition getKeepAliveCount : M Z :=
  en <- isKeepAliveEnabled ;;
  if en then p <- deref_pcb ;; ret (u8 (keep_cnt p))
  else ret 0.

Definition setTimeout (timeout_ms : Z) : M unit :=
  let timeout_ms := if timeout_ms <? 100 then s32 (timeout_ms * 1000) else timeout_ms in
  update (with_timeout (u32 timeout_ms)).

(** ** Callbacks *)

Definition _notify_error : M unit :=
  c <- self ;;
  if _connect_pending c || _send_waiting c then
    update (with_send_waiting false) ;;
    update (with_connect_pending false)
  else ret tt.

Definition _write_some_from_cb : M unit :=
  c <- self ;;
  if _send_waiting c then update (with_send_waiting false) else ret tt.

Definition _acked (len : Z) : M Z :=
  _write_some_from_cb ;;
  ret ERR_OK.

(** [pb = []] is the null payload: the peer closed. *)
Definition _recv (pb : chain) : M Z :=
  match pb with
  | [] =>
      _notify_error ;;
      c <- self ;;
      if negb (match _rx_buf c with [] => true | _ => false end)
         && negb (head_tot (_rx_buf c) =? 0)
      then ret ERR_OK
      else abort ;; ret ERR_ABRT
  | _ :: _ =>
      c <- self ;;
      match _rx_buf c with
      | _ :: _ => update (with_rx (pbuf_cat (_rx_buf c) pb) (_rx_buf_offset c))
      | [] => update (with_rx pb 0)
      end ;;
      ret ERR_OK
  end.

Definition _error (err : Z) : M unit :=
  tcp_arg false ;;
  tcp_sent false ;;
  tcp_recv false ;;
  tcp_err false ;;
  update (with_pcb None) ;;
  _notify_error.

Definition _connected : M Z :=
  c <- self ;;
  (if _connect_pending c then update (with_connect_pending false) else ret tt) ;;
  ret ERR_OK.

Definition _poll : M Z :=
  _write_some_from_cb ;;
  ret ERR_OK.

(** ** The scheduler: what a yield runs

    Modelled from the spec: the stack's side of the callbacks, outside the
    sources.  The stack calls back only while the callbacks are attached,
    that is while [_pcb] is set.  Before the connected callback the pcb
    enters ESTABLISHED; before the peer-close callback it enters
    CLOSE_WAIT. *)

Definition set_pcb_state (st : tcp_state) : M unit :=
  c <- self ;;
  match _pcb c with
  | Some p => update (with_pcb (Some (mk_pcb st (so_options p) (keep_idle p)
                                        (keep_intvl p) (keep_cnt p))))
  | None => ret tt
  end.

Definition dispatch (ev : StackEvent) : M unit :=
  c <- self ;;
  match _pcb c with
  | None => ret tt
  | Some _ =>
      match ev with
      | EvConnected => set_pcb_state ESTABLISHED ;; _connected ;; ret tt
      | EvError err => _error err
      | EvRecv [] => set_pcb_state CLOSE_WAIT ;; _recv [] ;; ret tt
      | EvRecv pb => _recv pb ;; ret tt
      | EvAcked n => _acked n ;; ret tt
      | EvPoll => _poll ;; ret tt
      end
  end.

Fixpoint run_events (evs : list StackEvent) : M unit :=
  match evs with
  | [] => ret tt
  | ev :: rest => dispatch ev ;; run_events rest
  end.

(** Modelled from the spec: [delay(ms)], defined outside the sources, the
    yield during which "queued stack-internal timer processing" runs: the
    clock advances by exactly [ms] and the callbacks scheduled for this yield
    run to completion. *)
Definition delay (ms : Z) : M unit :=
  fun s =>
    let w := env s in
    run_events (hd [] (yields w))
      (mk_state (ctx s)
         (mk_world (now w + ms) (calls w) (tl (yields w)) (connect_ret w)
            (close_ret w) (sndbuf_script w) (write_script w) (freed w))).

(** ** The cooperative wait primitive *)

Fixpoint esp_delay_loop (fuel : nat) (start_ms timeout_ms : Z)
  (blocked : State -> bool) (intvl_ms : Z) : M unit :=
  t <- millis ;;
  fun s =>
    if (u32 (t - start_ms) <? timeout_ms) && blocked s then
      match fuel with
      | O => Fault OutOfFuel
      | S fuel' =>
          (delay intvl_ms ;;
           esp_delay_loop fuel' start_ms timeout_ms blocked intvl_ms) s
      end
    else Done (tt, s).

Definition esp_delay (fuel : nat) (timeout_ms : Z) (blocked : State -> bool)
  (intvl_ms : Z) : M unit :=
  start_ms <- millis ;;
  esp_delay_loop fuel start_ms timeout_ms blocked intvl_ms.

(** ** connect *)

Definition connect (fuel : nat) (port : Z) : M Z :=
  err <- tcp_connect port ;;
  if negb (err =? ERR_OK) then ret 0
  else
    update (with_connect_pending true) ;;
    t <- millis ;;
    update (with_op_start t) ;;
    c <- self ;;
    esp_delay fuel (_timeout_ms c) (fun s => _connect_pending (ctx s)) 1 ;;
    update (with_connect_pending false) ;;
    c <- self ;;
    match _pcb c with
    | None => ret 0
    | Some _ =>
        st <- state ;;
        if negb (tcp_state_eqb st ESTABLISHED) then abort ;; ret 0
        else ret 1
    end.

(** ** The incremental send loop *)

Inductive loop_exit : Type :=
| Returned (v : bool)          (* [return v] from inside the loop *)
| Left (has_written : bool).   (* the loop ended or was left by [break] *)

Definition with_written (wr : Z) (c : ClientContext) : ClientContext :=
  with_cursor (_datasource c) (_datalen c) wr c.

Fixpoint write_some_loop (fuel : nat) (has_written : bool) (scale : Z)
  : M loop_exit :=
  c <- self ;;
  if _written c <? _datalen c then
    match fuel with
    | O => fail OutOfFuel
    | S fuel' =>
        st <- state ;;
        if tcp_state_eqb st CLOSED then ret (Returned false)
        else
          let remaining := u32 (_datalen c - _written c) in
          sndbuf <- tcp_sndbuf ;;
          let next_chunk_size := Z.min sndbuf remaining in
          let next_chunk_size :=
            if Z.shiftl 1 scale <? next_chunk_size
            then Z.shiftr next_chunk_size scale
            else next_chunk_size in
          if next_chunk_size =? 0 then ret (Left has_written)
          else
            let flags := 0 in
            let flags := if next_chunk_size <? remaining
                         then Z.lor flags TCP_WRITE_FLAG_MORE else flags in
            let flags := if negb (_sync c)
                         then Z.lor flags TCP_WRITE_FLAG_COPY else flags in
            err <- tcp_write (_written c) next_chunk_size flags ;;
            if err =? ERR_OK then
              update (with_written (u32 (_written c + next_chunk_size))) ;;
              write_some_loop fuel' true scale
            else if err =? ERR_MEM then
              if scale <? 4 then write_some_loop fuel' has_written (scale + 1)
              else ret (Left has_written)
            else ret (Left has_written)
    end
  else ret (Left has_written).

(** One pass.  A turn of the loop either writes at least one byte or raises
    [scale], which stops at 4: the fuel given covers every turn. *)
Definition _write_some : M bool :=
  c <- self ;;
  match _datasource c, _pcb c with
  | Some _, Some _ =>
      r <- write_some_loop (Z.to_nat (_datalen c - _written c) + 5) false 0 ;;
      match r with
      | Returned v => ret v
      | Left has_written =>
          when has_written tcp_output ;;
          ret has_written
      end
  | _, _ => ret false
  end.

(** ** Further methods of [ClientContext] *)

Definition getTimeout : M Z :=
  c <- self ;;
  ret (s32 (_timeout_ms c)).

Definition availableForWrite : M Z :=
  c <- self ;;
  match _pcb c with
  | Some _ => tcp_sndbuf
  | None => ret 0
  end.

(** [peekBuffer()]: the null pointer ([None]), or a pointer into the head
    pbuf, given as the bytes from there to the end of that pbuf. *)
Definition peekBuffer : M (option (list byte)) :=
  c <- self ;;
  match _rx_buf c with
  | [] => ret None
  | p :: _ => ret (Some (skipn (Z.to_nat (_rx_buf_offset c)) (payload p)))
  end.

Definition _is_timeout : M bool :=
  t <- millis ;;
  c <- self ;;
  ret (_timeout_ms c <? u32 (t - _op_start_time c)).

(** An [assert] either passes or stops the program. *)
Inductive asserted (A : Type) : Type :=
| Passed (a : A)
| AssertionFailed.
Arguments Passed {A} a.
Arguments AssertionFailed {A}.

Section Write.

(** lwIP's configured send-buffer size and the class's default flush wait,
    both defined outside the sources. *)
Variable TCP_SND_BUF : Z.
Variable WIFICLIENT_MAX_FLUSH_WAIT_MS : Z.

(** The [while (1)] loop of [wait_until_acked]; [prevsndbuf] is an [int],
    [last_sent] a [uint32_t].  The loop does not yield, and the clock of the
    model advances in [delay] only: a turn of this loop takes no time. *)
Fixpoint wait_until_acked_loop (fuel : nat) (max_wait_ms prevsndbuf last_sent : Z)
  : M bool :=
  t <- millis ;;
  if u32 max_wait_ms <? u32 (t - last_sent) then ret false
  else
    match fuel with
    | O => fail OutOfFuel
    | S fuel' =>
        tcp_output ;;
        sb <- tcp_sndbuf ;;
        let sndbuf := s32 sb in
        t' <- millis ;;
        let changed := negb (sndbuf =? prevsndbuf) in
        let prevsndbuf := if changed then sndbuf else prevsndbuf in
        let last_sent := if changed then t' else last_sent in
        st <- state ;;
        if negb (tcp_state_eqb st ESTABLISHED) || (sndbuf =? TCP_SND_BUF)
        then ret true
        else wait_until_acked_loop fuel' max_wait_ms prevsndbuf last_sent
    end.

Definition wait_until_acked (fuel : nat) (max_wait_ms : Z) : M bool :=
  c <- self ;;
  match _pcb c with
  | None => ret true
  | Some _ =>
      last_sent <- millis ;;
      wait_until_acked_loop fuel max_wait_ms (-1) last_sent
  end.

(** The [do ... while (true)] loop of [_write_from_source]: [fuel] bounds
    its turns, [dfuel] the yields of one wait. *)
Fixpoint write_from_source_loop (fuel dfuel : nat) : M unit :=
  match fuel with
  | O => fail OutOfFuel
  | S fuel' =>
      ws <- _write_some ;;
      (if ws then t <- millis ;; update (with_op_start t) else ret tt) ;;
      c <- self ;;
      over <- (if _written c =? _datalen c then ret true
               else
                 to <- _is_timeout ;;
                 if to then ret true
                 else st <- state ;; ret (tcp_state_eqb st CLOSED)) ;;
      if over then update (with_cursor None 0 (_written c))
      else
        update (with_send_waiting true) ;;
        esp_delay dfuel (_timeout_ms c) (fun s => _send_waiting (ctx s)) 1 ;;
        update (with_send_waiting false) ;;
        write_from_source_loop fuel' dfuel
  end.

(** [ds] is the caller's pointer ([None] when null), [dl] a [size_t]. *)
Definition _write_from_source (fuel dfuel afuel : nat) (ds : option Z) (dl : Z)
  : M (asserted Z) :=
  c <- self ;;
  if negb (match _datasource c with None => true | Some _ => false end)
  then ret AssertionFailed
  else if _send_waiting c then ret AssertionFailed
  else
    t <- millis ;;
    update (with_cursor ds dl 0) ;;
    update (with_op_start t) ;;
    write_from_source_loop fuel dfuel ;;
    c <- self ;;
    (if _sync c
     then wait_until_acked afuel WIFICLIENT_MAX_FLUSH_WAIT_MS ;; ret tt
     else ret tt) ;;
    c <- self ;;
    ret (Passed (_written c)).

Definition write (fuel dfuel afuel : nat) (ds : option Z) (dl : Z)
  : M (asserted Z) :=
  c <- self ;;
  match _pcb c with
  | None => ret (Passed 0)
  | Some _ => _write_from_source fuel dfuel afuel ds dl
  end.

End Write.

(** ** Sequences of calls, as a client or the stack issues them *)

Inductive read_op : Type :=
| RdByte                 (* read() *)
| RdBuf (size : Z).      (* read(dst, size) *)

(** What one read call hands to the caller.  [read()] on an empty chain
    returns the sentinel 0, which is no byte of the stream. *)
Definition run_read (op : read_op) : M (list byte) :=
  match op with
  | RdByte =>
      n <- getSize ;;
      b <- read ;;
      ret (if n =? 0 then [] else [b])
  | RdBuf size =>
      r <- read_buf size ;;
      ret (snd r)
  end.

Fixpoint run_reads (ops : list read_op) : M (list byte) :=
  match ops with
  | [] => ret []
  | op :: rest =>
      out <- run_read op ;;
      outs <- run_reads rest ;;
      ret (out ++ outs)
  end.

(** The arrival callback, once per delivered segment; collects the results. *)
Fixpoint deliver (segs : list chain) : M (list Z) :=
  match segs with
  | [] => ret []
  | pb :: rest =>
      r <- _recv pb ;;
      rs <- deliver rest ;;
      ret (r :: rs)
  end.

Inductive ref_op : Type := Ref | Unref.

(** Calls through a handle; a call on a deleted context is a fault. *)
Definition run_ref (op : ref_op) : M unit :=
  fun s =>
    if freed (env s) then Fault UseAfterFree
    else match op with Ref => ref s | Unref => unref s end.

Fixpoint run_refs (ops : list ref_op) : M unit :=
  match ops with
  | [] => ret tt
  | op :: rest => run_ref op ;; run_refs rest
  end.



(** ** Specification vocabulary *)

Definition ztake {A} (n : Z) (l : list A) : list A := firstn (Z.to_nat n) l.
Definition zdrop {A} (n : Z) (l : list A) : list A := skipn (Z.to_nat n) l.
Definition zlength {A} (l : list A) : Z := Z.of_nat (length l).

(** The bytes of a chain, in arrival order. *)
Definition chain_bytes (ch : chain) : list byte := concat (map payload ch).

(** The unread stream of a context. *)
Definition unread (c : ClientContext) : list byte :=
  zdrop (_rx_buf_offset c) (chain_bytes (_rx_buf c)).

(** A well-formed chain: no empty pbuf, [len] and [tot_len] consistent with
    the payloads, lengths within [u16_t]. *)
Fixpoint chain_wf (ch : chain) : Prop :=
  match ch with
  | [] => True
  | p :: r =>
      len p = zlength (payload p) /\ 0 < len p /\
      tot_len p = len p + head_tot r /\ tot_len p <= 65535 /\ chain_wf r
  end.

(** The receive-buffer invariant: a well-formed chain, and a cursor inside
    the head pbuf. *)
Definition rx_inv (c : ClientContext) : Prop :=
  chain_wf (_rx_buf c) /\
  match _rx_buf c with
  | [] => True
  | p :: _ => 0 <= _rx_buf_offset c < len p
  end.

Definition op_size (op : read_op) : Z :=
  match op with RdByte => 1 | RdBuf size => size end.

Fixpoint demand (ops : list read_op) : Z :=
  match ops with
  | [] => 0
  | op :: rest => op_size op + demand rest
  end.

Definition read_op_ok (op : read_op) : Prop :=
  match op with RdByte => True | RdBuf size => 0 <= size < 4294967296 end.

(** Outstanding references after a sequence of calls. *)
Fixpoint balance (ops : list ref_op) : Z :=
  match ops with
  | [] => 0
  | Ref :: rest => balance rest + 1
  | Unref :: rest => balance rest - 1
  end.

(** Never more [unref] than [ref] in any prefix. *)
Fixpoint balanced_from (n : Z) (ops : list ref_op) : bool :=
  match ops with
  | [] => true
  | Ref :: rest => balanced_from (n + 1) rest
  | Unref :: rest => (1 <=? n) && balanced_from (n - 1) rest
  end.

(** The bytes still unread in the head pbuf. *)
Definition head_avail (c : ClientContext) : Z :=
  match _rx_buf c with
  | [] => 0
  | p :: _ => len p - _rx_buf_offset c
  end.


Definition detach_and_abort : list Call :=
  [C_tcp_arg false; C_tcp_sent false; C_tcp_recv false; C_tcp_err false;
   C_tcp_poll false; C_tcp_abort].

(** The calls of the teardown that the last [unref] performs on context [c]:
    discard the unread data, close the transport, run the discard callback,
    delete the context. *)
Definition teardown_calls (c : ClientContext) (w : World) : list Call :=
  match _rx_buf c with
  | [] => []
  | p :: _ =>
      match _pcb c with Some _ => [C_tcp_recved (tot_len p)] | None => [] end
      ++ [C_pbuf_free]
  end
  ++ match _pcb c with
     | Some _ =>
         [C_tcp_arg false; C_tcp_sent false; C_tcp_recv false; C_tcp_err false;
          C_tcp_poll false; C_tcp_close (close_ret w)]
         ++ (if close_ret w =? ERR_OK then [] else [C_tcp_abort])
     | None => []
     end
  ++ (if _discard_cb c then [C_discard_cb] else [])
  ++ [C_delete].

Definition is_delete (c : Call) : bool :=
  match c with C_delete => true | _ => false end.

Definition count_delete (l : list Call) : nat := length (filter is_delete l).

(** From [n] outstanding references, every call of [ops] leaves between 1
    and 255 of them, except that the last call may release the last one. *)
Fixpoint outstanding_ok (n : Z) (ops : list ref_op) : bool :=
  match ops with
  | [] => true
  | Ref :: rest => (n <? 255) && outstanding_ok (n + 1) rest
  | Unref :: rest =>
      if n =? 1 then match rest with [] => true | _ => false end
      else (2 <=? n) && outstanding_ok (n - 1) rest
  end.

(** A callback that leaves a pending connect pending: neither the connected
    nor the error callback, nor the peer-close signal. *)
Definition quiet_event (ev : StackEvent) : bool :=
  match ev with
  | EvConnected | EvError _ | EvRecv [] => false
  | EvRecv (_ :: _) | EvAcked _ | EvPoll => true
  end.

(** The next [n] yields run quiet callbacks only. *)
Definition quiet_yields (n : nat) (ys : list (list StackEvent)) : bool :=
  forallb (forallb quiet_event) (firstn n ys).

(** Memory-pressure answers among the [tcp_write] calls of a trace. *)
Fixpoint count_mem (l : list Call) : Z :=
  match l with
  | [] => 0
  | C_tcp_write _ _ _ ret :: rest =>
      (if ret =? ERR_MEM then 1 else 0) + count_mem rest
  | _ :: rest => count_mem rest
  end.

(** Bytes accepted by the [tcp_write] calls of a trace. *)
Fixpoint ok_bytes (l : list Call) : Z :=
  match l with
  | [] => 0
  | C_tcp_write _ size _ ret :: rest =>
      (if ret =? ERR_OK then size else 0) + ok_bytes rest
  | _ :: rest => ok_bytes rest
  end.

(** The chunk attempted after [k] memory-pressure answers: the minimum of
    window and remaining bytes, divided by 2^k unless that minimum is 2^k or
    less. *)
Definition scaled_chunk (window remaining k : Z) : Z :=
  let m := Z.min window remaining in
  if 2 ^ k <? m then m / 2 ^ k else m.

(** The chunk after [k] memory-pressure answers as the specification words
    it: the minimum of window and remaining bytes, halved [k] times. *)
Definition halved_chunk (window remaining k : Z) : Z :=
  Z.min window remaining / 2 ^ k.

(** What holds of every attempt of a pass that started with [wr] bytes
    written and the scale [sc]. *)
Definition attempts_ok (dl : Z) (sync : bool) (wr sc : Z) (T : list Call) : Prop :=
  forall pre w off sz fl ret post,
    T = pre ++ C_tcp_sndbuf w :: C_tcp_write off sz fl ret :: post ->
    let k := sc + count_mem pre in
    let remaining := dl - off in
    k <= 4 /\ off = wr + ok_bytes pre /\ 0 < remaining /\
    sz = scaled_chunk w remaining k /\ 0 < sz <= Z.min w remaining /\
    Z.testbit fl 1 = (sz <? remaining) /\ Z.testbit fl 0 = negb sync.

(** Bytes announced to the stack as consumed by the [tcp_recved] calls of a
    trace. *)
Fixpoint recved_total (l : list Call) : Z :=
  match l with
  | [] => 0
  | C_tcp_recved n :: rest => n + recved_total rest
  | _ :: rest => recved_total rest
  end.

(** A trace without any [tcp_write]. *)
Fixpoint no_write (l : list Call) : bool :=
  match l with
  | [] => true
  | C_tcp_write _ _ _ _ :: _ => false
  | _ :: rest => no_write rest
  end.

Definition is_output (c : Call) : bool :=
  match c with C_tcp_output => true | _ => false end.

Definition count_output (l : list Call) : nat := length (filter is_output l).

Definition detach_all : list Call :=
  [C_tcp_arg false; C_tcp_sent false; C_tcp_recv false; C_tcp_err false;
   C_tcp_poll false].

(** The three ways a context loses its transport handle. *)
Inductive closer : Type :=
| ByAbort
| ByClose
| ByError (err : Z).

Definition run_closer (k : closer) : M unit :=
  match k with
  | ByAbort => abort ;; ret tt
  | ByClose => close ;; ret tt
  | ByError err => _error err
  end.

(** A callback after which a connect that has completed stays completed:
    neither the error callback nor the peer-close signal. *)
Definition harmless_event (ev : StackEvent) : bool :=
  match ev with
  | EvError _ | EvRecv [] => false
  | EvConnected | EvRecv (_ :: _) | EvAcked _ | EvPoll => true
  end.

Definition established (p : tcp_pcb) : tcp_pcb :=
  mk_pcb ESTABLISHED (so_options p) (keep_idle p) (keep_intvl p) (keep_cnt p).

(** The [tcp_output] that ends a pass in which a chunk was accepted. *)
Definition flush (has_written : bool) : list Call :=
  if has_written then [C_tcp_output] else [].

(** The calls of one pass on an open connection, from the point where [wr]
    bytes are written, [k] memory-pressure answers were seen and
    [has_written] tells whether a chunk was accepted: what the stack
    answered ([w] to [tcp_sndbuf], the result of [tcp_write]) decides how
    the pass goes on. *)
Inductive pass_trace (dl : Z) (sync : bool) : Z -> Z -> bool -> list Call -> Prop :=
| pass_all_written wr k hw :
    dl <= wr ->
    pass_trace dl sync wr k hw (flush hw)
| pass_no_window wr k hw w :
    wr < dl -> scaled_chunk w (dl - wr) k = 0 ->
    pass_trace dl sync wr k hw (C_tcp_sndbuf w :: flush hw)
| pass_accepted wr k hw w fl T :
    wr < dl -> scaled_chunk w (dl - wr) k <> 0 ->
    Z.testbit fl 1 = (scaled_chunk w (dl - wr) k <? dl - wr) ->
    Z.testbit fl 0 = negb sync ->
    pass_trace dl sync (wr + scaled_chunk w (dl - wr) k) k true T ->
    pass_trace dl sync wr k hw
      (C_tcp_sndbuf w :: C_tcp_write wr (scaled_chunk w (dl - wr) k) fl ERR_OK :: T)
| pass_retry wr k hw w fl T :
    wr < dl -> scaled_chunk w (dl - wr) k <> 0 ->
    Z.testbit fl 1 = (scaled_chunk w (dl - wr) k <? dl - wr) ->
    Z.testbit fl 0 = negb sync ->
    k < 4 ->
    pass_trace dl sync wr (k + 1) hw T ->
    pass_trace dl sync wr k hw
      (C_tcp_sndbuf w :: C_tcp_write wr (scaled_chunk w (dl - wr) k) fl ERR_MEM :: T)
| pass_give_up wr k hw w fl :
    wr < dl -> scaled_chunk w (dl - wr) k <> 0 ->
    Z.testbit fl 1 = (scaled_chunk w (dl - wr) k <? dl - wr) ->
    Z.testbit fl 0 = negb sync ->
    k = 4 ->
    pass_trace dl sync wr k hw
      (C_tcp_sndbuf w :: C_tcp_write wr (scaled_chunk w (dl - wr) k) fl ERR_MEM
         :: flush hw)
| pass_refused wr k hw w fl err :
    wr < dl -> scaled_chunk w (dl - wr) k <> 0 ->
    Z.testbit fl 1 = (scaled_chunk w (dl - wr) k <? dl - wr) ->
    Z.testbit fl 0 = negb sync ->
    err <> ERR_OK -> err <> ERR_MEM ->
    pass_trace dl sync wr k hw
      (C_tcp_sndbuf w :: C_tcp_write wr (scaled_chunk w (dl - wr) k) fl err
         :: flush hw).

(** What callbacks and waits keep of the send cursor: the cursor, the
    timeout and the start of the operation stay as they were, and the calls
    added to the trace contain no accepted [tcp_write]. *)
Definition cursor_kept (s s' : State) : Prop :=
  _datasource (ctx s') = _datasource (ctx s) /\
  _datalen (ctx s') = _datalen (ctx s) /\
  _written (ctx s') = _written (ctx s) /\
  _timeout_ms (ctx s') = _timeout_ms (ctx s) /\
  _op_start_time (ctx s') = _op_start_time (ctx s) /\
  _sync (ctx s') = _sync (ctx s) /\
  exists T, calls (env s') = calls (env s) ++ T /\ ok_bytes T = 0.


(** ** Concrete contexts, used to run the model *)

Definition demo_world : World := mk_world 0 [] [] ERR_OK ERR_OK [] [] false.

Definition demo_pcb : tcp_pcb := mk_pcb ESTABLISHED 0 0 0 0.

Definition demo_ctx : ClientContext :=
  mk_ctx (Some demo_pcb) [] 0 true None 0 0 5000 0 false false 0 false.

Definition demo_state : State := mk_state demo_ctx demo_world.

(** Two arrivals: one pbuf of two bytes, then a chain of two pbufs. *)
Definition demo_segs : list chain :=
  [ [mk_pbuf [x0a; x0b] 2 2];
    [mk_pbuf [x01; x02] 2 5; mk_pbuf [x03; x04; x05] 3 3] ].

(** The context after the two arrivals and one [read()]. *)
Definition demo_rx_state : State :=
  mk_state
    (with_rx [mk_pbuf [x0a; x0b] 2 7; mk_pbuf [x01; x02] 2 5;
              mk_pbuf [x03; x04; x05] 3 3] 1 demo_ctx)
    demo_world.


(** A context about to connect: timeout 3 ms, three quiet yields ahead. *)
Definition demo_connect_state : State :=
  mk_state
    (mk_ctx (Some (mk_pcb CLOSED 0 0 0 0)) [] 0 true None 0 0 3 0 false false 1 false)
    (mk_world 0 [] [[EvPoll]; []; [EvAcked 1]] ERR_OK ERR_OK [] [] false).

(** A context with three bytes to send, a window of 100 bytes and a stack
    that answers the first two [tcp_write] with [ERR_MEM]. *)
Definition demo_write_state : State :=
  mk_state
    (mk_ctx (Some demo_pcb) [] 0 true (Some 0) 3 0 5000 0 false false 1 false)
    (mk_world 0 [] [] ERR_OK ERR_OK [100; 100; 100] [ERR_MEM; ERR_MEM] false).

(** * Proofs *)

(** ** Machine integers and lists *)

Lemma u32_small x : 0 <= x < 4294967296 -> u32 x = x.
Proof. intros H. unfold u32. apply Z.mod_small. exact H. Qed.

Lemma u16_small x : 0 <= x < 65536 -> u16 x = x.
Proof. intros H. unfold u16. apply Z.mod_small. exact H. Qed.

Lemma u8_small x : 0 <= x < 256 -> u8 x = x.
Proof. intros H. unfold u8. apply Z.mod_small. exact H. Qed.

Lemma s32_small x : -2147483648 <= x < 2147483648 -> s32 x = x.
Proof.
  intros H. unfold s32, u32.
  destruct (Z_lt_le_dec x 0) as [Hn | Hp].
  - replace (x mod 4294967296) with (x + 4294967296).
    + destruct (Z.ltb_spec (x + 4294967296) 2147483648); lia.
    + apply Z.mod_unique with (q := -1); lia.
  - rewrite Z.mod_small by lia.
    destruct (Z.ltb_spec x 2147483648); lia.
Qed.

Lemma s8_small x : -128 <= x < 128 -> s8 x = x.
Proof.
  intros H. unfold s8, u8.
  destruct (Z_lt_le_dec x 0) as [Hn | Hp].
  - replace (x mod 256) with (x + 256).
    + destruct (Z.ltb_spec (x + 256) 128); lia.
    + apply Z.mod_unique with (q := -1); lia.
  - rewrite Z.mod_small by lia.
    destruct (Z.ltb_spec x 128); lia.
Qed.

Lemma zlength_nonneg {A} (l : list A) : 0 <= zlength l.
Proof. unfold zlength. lia. Qed.

Lemma zlength_app {A} (l1 l2 : list A) : zlength (l1 ++ l2) = zlength l1 + zlength l2.
Proof. unfold zlength. rewrite length_app. lia. Qed.

Lemma ztake_all {A} n (l : list A) : zlength l <= n -> ztake n l = l.
Proof. unfold ztake, zlength. intros H. apply firstn_all2. lia. Qed.

Lemma zdrop_all {A} n (l : list A) : zlength l <= n -> zdrop n l = [].
Proof. unfold zdrop, zlength. intros H. apply skipn_all2. lia. Qed.

Lemma zdrop_0 {A} (l : list A) : zdrop 0 l = l.
Proof. reflexivity. Qed.

Lemma zlength_zdrop {A} n (l : list A) :
  0 <= n <= zlength l -> zlength (zdrop n l) = zlength l - n.
Proof. unfold zdrop, zlength. intros H. rewrite length_skipn. lia. Qed.

Lemma zdrop_zdrop {A} a b (l : list A) :
  0 <= a -> 0 <= b -> zdrop b (zdrop a l) = zdrop (a + b) l.
Proof.
  intros Ha Hb. unfold zdrop. rewrite skipn_skipn.
  f_equal. lia.
Qed.

Lemma ztake_add {A} a b (l : list A) :
  0 <= a -> 0 <= b -> ztake (a + b) l = ztake a l ++ ztake b (zdrop a l).
Proof.
  intros Ha Hb. unfold ztake, zdrop.
  rewrite Z2Nat.inj_add by lia.
  generalize (Z.to_nat a) as n. generalize (Z.to_nat b) as m. clear.
  intros m n. revert l. induction n as [| n IH]; intros l; simpl.
  - reflexivity.
  - destruct l as [| x l]; simpl.
    + now rewrite firstn_nil.
    + now rewrite IH.
Qed.

Lemma zdrop_app_l {A} n (l1 l2 : list A) :
  0 <= n <= zlength l1 -> zdrop n (l1 ++ l2) = zdrop n l1 ++ l2.
Proof.
  unfold zdrop, zlength. intros H. rewrite skipn_app.
  replace (Z.to_nat n - length l1)%nat with 0%nat by lia. reflexivity.
Qed.

Lemma ztake_app_l {A} n (l1 l2 : list A) :
  n <= zlength l1 -> ztake n (l1 ++ l2) = ztake n l1.
Proof.
  unfold ztake, zlength. intros H. rewrite firstn_app.
  replace (Z.to_nat n - length l1)%nat with 0%nat by lia.
  simpl. apply app_nil_r.
Qed.

Lemma zdrop_app_all {A} (l1 l2 : list A) : zdrop (zlength l1) (l1 ++ l2) = l2.
Proof.
  unfold zdrop, zlength. rewrite Nat2Z.id, skipn_app, skipn_all, Nat.sub_diag.
  reflexivity.
Qed.

(** ** Chains *)

Lemma head_tot_bytes ch : chain_wf ch -> head_tot ch = zlength (chain_bytes ch).
Proof.
  induction ch as [| p r IH]; simpl; intros H.
  - reflexivity.
  - destruct H as (Hl & _ & Ht & _ & Hr).
    unfold chain_bytes in *. simpl. rewrite zlength_app, Ht, Hl, IH by assumption.
    reflexivity.
Qed.

Lemma head_tot_nonneg ch : chain_wf ch -> 0 <= head_tot ch.
Proof. intros H. rewrite head_tot_bytes by assumption. apply zlength_nonneg. Qed.

Lemma pbuf_cat_spec h t :
  chain_wf h -> chain_wf t -> head_tot h + head_tot t <= 65535 ->
  chain_wf (pbuf_cat h t) /\
  chain_bytes (pbuf_cat h t) = chain_bytes h ++ chain_bytes t /\
  head_tot (pbuf_cat h t) = head_tot h + head_tot t.
Proof.
  intros Hh Ht. induction h as [| p r IH]; intros Hb.
  - simpl. auto.
  - simpl in Hh. destruct Hh as (Hl & Hp & Htot & Hmax & Hr).
    pose proof (head_tot_nonneg _ Hr) as Hr0.
    pose proof (head_tot_nonneg _ Ht) as Ht0.
    simpl in Hb.
    destruct IH as (IH1 & IH2 & IH3); [assumption | lia |].
    unfold pbuf_cat in *. simpl.
    rewrite u16_small by lia.
    split; [| split].
    + rewrite IH3. repeat split; try assumption; lia.
    + unfold chain_bytes in *. simpl. rewrite IH2. now rewrite app_assoc.
    + reflexivity.
Qed.

(** ** The receive buffer *)

Ltac run := unfold bind, ret, self, update, fail, when, call, tcp_recved, pbuf_free,
  pbuf_ref, tcp_arg, tcp_sent, tcp_recv, tcp_err, tcp_poll, tcp_abort,
  tcp_output; simpl.

Lemma unread_head c p next :
  _rx_buf c = p :: next -> rx_inv c ->
  unread c = zdrop (_rx_buf_offset c) (payload p) ++ chain_bytes next.
Proof.
  intros Hrx [Hwf Hoff]. rewrite Hrx in *. simpl in Hwf.
  destruct Hwf as (Hl & _).
  unfold unread. rewrite Hrx. unfold chain_bytes. simpl.
  apply zdrop_app_l. lia.
Qed.

Lemma zlength_unread c : rx_inv c ->
  zlength (unread c) = head_tot (_rx_buf c) - match _rx_buf c with [] => 0 | _ => _rx_buf_offset c end.
Proof.
  intros [Hwf Hoff]. unfold unread.
  destruct (_rx_buf c) as [| p next] eqn:Hrx.
  - unfold chain_bytes, zdrop. simpl. rewrite skipn_nil. reflexivity.
  - pose proof (head_tot_bytes _ Hwf) as Hb.
    pose proof (head_tot_nonneg next) as Hn.
    simpl in Hwf. destruct Hwf as (Hl & Hp & Ht & Hm & Hr). specialize (Hn Hr).
    rewrite zlength_zdrop; simpl in *; lia.
Qed.

Lemma consume_ok s p next n :
  _rx_buf (ctx s) = p :: next -> rx_inv (ctx s) -> 0 <= n <= 2147483647 ->
  exists s',
    _consume n s = Done (tt, s') /\ rx_inv (ctx s') /\
    _pcb (ctx s') = _pcb (ctx s) /\
    (length (_rx_buf (ctx s')) <= length (_rx_buf (ctx s)))%nat /\
    (n <= len p - _rx_buf_offset (ctx s) ->
     unread (ctx s') = zdrop n (unread (ctx s))).
Proof.
  intros Hrx Hinv Hn.
  pose proof (unread_head _ _ _ Hrx Hinv) as Hun.
  destruct Hinv as [Hwf Hoff]. rewrite Hrx in Hwf, Hoff. simpl in Hwf.
  destruct Hwf as (Hl & Hp & Ht & Hm & Hr).
  pose proof (head_tot_nonneg _ Hr) as Hr0.
  destruct s as [c w]. simpl in *.
  unfold _consume. run. rewrite Hrx.
  rewrite s32_small by lia.
  destruct (Z.ltb_spec 0 (len p - _rx_buf_offset c - n)) as [Hlt | Hge];
    [| destruct next as [| q r]];
    (destruct (_pcb c) eqn:Hpcb; simpl; eexists; (split; [reflexivity |]); simpl;
     unfold rx_inv; simpl; rewrite ?Hrx; simpl).
  1, 2: rewrite u32_small by lia; repeat split; try assumption; try lia;
    intros _; unfold unread; simpl; rewrite Hrx;
    now rewrite zdrop_zdrop by lia.
  1, 2: repeat split; try assumption; try lia;
    intros Hle; rewrite Hun, app_nil_r; unfold unread; simpl;
    symmetry; apply zdrop_all; rewrite zlength_zdrop; lia.
  1, 2: simpl in Hr; destruct Hr as (Hql & Hqp & Hqt & Hqm & Hqr);
    repeat split; try assumption; try lia;
    intros Hle; unfold unread; simpl; rewrite Hrx;
    rewrite zdrop_zdrop by lia;
    replace (_rx_buf_offset c + n) with (zlength (payload p)) by lia;
    unfold chain_bytes at 2; simpl concat; rewrite zdrop_app_all;
    reflexivity.
Qed.

Lemma memcpy_from_ok p off n s :
  len p = zlength (payload p) -> 0 <= off -> 0 <= n -> off + n <= len p ->
  memcpy_from p off n s = Done (ztake n (zdrop off (payload p)), s).
Proof.
  intros Hl Ho Hn Hb. unfold memcpy_from, zlength in *.
  destruct (Z.leb_spec 0 off); [| lia].
  destruct (Z.leb_spec 0 n); [| lia].
  destruct (Z.leb_spec (off + n) (Z.of_nat (length (payload p)))); [| lia].
  reflexivity.
Qed.

Lemma payload_at_ok p off s :
  len p = zlength (payload p) -> 0 <= off < len p ->
  exists b, payload_at p off s = Done (b, s) /\
            zdrop off (payload p) = b :: zdrop (off + 1) (payload p).
Proof.
  intros Hl Ho. unfold payload_at, zlength, zdrop in *.
  destruct (Z.ltb_spec off 0); [lia |].
  destruct (nth_error (payload p) (Z.to_nat off)) as [b |] eqn:Hn.
  - exists b. split; [reflexivity |].
    replace (Z.to_nat (off + 1)) with (S (Z.to_nat off)) by lia.
    revert Hn. generalize (Z.to_nat off) as k. generalize (payload p) as l.
    clear. induction l as [| x l IH]; intros [| k] H; simpl in *; try discriminate.
    + now inversion H.
    + apply IH in H. exact H.
  - apply nth_error_None in Hn. lia.
Qed.

Lemma read_loop_zero fuel size_read dst s :
  read_loop fuel 0 size_read dst s = Done ((size_read, dst), s).
Proof. destruct fuel; reflexivity. Qed.

Lemma read_loop_ok fuel : forall size size_read dst s,
  rx_inv (ctx s) -> 0 <= size <= zlength (unread (ctx s)) ->
  0 <= size_read -> size_read + size < 4294967296 ->
  (Z.to_nat size <= fuel)%nat ->
  exists s',
    read_loop fuel size size_read dst s
      = Done ((size_read + size, dst ++ ztake size (unread (ctx s))), s') /\
    rx_inv (ctx s') /\ _pcb (ctx s') = _pcb (ctx s) /\
    unread (ctx s') = zdrop size (unread (ctx s)).
Proof.
  induction fuel as [| fuel IH]; intros size size_read dst s Hinv Hsz Hsr Hmax Hfuel.
  - assert (size = 0) by lia. subst size. exists s.
    rewrite read_loop_zero, Z.add_0_r. unfold ztake. simpl. rewrite app_nil_r.
    auto.
  - destruct (Z.eq_dec size 0) as [-> | Hnz].
    + exists s. rewrite read_loop_zero, Z.add_0_r. unfold ztake. simpl.
      rewrite app_nil_r. auto.
    + pose proof (zlength_unread _ Hinv) as Hlen.
      destruct (_rx_buf (ctx s)) as [| p next] eqn:Hrx.
      { assert (unread (ctx s) = []) as E.
        { unfold unread. rewrite Hrx. unfold chain_bytes, zdrop. simpl.
          apply skipn_nil. }
        rewrite E in Hsz. unfold zlength in Hsz. simpl in Hsz. lia. }
      pose proof (unread_head _ _ _ Hrx Hinv) as Hun.
      assert (Hinv' := Hinv). destruct Hinv' as [Hwf Hoff].
      rewrite Hrx in Hwf, Hoff. simpl in Hwf.
      destruct Hwf as (Hl & Hp & Ht & Hm & Hr).
      pose proof (head_tot_nonneg _ Hr) as Hr0.
      set (copy := if size <? len p - _rx_buf_offset (ctx s)
                   then size else len p - _rx_buf_offset (ctx s)).
      assert (1 <= copy <= size /\ copy <= len p - _rx_buf_offset (ctx s)) as Hc.
      { unfold copy. destruct (Z.ltb_spec size (len p - _rx_buf_offset (ctx s))); lia. }
      destruct (consume_ok s p next copy Hrx Hinv ltac:(lia))
        as (s1 & Hcons & Hinv1 & Hpcb1 & _ & Hun1).
      specialize (Hun1 ltac:(lia)).
      destruct (IH (size - copy) (size_read + copy)
                  (dst ++ ztake copy (zdrop (_rx_buf_offset (ctx s)) (payload p))) s1)
        as (s2 & Hrun & Hinv2 & Hpcb2 & Hun2); try assumption; try lia.
      { rewrite Hun1, zlength_zdrop; lia. }
      exists s2. split; [| split; [assumption | split]].
      * simpl. destruct (Z.eqb_spec size 0); [lia |].
        unfold bind at 1, self at 1. rewrite Hrx.
        rewrite (u32_small (len p - _rx_buf_offset (ctx s))) by lia.
        fold copy. unfold bind at 1.
        rewrite memcpy_from_ok by lia.
        unfold bind at 1. rewrite Hcons.
        rewrite (u32_small (size - copy)), (u32_small (size_read + copy)) by lia.
        rewrite Hrun. f_equal. f_equal. f_equal; [lia |].
        rewrite <- app_assoc. f_equal.
        replace size with (copy + (size - copy)) at 2 by lia.
        rewrite ztake_add by lia. rewrite Hun1. f_equal.
        rewrite Hun. symmetry. apply ztake_app_l.
        rewrite zlength_zdrop; lia.
      * congruence.
      * rewrite Hun2, Hun1, zdrop_zdrop by lia. f_equal. lia.
Qed.

Lemma getSize_ok s :
  rx_inv (ctx s) -> getSize s = Done (zlength (unread (ctx s)), s).
Proof.
  intros Hinv. pose proof (zlength_unread _ Hinv) as Hlen.
  destruct Hinv as [Hwf Hoff]. unfold getSize. run.
  destruct (_rx_buf (ctx s)) as [| p next] eqn:Hrx.
  - rewrite Hlen. reflexivity.
  - pose proof (head_tot_nonneg next) as Hn.
    simpl in Hwf, Hlen. destruct Hwf as (Hl & Hp & Ht & Hm & Hr). specialize (Hn Hr).
    rewrite u32_small by lia. now rewrite Hlen.
Qed.

Lemma read_buf_ok size s :
  rx_inv (ctx s) -> 0 <= size < 4294967296 ->
  exists s',
    read_buf size s
      = Done ((Z.min size (zlength (unread (ctx s))), ztake size (unread (ctx s))), s') /\
    rx_inv (ctx s') /\ _pcb (ctx s') = _pcb (ctx s) /\
    unread (ctx s') = zdrop size (unread (ctx s)).
Proof.
  intros Hinv Hsz. pose proof (zlength_unread _ Hinv) as Hlen.
  unfold read_buf. unfold bind at 1, self at 1.
  destruct (_rx_buf (ctx s)) as [| p next] eqn:Hrx.
  - assert (unread (ctx s) = []) as E.
    { unfold unread. rewrite Hrx. unfold chain_bytes, zdrop. simpl. apply skipn_nil. }
    exists s. rewrite E. unfold ret, ztake, zdrop, zlength. simpl.
    rewrite firstn_nil, skipn_nil, Z.min_r by lia. auto.
  - assert (Hinv' := Hinv). destruct Hinv' as [Hwf Hoff].
    rewrite Hrx in Hwf, Hoff. simpl in Hwf.
    destruct Hwf as (Hl & Hp & Ht & Hm & Hr).
    pose proof (head_tot_nonneg _ Hr) as Hn. simpl in Hlen.
    rewrite u32_small by lia. rewrite <- Hlen.
    set (n := if size <? zlength (unread (ctx s)) then size else zlength (unread (ctx s))).
    assert (n = Z.min size (zlength (unread (ctx s)))) as Hnmin.
    { unfold n. destruct (Z.ltb_spec size (zlength (unread (ctx s)))); lia. }
    destruct (read_loop_ok (Z.to_nat n + length (p :: next)) n 0 [] s)
      as (s' & Hrun & Hinv' & Hpcb' & Hun'); try assumption; try lia.
    exists s'. rewrite Hrun. simpl. rewrite <- Hnmin.
    split; [| split; [assumption | split; [assumption |]]].
    + f_equal. f_equal. f_equal.
      destruct (Z_le_gt_dec size (zlength (unread (ctx s)))).
      * f_equal. lia.
      * rewrite !ztake_all by lia. reflexivity.
    + rewrite Hun'. destruct (Z_le_gt_dec size (zlength (unread (ctx s)))).
      * f_equal. lia.
      * rewrite !zdrop_all by lia. reflexivity.
Qed.

Lemma read_ok s :
  rx_inv (ctx s) ->
  exists b s',
    read s = Done (b, s') /\ rx_inv (ctx s') /\ _pcb (ctx s') = _pcb (ctx s) /\
    unread (ctx s') = zdrop 1 (unread (ctx s)) /\
    ztake 1 (unread (ctx s)) = (if zlength (unread (ctx s)) =? 0 then [] else [b]).
Proof.
  intros Hinv. pose proof (zlength_unread _ Hinv) as Hlen.
  unfold read. unfold bind at 1, self at 1.
  destruct (_rx_buf (ctx s)) as [| p next] eqn:Hrx.
  - assert (unread (ctx s) = []) as E.
    { unfold unread. rewrite Hrx. unfold chain_bytes, zdrop. simpl. apply skipn_nil. }
    exists x00, s. rewrite E. unfold ret. simpl. auto.
  - pose proof (unread_head _ _ _ Hrx Hinv) as Hun.
    assert (Hinv' := Hinv). destruct Hinv' as [Hwf Hoff].
    rewrite Hrx in Hwf, Hoff. simpl in Hwf.
    destruct Hwf as (Hl & Hp & Ht & Hm & Hr).
    pose proof (head_tot_nonneg _ Hr) as Hn. simpl in Hlen.
    destruct (payload_at_ok p (_rx_buf_offset (ctx s)) s Hl Hoff) as (b & Hb & Hcons).
    destruct (consume_ok s p next 1 Hrx Hinv ltac:(lia))
      as (s1 & Hc & Hinv1 & Hpcb1 & _ & Hun1).
    specialize (Hun1 ltac:(lia)).
    exists b, s1. unfold bind. rewrite Hb, Hc. unfold ret.
    split; [reflexivity | split; [assumption | split; [assumption | split; [assumption |]]]].
    rewrite Hun, Hcons.
    destruct (Z.eqb_spec (zlength ((b :: zdrop (_rx_buf_offset (ctx s) + 1) (payload p)) ++ chain_bytes next)) 0) as [E |]; [| reflexivity].
    unfold zlength in E. simpl in E. lia.
Qed.

Lemma unread_null c : _rx_buf c = [] -> unread c = [].
Proof.
  intros H. unfold unread. rewrite H. unfold chain_bytes, zdrop. simpl.
  apply skipn_nil.
Qed.

Lemma demand_nonneg ops : Forall read_op_ok ops -> 0 <= demand ops.
Proof.
  induction ops as [| op ops IH]; intros H; cbn [demand]; [lia |].
  inversion H as [| ? ? Hop Hrest]; subst. specialize (IH Hrest).
  destruct op; cbn [op_size read_op_ok] in *; lia.
Qed.

Lemma run_read_ok op s :
  rx_inv (ctx s) -> read_op_ok op ->
  exists s',
    run_read op s = Done (ztake (op_size op) (unread (ctx s)), s') /\
    rx_inv (ctx s') /\ _pcb (ctx s') = _pcb (ctx s) /\
    unread (ctx s') = zdrop (op_size op) (unread (ctx s)).
Proof.
  intros Hinv Hop. destruct op as [| size]; simpl in *.
  - destruct (read_ok s Hinv) as (b & s' & Hrd & Hinv' & Hpcb & Hun & Hb).
    exists s'. unfold bind. rewrite (getSize_ok s Hinv), Hrd. unfold ret.
    rewrite Hb. auto.
  - destruct (read_buf_ok size s Hinv Hop) as (s' & Hrd & Hinv' & Hpcb & Hun).
    exists s'. unfold bind. rewrite Hrd. unfold ret. simpl. auto.
Qed.

Lemma run_reads_ok ops : forall s,
  rx_inv (ctx s) -> Forall read_op_ok ops ->
  exists s',
    run_reads ops s = Done (ztake (demand ops) (unread (ctx s)), s') /\
    rx_inv (ctx s') /\ _pcb (ctx s') = _pcb (ctx s) /\
    unread (ctx s') = zdrop (demand ops) (unread (ctx s)).
Proof.
  induction ops as [| op ops IH]; intros s Hinv Hops.
  - exists s. simpl. unfold ret, ztake, zdrop. simpl. auto.
  - inversion Hops as [| ? ? Hop Hrest]; subst.
    destruct (run_read_ok op s Hinv Hop) as (s1 & H1 & Hinv1 & Hpcb1 & Hun1).
    destruct (IH s1 Hinv1 Hrest) as (s2 & H2 & Hinv2 & Hpcb2 & Hun2).
    pose proof (demand_nonneg _ Hrest) as Hd.
    assert (0 <= op_size op) as Ho by (destruct op; cbn [op_size read_op_ok] in *; lia).
    exists s2. cbn [run_reads demand]. unfold bind. rewrite H1, H2. unfold ret.
    split; [| split; [assumption | split; [congruence |]]].
    + rewrite ztake_add, Hun1 by assumption. reflexivity.
    + rewrite Hun2, Hun1, zdrop_zdrop by assumption. reflexivity.
Qed.

Lemma recv_data_ok pb s :
  pb <> [] -> chain_wf pb -> rx_inv (ctx s) ->
  head_tot (_rx_buf (ctx s)) + head_tot pb <= 65535 ->
  exists s',
    _recv pb s = Done (ERR_OK, s') /\ rx_inv (ctx s') /\
    unread (ctx s') = unread (ctx s) ++ chain_bytes pb /\
    head_tot (_rx_buf (ctx s')) = head_tot (_rx_buf (ctx s)) + head_tot pb /\
    _pcb (ctx s') = _pcb (ctx s) /\ env s' = env s.
Proof.
  intros Hne Hpb Hinv Hb. destruct pb as [| q qs]; [congruence |].
  unfold _recv. run. destruct s as [c w]. simpl in *.
  destruct (_rx_buf c) as [| p next] eqn:Hrx.
  - eexists. split; [reflexivity |]. simpl.
    rewrite (unread_null c Hrx). unfold rx_inv, unread. simpl. simpl in Hpb.
    repeat split; try tauto; lia.
  - eexists. split; [reflexivity |]. simpl.
    destruct Hinv as [Hwf Hoff]. rewrite Hrx in Hwf, Hoff.
    destruct (pbuf_cat_spec (p :: next) (q :: qs) Hwf Hpb Hb) as (Hc1 & Hc2 & Hc3).
    unfold rx_inv, unread. simpl _rx_buf. simpl _rx_buf_offset. simpl _pcb.
    rewrite Hrx, Hc2.
    split; [split; [assumption | exact Hoff] |].
    split; [| split; [exact Hc3 | split; reflexivity]].
    apply zdrop_app_l. simpl in Hwf. destruct Hwf as (Hl & Hp & Ht & Hm & Hr).
    unfold chain_bytes. simpl. rewrite zlength_app.
    pose proof (zlength_nonneg (concat (map payload next))). lia.
Qed.

Lemma deliver_ok segs : forall s,
  rx_inv (ctx s) ->
  Forall (fun pb => pb <> [] /\ chain_wf pb) segs ->
  head_tot (_rx_buf (ctx s)) + zlength (concat (map chain_bytes segs)) <= 65535 ->
  exists s',
    deliver segs s = Done (repeat ERR_OK (length segs), s') /\ rx_inv (ctx s') /\
    unread (ctx s') = unread (ctx s) ++ concat (map chain_bytes segs) /\
    _pcb (ctx s') = _pcb (ctx s) /\ env s' = env s.
Proof.
  induction segs as [| pb segs IH]; intros s Hinv Hsegs Hb.
  - exists s. simpl. unfold ret. rewrite app_nil_r. auto.
  - inversion Hsegs as [| ? ? [Hne Hwf] Hrest]; subst.
    simpl in Hb. rewrite zlength_app in Hb.
    pose proof (zlength_nonneg (concat (map chain_bytes segs))) as Hn.
    rewrite <- head_tot_bytes in Hb by assumption.
    destruct (recv_data_ok pb s Hne Hwf Hinv ltac:(lia))
      as (s1 & H1 & Hinv1 & Hun1 & Htot1 & Hpcb1 & Henv1).
    destruct (IH s1 Hinv1 Hrest ltac:(lia)) as (s2 & H2 & Hinv2 & Hun2 & Hpcb2 & Henv2).
    exists s2. simpl. unfold bind. rewrite H1, H2. unfold ret.
    split; [reflexivity | split; [assumption | split; [| split; congruence]]].
    rewrite Hun2, Hun1, app_assoc. reflexivity.
Qed.

(** C1.  Segments delivered to a context with an empty receive chain, well
    formed and together within the window that lwIP's 16-bit chain length can
    express, are all accepted; [getSize] then reports the length of their
    concatenation [P]; and whatever the later sequence of [read()] and
    [read(dst, size)] calls, the bytes handed out are the first bytes of [P],
    in arrival order, as many as were asked for, all of [P] once enough were
    asked for. *)
Theorem recv_then_read_stream (segs : list chain) (s : State) :
  _rx_buf (ctx s) = [] ->
  Forall (fun pb => pb <> [] /\ chain_wf pb) segs ->
  zlength (concat (map chain_bytes segs)) <= 65535 ->
  exists s1,
    deliver segs s = Done (repeat ERR_OK (length segs), s1) /\
    getSize s1 = Done (zlength (concat (map chain_bytes segs)), s1) /\
    forall ops, Forall read_op_ok ops ->
      exists s2,
        run_reads ops s1
          = Done (ztake (demand ops) (concat (map chain_bytes segs)), s2) /\
        unread (ctx s2) = zdrop (demand ops) (concat (map chain_bytes segs)) /\
        (zlength (concat (map chain_bytes segs)) <= demand ops ->
         run_reads ops s1 = Done (concat (map chain_bytes segs), s2)).
Proof.
  intros Hrx Hsegs Hb.
  assert (rx_inv (ctx s)) as Hinv by (unfold rx_inv; rewrite Hrx; simpl; auto).
  destruct (deliver_ok segs s Hinv Hsegs) as (s1 & H1 & Hinv1 & Hun1 & _).
  { rewrite Hrx. simpl. lia. }
  rewrite (unread_null _ Hrx) in Hun1. simpl in Hun1.
  exists s1. split; [assumption |]. split.
  - rewrite getSize_ok, Hun1 by assumption. reflexivity.
  - intros ops Hops.
    destruct (run_reads_ok ops s1 Hinv1 Hops) as (s2 & H2 & _ & _ & Hun2).
    rewrite Hun1 in H2, Hun2. exists s2.
    split; [assumption | split; [assumption |]].
    intros Hall. rewrite H2, ztake_all by assumption. reflexivity.
Qed.

Lemma recv_then_read_stream_witness :
  exists s1,
    deliver demo_segs demo_state = Done (repeat ERR_OK (length demo_segs), s1) /\
    getSize s1 = Done (zlength (concat (map chain_bytes demo_segs)), s1) /\
    forall ops, Forall read_op_ok ops ->
      exists s2,
        run_reads ops s1
          = Done (ztake (demand ops) (concat (map chain_bytes demo_segs)), s2) /\
        unread (ctx s2) = zdrop (demand ops) (concat (map chain_bytes demo_segs)) /\
        (zlength (concat (map chain_bytes demo_segs)) <= demand ops ->
         run_reads ops s1 = Done (concat (map chain_bytes demo_segs), s2)).
Proof.
  apply (recv_then_read_stream demo_segs demo_state).
  - reflexivity.
  - repeat (apply Forall_cons || apply Forall_nil);
      (split; [discriminate | simpl; unfold zlength; simpl; lia]).
  - unfold zlength. simpl. lia.
Defined.

(** ** Peeking *)

Lemma payload_at_pure p i s b s' : payload_at p i s = Done (b, s') -> s' = s.
Proof.
  unfold payload_at.
  destruct (if i <? 0 then None else nth_error (payload p) (Z.to_nat i));
    unfold ret, fail; intros H; now inversion H.
Qed.

Lemma memcpy_from_pure p off n s l s' :
  memcpy_from p off n s = Done (l, s') -> s' = s.
Proof.
  unfold memcpy_from.
  destruct ((0 <=? off) && (0 <=? n) && (off + n <=? Z.of_nat (length (payload p))));
    unfold ret, fail; intros H; now inversion H.
Qed.

Lemma peek_pure s b s' : peek s = Done (b, s') -> s' = s.
Proof.
  unfold peek. unfold bind, self. destruct (_rx_buf (ctx s)) as [| p next].
  - unfold ret. intros H. now inversion H.
  - apply payload_at_pure.
Qed.

Lemma peekBytes_pure size s r s' : peekBytes size s = Done (r, s') -> s' = s.
Proof.
  unfold peekBytes. unfold bind, self. destruct (_rx_buf (ctx s)) as [| p next].
  - unfold ret. intros H. now inversion H.
  - match goal with |- context [memcpy_from ?a ?b ?c ?d] =>
      destruct (memcpy_from a b c d) as [[l s0] |] eqn:E end.
    + apply memcpy_from_pure in E. subst s0. unfold ret. intros H. now inversion H.
    + discriminate.
Qed.

Lemma peekBytes_ok size s :
  rx_inv (ctx s) -> 0 <= size < 4294967296 ->
  peekBytes size s
    = Done ((Z.min size (head_avail (ctx s)),
             ztake (Z.min size (head_avail (ctx s))) (unread (ctx s))), s).
Proof.
  intros Hinv Hsz. pose proof (zlength_unread _ Hinv) as Hlen.
  unfold peekBytes, head_avail. unfold bind at 1, self at 1.
  destruct (_rx_buf (ctx s)) as [| p next] eqn:Hrx.
  - rewrite (unread_null _ Hrx). unfold ret, ztake.
    rewrite Z.min_r by lia. reflexivity.
  - pose proof (unread_head _ _ _ Hrx Hinv) as Hun.
    destruct Hinv as [Hwf Hoff]. rewrite Hrx in Hwf, Hoff. simpl in Hwf.
    destruct Hwf as (Hl & Hp & Ht & Hm & Hr).
    pose proof (head_tot_nonneg _ Hr) as Hn.
    rewrite !u32_small by lia.
    set (sz := if size <? tot_len p - _rx_buf_offset (ctx s)
               then size else tot_len p - _rx_buf_offset (ctx s)).
    set (copy := if sz <? len p - _rx_buf_offset (ctx s)
                 then sz else len p - _rx_buf_offset (ctx s)).
    assert (copy = Z.min size (len p - _rx_buf_offset (ctx s))) as Hc.
    { unfold copy, sz.
      destruct (Z.ltb_spec size (tot_len p - _rx_buf_offset (ctx s)));
        match goal with |- context [?a <? ?b] => destruct (Z.ltb_spec a b) end; lia. }
    unfold bind. rewrite memcpy_from_ok by lia. unfold ret.
    rewrite <- Hc, Hun. f_equal. f_equal. f_equal.
    symmetry. apply ztake_app_l. rewrite zlength_zdrop; lia.
Qed.

(** C2.  [peek()] and [peekBytes(dst, size)] hand back the state they were
    given, whatever that state is: chain head, read offset and [getSize()]
    are those of before.  On a context that satisfies the receive-buffer
    invariant both calls return, and [peek()] followed by [read()] yields the
    same byte twice; when data is available that byte is the first unread
    one, and the read consumed it. *)
Theorem peek_leaves_state (s : State) (size : Z) :
  (forall b s', peek s = Done (b, s') ->
     s' = s /\ _rx_buf (ctx s') = _rx_buf (ctx s) /\
     _rx_buf_offset (ctx s') = _rx_buf_offset (ctx s) /\ getSize s' = getSize s) /\
  (forall r s', peekBytes size s = Done (r, s') ->
     s' = s /\ _rx_buf (ctx s') = _rx_buf (ctx s) /\
     _rx_buf_offset (ctx s') = _rx_buf_offset (ctx s) /\ getSize s' = getSize s) /\
  (rx_inv (ctx s) -> 0 <= size < 4294967296 ->
     (exists r, peekBytes size s = Done (r, s)) /\
     exists b s',
       peek s = Done (b, s) /\
       (b1 <- peek ;; b2 <- read ;; ret (b1, b2)) s = Done ((b, b), s') /\
       (0 < zlength (unread (ctx s)) -> unread (ctx s) = b :: unread (ctx s'))).
Proof.
  split; [| split].
  - intros b s' H. apply peek_pure in H. subst. auto.
  - intros r s' H. apply peekBytes_pure in H. subst. auto.
  - intros Hinv Hsz. split.
    + eexists. apply peekBytes_ok; assumption.
    + destruct (read_ok s Hinv) as (b & s' & Hrd & Hinv' & Hpcb & Hun & Hb).
      assert (peek s = Done (b, s)) as Hpk.
      { revert Hrd. unfold read, peek. run.
        destruct (_rx_buf (ctx s)) as [| p next].
        - intros H. inversion H. reflexivity.
        - destruct (payload_at p (_rx_buf_offset (ctx s)) s) as [[b0 s0] |] eqn:Hp;
            [| discriminate].
          assert (s0 = s) as -> by (eapply payload_at_pure; eassumption).
          destruct (_consume 1 s) as [[[] s1] |]; [| discriminate].
          intros H. inversion H. reflexivity. }
      exists b, s'. split; [assumption | split].
      * unfold bind. rewrite Hpk, Hrd. reflexivity.
      * intros Hpos. destruct (unread (ctx s)) as [| x l] eqn:E.
        { unfold zlength in Hpos. simpl in Hpos. lia. }
        destruct (Z.eqb_spec (zlength (x :: l)) 0) as [E0 |].
        { unfold zlength in E0. simpl in E0. lia. }
        unfold ztake in Hb. simpl in Hb. inversion Hb. subst x.
        rewrite Hun. reflexivity.
Qed.

Lemma peek_leaves_state_witness :
  (exists r, peekBytes 4 demo_rx_state = Done (r, demo_rx_state)) /\
  exists b s',
    peek demo_rx_state = Done (b, demo_rx_state) /\
    (b1 <- peek ;; b2 <- read ;; ret (b1, b2)) demo_rx_state = Done ((b, b), s') /\
    (0 < zlength (unread (ctx demo_rx_state)) ->
     unread (ctx demo_rx_state) = b :: unread (ctx s')).
Proof.
  apply (peek_leaves_state demo_rx_state 4).
  - unfold rx_inv. simpl. unfold zlength. simpl. lia.
  - lia.
Defined.

(** C10.  With a non-null chain, [peekBytes(dst, size)] copies from the head
    pbuf only: it returns the minimum of [size] and the bytes left in the
    head, and those bytes are the next unread ones of the head payload.  When
    the chain has a further pbuf and [size] exceeds what the head still
    holds, the result is below both [size] and [getSize()], whereas
    [read(dst, size)] on the same state returns the minimum of [size] and
    [getSize()]. *)
Theorem peekBytes_head_only (s : State) (size : Z) (p : pbuf) (next : chain) :
  rx_inv (ctx s) -> _rx_buf (ctx s) = p :: next -> 0 <= size < 4294967296 ->
  let n := Z.min size (len p - _rx_buf_offset (ctx s)) in
  peekBytes size s
    = Done ((n, ztake n (zdrop (_rx_buf_offset (ctx s)) (payload p))), s) /\
  (exists s', read_buf size s
     = Done ((Z.min size (zlength (unread (ctx s))), ztake size (unread (ctx s))), s')) /\
  getSize s = Done (zlength (unread (ctx s)), s) /\
  (next <> [] -> len p - _rx_buf_offset (ctx s) < size ->
   n < size /\ n < zlength (unread (ctx s)) /\
   n < Z.min size (zlength (unread (ctx s)))).
Proof.
  intros Hinv Hrx Hsz n.
  pose proof (unread_head _ _ _ Hrx Hinv) as Hun.
  pose proof (zlength_unread _ Hinv) as Hlen. rewrite Hrx in Hlen. simpl in Hlen.
  assert (Hinv' := Hinv). destruct Hinv' as [Hwf Hoff].
  rewrite Hrx in Hwf, Hoff. simpl in Hwf.
  destruct Hwf as (Hl & Hp & Ht & Hm & Hr).
  split; [| split; [| split]].
  - rewrite peekBytes_ok by assumption. unfold head_avail. rewrite Hrx. fold n.
    f_equal. f_equal. f_equal. rewrite Hun. apply ztake_app_l.
    rewrite zlength_zdrop; lia.
  - destruct (read_buf_ok size s Hinv Hsz) as (s' & H & _). eauto.
  - apply getSize_ok. assumption.
  - intros Hnext Hbig. destruct next as [| q r]; [congruence |].
    simpl in Hr. destruct Hr as (Hql & Hqp & Hqt & Hqm & Hqr).
    pose proof (head_tot_nonneg _ Hqr). simpl in Ht. lia.
Qed.

Lemma peekBytes_head_only_witness :
  peekBytes 4 demo_rx_state = Done ((1, [x0b]), demo_rx_state) /\
  getSize demo_rx_state = Done (6, demo_rx_state).
Proof.
  pose proof (peekBytes_head_only demo_rx_state 4 (mk_pbuf [x0a; x0b] 2 7)
                [mk_pbuf [x01; x02] 2 5; mk_pbuf [x03; x04; x05] 3 3]) as H.
  destruct H as (H1 & _ & H3 & _).
  - unfold rx_inv. simpl. unfold zlength. simpl. lia.
  - reflexivity.
  - lia.
  - split; [exact H1 | exact H3].
Defined.

(** ** The fuel of [read(dst, size)]

    It covers every state: a turn of the loop that copies nothing drops the
    head pbuf. *)

Lemma consume_length s p next n :
  _rx_buf (ctx s) = p :: next ->
  exists s',
    _consume n s = Done (tt, s') /\
    length (_rx_buf (ctx s'))
    = (if 0 <? s32 (len p - _rx_buf_offset (ctx s) - n)
       then S (length next) else length next).
Proof.
  intros Hrx. destruct s as [c w]. cbn [ctx env] in *.
  unfold _consume. unfold bind at 1, self at 1. cbn [ctx]. rewrite Hrx.
  destruct (0 <? s32 (len p - _rx_buf_offset c - n));
    [| destruct next as [| q r]]; destruct (_pcb c); run;
    eexists; (split; [reflexivity |]); reflexivity.
Qed.

Lemma read_loop_fuel fuel : forall size size_read dst s,
  0 <= size < 4294967296 ->
  (Z.to_nat size + length (_rx_buf (ctx s)) <= fuel)%nat ->
  read_loop fuel size size_read dst s <> Fault OutOfFuel.
Proof.
  induction fuel as [| fuel IH]; intros size size_read dst s Hsz Hfuel.
  - assert (size = 0) as -> by lia. rewrite read_loop_zero. discriminate.
  - destruct (Z.eq_dec size 0) as [-> | Hnz]; [rewrite read_loop_zero; discriminate |].
    cbn [read_loop]. destruct (Z.eqb_spec size 0); [lia |].
    unfold bind at 1, self at 1.
    destruct (_rx_buf (ctx s)) as [| p next] eqn:Hrx; [discriminate |].
    set (bs := u32 (len p - _rx_buf_offset (ctx s))).
    assert (0 <= bs < 4294967296) as Hbs by (apply Z.mod_pos_bound; lia).
    set (copy := if size <? bs then size else bs).
    assert (0 <= copy <= size) as Hc
      by (unfold copy; destruct (Z.ltb_spec size bs); lia).
    unfold bind at 1.
    destruct (memcpy_from p (_rx_buf_offset (ctx s)) copy s) as [[bytes s0] | f] eqn:Hm.
    2: { unfold memcpy_from in Hm.
         destruct ((0 <=? _rx_buf_offset (ctx s)) && (0 <=? copy)
                   && (_rx_buf_offset (ctx s) + copy <=? Z.of_nat (length (payload p))));
           [discriminate |]. unfold fail in Hm. inversion Hm. discriminate. }
    apply memcpy_from_pure in Hm. subst s0.
    destruct (consume_length s p next copy Hrx) as (s1 & Hcons & Hlen).
    unfold bind at 1. rewrite Hcons.
    apply IH; [apply Z.mod_pos_bound; lia |].
    rewrite (u32_small (size - copy)) by lia. rewrite Hlen.
    destruct (Z.eq_dec copy 0) as [Hc0 | Hc0].
    + assert (bs = 0) as Hb0
        by (unfold copy in Hc0; destruct (Z.ltb_spec size bs); lia).
      assert (s32 (len p - _rx_buf_offset (ctx s) - copy) = 0) as ->.
      { rewrite Hc0, Z.sub_0_r. unfold s32. fold bs. rewrite Hb0. reflexivity. }
      simpl in *. lia.
    + destruct (0 <? s32 (len p - _rx_buf_offset (ctx s) - copy)); simpl in *; lia.
Qed.

Lemma read_buf_fuel size s :
  0 <= size < 4294967296 -> read_buf size s <> Fault OutOfFuel.
Proof.
  intros Hsz. unfold read_buf. unfold bind, self.
  destruct (_rx_buf (ctx s)) as [| p next] eqn:Hrx; [discriminate |].
  set (mx := u32 (tot_len p - _rx_buf_offset (ctx s))).
  assert (0 <= mx < 4294967296) as Hmx by (apply Z.mod_pos_bound; lia).
  apply read_loop_fuel.
  - destruct (Z.ltb_spec size mx); lia.
  - rewrite Hrx. lia.
Qed.

(** ** Teardown and the peer-close callback *)

Lemma abort_ok s :
  exists s',
    abort s = Done (ERR_ABRT, s') /\ _pcb (ctx s') = None /\
    _rx_buf (ctx s') = _rx_buf (ctx s) /\
    _rx_buf_offset (ctx s') = _rx_buf_offset (ctx s) /\
    calls (env s') = calls (env s)
                     ++ match _pcb (ctx s) with
                        | Some _ => detach_and_abort
                        | None => []
                        end.
Proof.
  destruct s as [c w]. unfold abort. run.
  destruct (_pcb c) eqn:Hp; simpl; eexists; (split; [reflexivity |]); simpl.
  - rewrite <- !app_assoc. simpl. auto.
  - rewrite app_nil_r. auto.
Qed.

Lemma notify_error_ok s :
  exists s',
    _notify_error s = Done (tt, s') /\ _pcb (ctx s') = _pcb (ctx s) /\
    _rx_buf (ctx s') = _rx_buf (ctx s) /\
    _rx_buf_offset (ctx s') = _rx_buf_offset (ctx s) /\
    _connect_pending (ctx s') = false /\ _send_waiting (ctx s') = false /\
    env s' = env s.
Proof.
  destruct s as [c w]. unfold _notify_error. run.
  destruct (_connect_pending c) eqn:E1; destruct (_send_waiting c) eqn:E2; simpl;
    eexists; (split; [reflexivity |]); simpl; auto 10.
Qed.

Lemma rx_inv_same c c' :
  _rx_buf c' = _rx_buf c -> _rx_buf_offset c' = _rx_buf_offset c ->
  rx_inv c -> rx_inv c' /\ unread c' = unread c.
Proof.
  intros H1 H2 H. unfold rx_inv, unread in *. rewrite H1, H2. auto.
Qed.



(** C5.  The peer-close callback on a context that satisfies the
    receive-buffer invariant.  With unread bytes left it returns [ERR_OK],
    keeps the transport handle, calls nothing in the stack, and every later
    sequence of reads still hands out those bytes in order.  With nothing
    left it returns [ERR_ABRT] and the handle is null; if there was a handle,
    its callbacks were detached and [tcp_abort] was called. *)
Theorem peer_close_defers_teardown (s : State) :
  rx_inv (ctx s) ->
  (0 < zlength (unread (ctx s)) ->
   exists s',
     _recv [] s = Done (ERR_OK, s') /\
     _pcb (ctx s') = _pcb (ctx s) /\ calls (env s') = calls (env s) /\
     getSize s' = Done (zlength (unread (ctx s)), s') /\
     forall ops, Forall read_op_ok ops ->
       exists s'', run_reads ops s'
                   = Done (ztake (demand ops) (unread (ctx s)), s'')) /\
  (zlength (unread (ctx s)) = 0 ->
   exists s',
     _recv [] s = Done (ERR_ABRT, s') /\ _pcb (ctx s') = None /\
     calls (env s') = calls (env s)
                      ++ match _pcb (ctx s) with
                         | Some _ => detach_and_abort
                         | None => []
                         end).
Proof.
  intros Hinv. pose proof (zlength_unread _ Hinv) as Hlen.
  destruct (notify_error_ok s) as (s1 & Hne & Hpcb1 & Hrx1 & Hoff1 & _ & _ & Henv1).
  destruct (rx_inv_same _ _ Hrx1 Hoff1 Hinv) as [Hinv1 Hun1].
  split.
  - intros Hpos.
    assert (_rx_buf (ctx s) <> [] /\ head_tot (_rx_buf (ctx s)) <> 0) as [Hnn Hnz].
    { destruct (_rx_buf (ctx s)) as [| p next] eqn:Hrx.
      - simpl in Hlen. lia.
      - split; [discriminate |]. destruct Hinv as [_ Hoff]. rewrite Hrx in Hoff.
        lia. }
    exists s1. split; [| split; [assumption | split; [congruence | split]]].
    + unfold _recv. unfold bind at 1. rewrite Hne. unfold bind, self.
      rewrite Hrx1. destruct (_rx_buf (ctx s)); [congruence |].
      simpl in *. destruct (Z.eqb_spec (tot_len p) 0); [lia |]. reflexivity.
    + rewrite getSize_ok, Hun1 by assumption. reflexivity.
    + intros ops Hops.
      destruct (run_reads_ok ops s1 Hinv1 Hops) as (s2 & H2 & _).
      rewrite Hun1 in H2. eauto.
  - intros Hz.
    assert (_rx_buf (ctx s) = []) as Hrx.
    { destruct (_rx_buf (ctx s)) as [| p next] eqn:Hrx; [reflexivity |].
      destruct Hinv as [Hwf Hoff]. rewrite Hrx in Hwf, Hoff. simpl in *.
      destruct Hwf as (_ & _ & Ht & _ & Hr). pose proof (head_tot_nonneg _ Hr). lia. }
    destruct (abort_ok s1) as (s2 & Hab & Hpcb2 & _ & _ & Hcalls2).
    exists s2. split; [| split; [assumption |]].
    + unfold _recv. unfold bind at 1. rewrite Hne. unfold bind at 1, self.
      rewrite Hrx1, Hrx. simpl. unfold bind. rewrite Hab. reflexivity.
    + rewrite Hcalls2, Hpcb1, Henv1. reflexivity.
Qed.

Lemma peer_close_defers_teardown_witness :
  exists s',
    _recv [] demo_rx_state = Done (ERR_OK, s') /\
    _pcb (ctx s') = _pcb (ctx demo_rx_state) /\
    calls (env s') = calls (env demo_rx_state) /\
    getSize s' = Done (zlength (unread (ctx demo_rx_state)), s') /\
    forall ops, Forall read_op_ok ops ->
      exists s'', run_reads ops s'
                  = Done (ztake (demand ops) (unread (ctx demo_rx_state)), s'').
Proof.
  apply (peer_close_defers_teardown demo_rx_state).
  - unfold rx_inv. simpl. unfold zlength. simpl. lia.
  - unfold zlength. simpl. lia.
Defined.

(** ** The receive-buffer invariant *)





(** ** Keep-alive *)

Ltac run_z := unfold bind, ret, self, update, fail, when, call;
  cbn -[Z.mul Z.add Z.sub Z.div Z.modulo Z.land Z.lor Z.lnot Z.shiftl Z.shiftr
        Z.min Z.eqb Z.ltb Z.leb u8 u16 u32 s8 s32].

Lemma testbit_8 n : 0 <= n -> Z.testbit 8 n = (3 =? n).
Proof. intros H. change 8 with (2 ^ 3). apply Z.pow2_bits_eqb. lia. Qed.

Lemma keepalive_bit_set x :
  (Z.land (u8 (Z.lor x SOF_KEEPALIVE)) SOF_KEEPALIVE =? 0) = false.
Proof.
  apply Z.eqb_neq. intros H.
  assert (Z.testbit (Z.land (u8 (Z.lor x SOF_KEEPALIVE)) SOF_KEEPALIVE) 3 = false) as Hb
    by (rewrite H; apply Z.bits_0).
  unfold u8, SOF_KEEPALIVE in Hb. change 256 with (2 ^ 8) in Hb.
  rewrite Z.land_spec, Z.mod_pow2_bits_low, Z.lor_spec in Hb by lia.
  rewrite testbit_8 in Hb by lia. simpl in Hb.
  rewrite orb_true_r in Hb. discriminate.
Qed.

Lemma keepalive_bit_clear x :
  (Z.land (u8 (Z.land x (Z.lnot SOF_KEEPALIVE))) SOF_KEEPALIVE =? 0) = true.
Proof.
  apply Z.eqb_eq. apply Z.bits_inj'. intros n Hn.
  unfold u8, SOF_KEEPALIVE. change 256 with (2 ^ 8).
  rewrite Z.bits_0, Z.land_spec, testbit_8 by lia.
  destruct (Z.eqb_spec 3 n) as [<- |]; [| apply andb_false_r].
  rewrite Z.mod_pow2_bits_low, Z.land_spec, Z.lnot_spec, testbit_8 by lia.
  simpl. now rewrite andb_false_r.
Qed.

Lemma round_seconds x : 0 <= x < 65536 -> u16 (u32 (u32 (1000 * x) + 500) / 1000) = x.
Proof.
  intros H. rewrite (u32_small (1000 * x)) by lia. rewrite u32_small by lia.
  assert ((1000 * x + 500) / 1000 = x) as ->.
  { symmetry. apply Z.div_unique with (r := 500); lia. }
  apply u16_small. lia.
Qed.

(** C4.  [keepAlive(idle_sec, intv_sec, count)] on a context with a
    transport handle.  If an argument is zero, keep-alive is switched off
    and the three getters return 0.  If none is zero, keep-alive is switched
    on, idle and interval are stored as milliseconds (the value times 1000),
    each getter returns the stored value divided by 1000 after adding 500,
    and that is the value passed in, so a fortiori within half a second
    of it. *)
Theorem keepAlive_roundtrip (s : State) (p : tcp_pcb) (idle_sec intv_sec count : Z) :
  _pcb (ctx s) = Some p ->
  0 <= idle_sec < 65536 -> 0 <= intv_sec < 65536 -> 0 <= count < 256 ->
  exists s' p',
    keepAlive idle_sec intv_sec count s = Done (tt, s') /\
    _pcb (ctx s') = Some p' /\
    ((idle_sec = 0 \/ intv_sec = 0 \/ count = 0) ->
     isKeepAliveEnabled s' = Done (false, s') /\
     getKeepAliveIdle s' = Done (0, s') /\
     getKeepAliveInterval s' = Done (0, s') /\
     getKeepAliveCount s' = Done (0, s')) /\
    ((idle_sec <> 0 /\ intv_sec <> 0 /\ count <> 0) ->
     isKeepAliveEnabled s' = Done (true, s') /\
     keep_idle p' = 1000 * idle_sec /\ keep_intvl p' = 1000 * intv_sec /\
     keep_cnt p' = count /\
     getKeepAliveIdle s' = Done (u16 (u32 (keep_idle p' + 500) / 1000), s') /\
     getKeepAliveInterval s' = Done (u16 (u32 (keep_intvl p' + 500) / 1000), s') /\
     getKeepAliveIdle s' = Done (idle_sec, s') /\
     getKeepAliveInterval s' = Done (intv_sec, s') /\
     getKeepAliveCount s' = Done (count, s')).
Proof.
  intros Hp Hi Hv Hc. destruct s as [c w]. simpl in Hp.
  unfold keepAlive, deref_pcb. run_z. rewrite Hp. run_z.
  destruct (Z.eqb_spec idle_sec 0) as [Ei | Ei];
    [| destruct (Z.eqb_spec intv_sec 0) as [Ev | Ev];
       [| destruct (Z.eqb_spec count 0) as [Ec | Ec]]]; run_z.
  1, 2, 3: do 2 eexists; (split; [reflexivity |]); (split; [reflexivity |]);
    (split; [intros _ | intros (? & ? & ?); congruence]);
    unfold getKeepAliveIdle, getKeepAliveInterval, getKeepAliveCount,
      isKeepAliveEnabled, deref_pcb; run_z;
    rewrite keepalive_bit_clear; run_z; auto.
  do 2 eexists. split; [reflexivity |]. split; [reflexivity |].
  split; [intros [? | [? | ?]]; congruence | intros _].
  unfold getKeepAliveIdle, getKeepAliveInterval, getKeepAliveCount,
    isKeepAliveEnabled, deref_pcb. run_z.
  rewrite keepalive_bit_set. run_z.
  rewrite !round_seconds by assumption.
  rewrite (u8_small count), (u32_small (1000 * idle_sec)),
    (u32_small (1000 * intv_sec)) by lia.
  repeat split; try reflexivity.
Qed.

Lemma keepAlive_roundtrip_witness :
  exists s' p',
    keepAlive 30 5 3 demo_state = Done (tt, s') /\
    _pcb (ctx s') = Some p' /\
    ((30 = 0 \/ 5 = 0 \/ 3 = 0) ->
     isKeepAliveEnabled s' = Done (false, s') /\
     getKeepAliveIdle s' = Done (0, s') /\
     getKeepAliveInterval s' = Done (0, s') /\
     getKeepAliveCount s' = Done (0, s')) /\
    ((30 <> 0 /\ 5 <> 0 /\ 3 <> 0) ->
     isKeepAliveEnabled s' = Done (true, s') /\
     keep_idle p' = 1000 * 30 /\ keep_intvl p' = 1000 * 5 /\
     keep_cnt p' = 3 /\
     getKeepAliveIdle s' = Done (u16 (u32 (keep_idle p' + 500) / 1000), s') /\
     getKeepAliveInterval s' = Done (u16 (u32 (keep_intvl p' + 500) / 1000), s') /\
     getKeepAliveIdle s' = Done (30, s') /\
     getKeepAliveInterval s' = Done (5, s') /\
     getKeepAliveCount s' = Done (3, s')).
Proof.
  apply (keepAlive_roundtrip demo_state demo_pcb 30 5 3).
  - reflexivity.
  - lia.
  - lia.
  - lia.
Defined.

(** ** Reference counting *)

Lemma s8_add a b : s8 (s8 a + b) = s8 (a + b).
Proof.
  assert (u8 (s8 a + b) = u8 (a + b)) as H.
  { unfold s8, u8. destruct (a mod 256 <? 128).
    - apply Zplus_mod_idemp_l.
    - replace (a mod 256 - 256 + b) with (a mod 256 + b + (-1) * 256) by lia.
      rewrite Z_mod_plus_full. apply Zplus_mod_idemp_l. }
  unfold s8 at 1 3. rewrite H. reflexivity.
Qed.

Lemma s8_zero x : 0 < x < 256 -> s8 x <> 0.
Proof.
  intros H. unfold s8. rewrite u8_small by lia.
  destruct (Z.ltb_spec x 128); lia.
Qed.

Lemma ref_ok s n :
  _refcnt (ctx s) = s8 n ->
  exists s',
    ref s = Done (tt, s') /\ _refcnt (ctx s') = s8 (n + 1) /\
    env s' = env s /\ _rx_buf (ctx s') = _rx_buf (ctx s) /\
    _pcb (ctx s') = _pcb (ctx s) /\ _discard_cb (ctx s') = _discard_cb (ctx s).
Proof.
  intros H. destruct s as [c w]. cbn [ctx env] in *. unfold ref. run_z.
  eexists. split; [reflexivity |]. run_z. rewrite H, s8_add. auto 10.
Qed.

Lemma unref_keeps s n :
  _refcnt (ctx s) = s8 n -> 2 <= n <= 255 ->
  exists s',
    unref s = Done (tt, s') /\ _refcnt (ctx s') = s8 (n - 1) /\
    env s' = env s /\ _rx_buf (ctx s') = _rx_buf (ctx s) /\
    _pcb (ctx s') = _pcb (ctx s) /\ _discard_cb (ctx s') = _discard_cb (ctx s).
Proof.
  intros H Hn. destruct s as [c w]. cbn [ctx env] in *. unfold unref. run_z.
  rewrite H. replace (s8 n - 1) with (s8 n + -1) by lia.
  rewrite s8_add. replace (n + -1) with (n - 1) by lia.
  pose proof (s8_zero (n - 1) ltac:(lia)) as Hnz.
  destruct (Z.eqb_spec (s8 (n - 1)) 0); [contradiction |].
  eexists. split; [reflexivity |]. run_z. auto 10.
Qed.

Lemma unref_last s :
  _refcnt (ctx s) = 1 ->
  exists s',
    unref s = Done (tt, s') /\ _refcnt (ctx s') = 0 /\
    freed (env s') = true /\
    calls (env s') = calls (env s) ++ teardown_calls (ctx s) (env s).
Proof.
  intros H.
  destruct s as [[pcb rx off dcb ds dl wr tm st sw cp rc sy] w].
  cbn [ctx env _refcnt] in *. subst rc.
  unfold unref, discard_received, close, tcp_close, delete_this, teardown_calls.
  destruct rx as [| p next]; destruct pcb as [pc |];
    try destruct (Z.eqb_spec (close_ret w) ERR_OK) as [E | E];
    destruct dcb; run; rewrite ?E; simpl;
    try (destruct (Z.eqb_spec (close_ret w) ERR_OK); [congruence |]); simpl;
    eexists; (split; [reflexivity |]); simpl;
    rewrite <- ?app_assoc; simpl; rewrite ?app_nil_r; auto.
Qed.

Lemma count_delete_teardown c w : count_delete (teardown_calls c w) = 1%nat.
Proof.
  unfold count_delete, teardown_calls.
  destruct (_rx_buf c); destruct (_pcb c); try destruct (close_ret w =? ERR_OK);
    destruct (_discard_cb c); reflexivity.
Qed.

Lemma run_refs_ok ops : forall s n,
  freed (env s) = false -> _refcnt (ctx s) = s8 n -> 0 <= n <= 255 ->
  outstanding_ok n ops = true ->
  exists s',
    run_refs ops s = Done (tt, s') /\
    _refcnt (ctx s') = s8 (n + balance ops) /\
    0 <= n + balance ops <= 255 /\
    (0 < n + balance ops \/ ops = [] -> env s' = env s) /\
    (n + balance ops = 0 -> ops <> [] ->
     freed (env s') = true /\
     calls (env s') = calls (env s) ++ teardown_calls (ctx s) (env s)).
Proof.
  induction ops as [| op ops IH]; intros s n Hfr Hc Hn Hok.
  - exists s. cbn [run_refs balance]. unfold ret. rewrite Z.add_0_r.
    repeat split; try lia; try assumption; try reflexivity; congruence.
  - cbn [outstanding_ok] in Hok. destruct op.
    + apply andb_true_iff in Hok. destruct Hok as [Hlt Hok].
      apply Z.ltb_lt in Hlt.
      destruct (ref_ok s n Hc) as (s1 & H1 & Hc1 & He1 & Hrx1 & Hp1 & Hd1).
      destruct (IH s1 (n + 1) ltac:(congruence) Hc1 ltac:(lia) Hok)
        as (s2 & H2 & Hc2 & Hr2 & Hsame2 & Hlast2).
      exists s2. cbn [run_refs balance]. unfold bind, run_ref. rewrite Hfr, H1, H2.
      replace (n + (balance ops + 1)) with (n + 1 + balance ops) by lia.
      split; [reflexivity |]. split; [assumption |]. split; [assumption |]. split.
      * intros [Hp | Hnil]; [| discriminate]. rewrite <- He1. apply Hsame2. now left.
      * intros Hz _. destruct ops as [| op' ops'].
        { cbn [balance] in Hz. lia. }
        destruct (Hlast2 Hz ltac:(discriminate)) as [Hf Hcalls].
        split; [assumption |]. rewrite Hcalls, He1. f_equal.
        unfold teardown_calls. rewrite Hrx1, Hp1, Hd1. reflexivity.
    + destruct (Z.eqb_spec n 1) as [E1 | E1].
      * destruct ops; [| discriminate]. subst n.
        destruct (unref_last s Hc) as (s1 & H1 & Hc1 & Hf1 & Hcalls1).
        exists s1. cbn [run_refs balance]. unfold bind, run_ref, ret.
        rewrite Hfr, H1. split; [reflexivity |]. split; [exact Hc1 |].
        split; [lia |]. split; [intros [? | ?]; [lia | discriminate] |].
        intros _ _. auto.
      * apply andb_true_iff in Hok. destruct Hok as [Hge Hok].
        apply Z.leb_le in Hge.
        destruct (unref_keeps s n Hc ltac:(lia))
          as (s1 & H1 & Hc1 & He1 & Hrx1 & Hp1 & Hd1).
        destruct (IH s1 (n - 1) ltac:(congruence) Hc1 ltac:(lia) Hok)
          as (s2 & H2 & Hc2 & Hr2 & Hsame2 & Hlast2).
        exists s2. cbn [run_refs balance]. unfold bind, run_ref. rewrite Hfr, H1, H2.
        replace (n + (balance ops - 1)) with (n - 1 + balance ops) by lia.
        split; [reflexivity |]. split; [assumption |]. split; [assumption |]. split.
        -- intros [Hp | Hnil]; [| discriminate]. rewrite <- He1. apply Hsame2. now left.
        -- intros Hz _. destruct ops as [| op' ops'].
           { cbn [balance] in Hz. lia. }
           destruct (Hlast2 Hz ltac:(discriminate)) as [Hf Hcalls].
           split; [assumption |]. rewrite Hcalls, He1. f_equal.
           unfold teardown_calls. rewrite Hrx1, Hp1, Hd1. reflexivity.
Qed.

Lemma outstanding_ok_prefix k : forall n ops,
  outstanding_ok n ops = true -> outstanding_ok n (firstn k ops) = true.
Proof.
  induction k as [| k IH]; intros n ops H; [reflexivity |].
  destruct ops as [| op ops]; [reflexivity |].
  cbn [firstn outstanding_ok] in *. destruct op.
  - apply andb_true_iff in H. destruct H as [H1 H2].
    rewrite H1. simpl. apply IH. assumption.
  - destruct (n =? 1).
    + destruct ops; [| discriminate]. now rewrite firstn_nil.
    + apply andb_true_iff in H. destruct H as [H1 H2].
      rewrite H1. simpl. apply IH. assumption.
Qed.

Lemma outstanding_ok_positive k : forall n ops,
  0 <= n -> outstanding_ok n ops = true -> (0 < k < length ops)%nat ->
  0 < n + balance (firstn k ops).
Proof.
  induction k as [| k IH]; intros n ops Hn H Hk; [lia |].
  destruct ops as [| op ops]; [simpl in Hk; lia |].
  cbn [firstn outstanding_ok balance length] in *. destruct op.
  - apply andb_true_iff in H. destruct H as [H1 H2].
    destruct k as [| k'].
    + cbn [firstn balance]. lia.
    + specialize (IH (n + 1) ops ltac:(lia) H2 ltac:(lia)). lia.
  - destruct (Z.eqb_spec n 1).
    + destruct ops; [simpl in Hk; lia | discriminate].
    + apply andb_true_iff in H. destruct H as [H1 H2]. apply Z.leb_le in H1.
      destruct k as [| k'].
      * cbn [firstn balance]. lia.
      * specialize (IH (n - 1) ops ltac:(lia) H2 ltac:(lia)). lia.
Qed.

(** C8, as the code has it.  On a live context whose count is 0, for every
    sequence of [ref()] and [unref()] calls that keeps between 1 and 255
    references outstanding until its last call: after every prefix the count
    is the number of outstanding references converted to [int8_t], hence
    that number itself, not negative, while at most 127 are outstanding; and
    before the last call nothing has been called in the stack and the context
    is not deleted.  If the last call releases the last reference, that call
    performs the teardown (discard the unread data, close the transport, run
    the discard callback if one is registered, delete the context) and the
    context is deleted exactly once; otherwise nothing is torn down. *)
Theorem refcount_teardown_once (ops : list ref_op) (s : State) :
  _refcnt (ctx s) = 0 -> freed (env s) = false ->
  outstanding_ok 0 ops = true ->
  (forall k, exists sk,
     run_refs (firstn k ops) s = Done (tt, sk) /\
     _refcnt (ctx sk) = s8 (balance (firstn k ops)) /\
     (balance (firstn k ops) <= 127 ->
      _refcnt (ctx sk) = balance (firstn k ops) /\ 0 <= _refcnt (ctx sk)) /\
     ((k < length ops)%nat -> env sk = env s)) /\
  exists s',
    run_refs ops s = Done (tt, s') /\ _refcnt (ctx s') = s8 (balance ops) /\
    (0 < balance ops -> env s' = env s) /\
    (balance ops = 0 -> ops <> [] ->
     freed (env s') = true /\
     calls (env s') = calls (env s) ++ teardown_calls (ctx s) (env s) /\
     count_delete (teardown_calls (ctx s) (env s)) = 1%nat).
Proof.
  intros Hz Hfr Hok. split.
  - intros k.
    pose proof (outstanding_ok_prefix k 0 ops Hok) as Hk.
    destruct (run_refs_ok (firstn k ops) s 0 Hfr Hz ltac:(lia) Hk)
      as (sk & Hrun & Hc & Hr & Hsame & _).
    rewrite Z.add_0_l in *.
    exists sk. split; [assumption |]. split; [assumption |]. split.
    + intros Hle. rewrite Hc, s8_small by lia. lia.
    + intros Hlt. apply Hsame. destruct k as [| k'].
      * right. reflexivity.
      * left. apply (outstanding_ok_positive (S k') 0 ops); [lia | assumption | lia].
  - destruct (run_refs_ok ops s 0 Hfr Hz ltac:(lia) Hok)
      as (s' & Hrun & Hc & Hr & Hsame & Hlast).
    rewrite Z.add_0_l in *.
    exists s'. split; [assumption |]. split; [assumption |]. split.
    + intros Hb. apply Hsame. left. lia.
    + intros Hb Hne. destruct (Hlast Hb Hne) as [Hf Hcalls].
      split; [assumption |]. split; [assumption |]. apply count_delete_teardown.
Qed.

Lemma refcount_teardown_once_witness :
  (forall k, exists sk,
     run_refs (firstn k [Ref; Ref; Unref; Unref]) demo_state = Done (tt, sk) /\
     _refcnt (ctx sk) = s8 (balance (firstn k [Ref; Ref; Unref; Unref])) /\
     (balance (firstn k [Ref; Ref; Unref; Unref]) <= 127 ->
      _refcnt (ctx sk) = balance (firstn k [Ref; Ref; Unref; Unref]) /\
      0 <= _refcnt (ctx sk)) /\
     ((k < length [Ref; Ref; Unref; Unref])%nat -> env sk = env demo_state)) /\
  exists s',
    run_refs [Ref; Ref; Unref; Unref] demo_state = Done (tt, s') /\
    _refcnt (ctx s') = s8 (balance [Ref; Ref; Unref; Unref]) /\
    (0 < balance [Ref; Ref; Unref; Unref] -> env s' = env demo_state) /\
    (balance [Ref; Ref; Unref; Unref] = 0 -> [Ref; Ref; Unref; Unref] <> [] ->
     freed (env s') = true /\
     calls (env s')
     = calls (env demo_state) ++ teardown_calls (ctx demo_state) (env demo_state) /\
     count_delete (teardown_calls (ctx demo_state) (env demo_state)) = 1%nat).
Proof.
  apply (refcount_teardown_once [Ref; Ref; Unref; Unref] demo_state).
  - reflexivity.
  - reflexivity.
  - reflexivity.
Defined.

(** C8 as stated fails: the count is an [int8_t].  In the sequence of 128
    calls of [ref()] followed by 128 calls of [unref()], which never has more
    [unref()] than [ref()] and ends with none outstanding, the count is -128
    after the 128th call. *)
Lemma refcount_wraps_at_128 :
  balanced_from 0 (repeat Ref 128 ++ repeat Unref 128) = true /\
  balance (repeat Ref 128 ++ repeat Unref 128) = 0 /\
  exists s',
    run_refs (firstn 128 (repeat Ref 128 ++ repeat Unref 128)) demo_state
    = Done (tt, s') /\
    _refcnt (ctx s') = -128 /\ ~ 0 <= _refcnt (ctx s').
Proof.
  split; [vm_compute; reflexivity |]. split; [vm_compute; reflexivity |].
  eexists. split; [vm_compute; reflexivity |].
  split; [reflexivity |]. simpl. lia.
Qed.

(** ** Yields *)

Lemma dispatch_ok ev s :
  exists s',
    dispatch ev s = Done (tt, s') /\
    now (env s') = now (env s) /\ yields (env s') = yields (env s) /\
    (quiet_event ev = true ->
     _pcb (ctx s') = _pcb (ctx s) /\
     _connect_pending (ctx s') = _connect_pending (ctx s) /\
     _timeout_ms (ctx s') = _timeout_ms (ctx s) /\
     calls (env s') = calls (env s)).
Proof.
  destruct s as [[pcb rx off dcb ds dl wr tm st sw cp rc sy] w].
  unfold dispatch, set_pcb_state, _connected, _error, _recv, _acked, _poll,
    _write_some_from_cb, _notify_error, abort.
  destruct pcb as [p |]; [| run; eexists; split; [reflexivity |]; simpl; auto 10].
  destruct ev as [| err | pb | n |]; [| | destruct pb as [| q qs] | |];
    destruct cp; destruct sw; destruct rx as [| r rs];
    run; try (destruct (tot_len r =? 0); simpl);
    eexists; (split; [reflexivity |]); simpl;
    (split; [reflexivity |]); (split; [reflexivity |]);
    intros Hq; try discriminate Hq; auto 10.
Qed.

Lemma run_events_ok evs : forall s,
  exists s',
    run_events evs s = Done (tt, s') /\
    now (env s') = now (env s) /\ yields (env s') = yields (env s) /\
    (forallb quiet_event evs = true ->
     _pcb (ctx s') = _pcb (ctx s) /\
     _connect_pending (ctx s') = _connect_pending (ctx s) /\
     _timeout_ms (ctx s') = _timeout_ms (ctx s) /\
     calls (env s') = calls (env s)).
Proof.
  induction evs as [| ev evs IH]; intros s.
  - exists s. simpl. unfold ret. auto 10.
  - destruct (dispatch_ok ev s) as (s1 & H1 & Hn1 & Hy1 & Hq1).
    destruct (IH s1) as (s2 & H2 & Hn2 & Hy2 & Hq2).
    exists s2. cbn [run_events forallb]. unfold bind. rewrite H1, H2.
    split; [reflexivity |]. split; [congruence |]. split; [congruence |].
    intros Hq. apply andb_true_iff in Hq. destruct Hq as [Ha Hb].
    destruct (Hq1 Ha) as (? & ? & ? & ?). destruct (Hq2 Hb) as (? & ? & ? & ?).
    repeat split; congruence.
Qed.

Lemma delay_ok ms s :
  exists s',
    delay ms s = Done (tt, s') /\
    now (env s') = now (env s) + ms /\ yields (env s') = tl (yields (env s)) /\
    (forallb quiet_event (hd [] (yields (env s))) = true ->
     _pcb (ctx s') = _pcb (ctx s) /\
     _connect_pending (ctx s') = _connect_pending (ctx s) /\
     _timeout_ms (ctx s') = _timeout_ms (ctx s) /\
     calls (env s') = calls (env s)).
Proof.
  unfold delay.
  match goal with |- context [run_events ?e ?st] =>
    destruct (run_events_ok e st) as (s' & H & Hn & Hy & Hq) end.
  exists s'. split; [assumption |]. simpl in *. auto.
Qed.

(** ** The wait primitive *)

Lemma u32_diff a b : u32 (u32 a - u32 b) = u32 (a - b).
Proof. unfold u32. symmetry. apply Zminus_mod. Qed.

(** The number of yields after which a wait of [timeout_ms] polled every
    [intvl_ms] is over: the quotient rounded up. *)
Lemma yields_needed timeout intvl :
  0 <= timeout -> 1 <= intvl ->
  let c := (timeout + intvl - 1) / intvl in
  0 <= c <= timeout /\ timeout <= intvl * c < timeout + intvl.
Proof.
  intros Ht Hi c.
  pose proof (Z.div_mod (timeout + intvl - 1) intvl ltac:(lia)) as Hdm.
  pose proof (Z.mod_pos_bound (timeout + intvl - 1) intvl ltac:(lia)) as Hr.
  fold c in Hdm.
  assert (0 <= c) by (apply Z.div_pos; lia).
  split; [| lia]. split; [assumption |]. nia.
Qed.

Lemma esp_delay_loop_ok timeout intvl blocked now0 fuel : forall s k,
  0 <= timeout -> 1 <= intvl ->
  intvl * ((timeout + intvl - 1) / intvl) < 4294967296 ->
  now (env s) - now0 = intvl * k ->
  0 <= k <= (timeout + intvl - 1) / intvl ->
  (Z.to_nat ((timeout + intvl - 1) / intvl - k) <= fuel)%nat ->
  exists s',
    esp_delay_loop fuel (u32 now0) timeout blocked intvl s = Done (tt, s') /\
    now (env s) <= now (env s') /\ now (env s') - now0 < timeout + intvl.
Proof.
  induction fuel as [| fuel IH]; intros s k Ht Hi Hmax He Hk Hfuel;
    pose proof (yields_needed timeout intvl Ht Hi) as Hc; cbv zeta in Hc;
    set (c := (timeout + intvl - 1) / intvl) in *;
    assert (0 <= now (env s) - now0 < 4294967296) as Hrange by nia.
  - assert (k = c) as -> by lia.
    exists s. cbn [esp_delay_loop]. unfold bind, millis.
    rewrite u32_diff, u32_small by assumption.
    destruct (Z.ltb_spec (now (env s) - now0) timeout); [lia |].
    simpl. split; [reflexivity | lia].
  - cbn [esp_delay_loop]. unfold bind at 1, millis.
    rewrite u32_diff, u32_small by assumption.
    destruct (Z.ltb_spec (now (env s) - now0) timeout) as [Hlt | Hge];
      [| exists s; simpl; split; [reflexivity | nia]].
    destruct (blocked s); [| exists s; simpl; split; [reflexivity | lia]].
    simpl. destruct (delay_ok intvl s) as (s1 & H1 & Hn1 & _).
    assert (k < c) as Hkc by nia.
    destruct (IH s1 (k + 1) Ht Hi Hmax ltac:(lia) ltac:(fold c; lia) ltac:(fold c; lia))
      as (s2 & H2 & Hle & Hlt2).
    exists s2. unfold bind. rewrite H1, H2. split; [reflexivity | lia].
Qed.

(** C9, as the code has it.  For a timeout and a retry interval of at least
    1 ms such that the first multiple of the interval to reach the timeout is
    below 2^32 ms (so whenever their sum does not exceed 2^32, and always at
    the interval 1 that the class passes), and for every polled predicate and
    every schedule of callbacks, [esp_delay] returns after at most [timeout]
    yields, and the clock, which each [delay(intvl_ms)] advances by exactly
    [intvl_ms], has then advanced by at most the timeout plus one interval. *)
Theorem esp_delay_bounded (timeout_ms intvl_ms : Z) (blocked : State -> bool)
  (fuel : nat) (s : State) :
  0 <= timeout_ms -> 1 <= intvl_ms ->
  intvl_ms * ((timeout_ms + intvl_ms - 1) / intvl_ms) < 4294967296 ->
  (Z.to_nat timeout_ms <= fuel)%nat ->
  exists s',
    esp_delay fuel timeout_ms blocked intvl_ms s = Done (tt, s') /\
    0 <= now (env s') - now (env s) <= timeout_ms + intvl_ms.
Proof.
  intros Ht Hi Hmax Hfuel. unfold esp_delay, bind, millis.
  pose proof (yields_needed timeout_ms intvl_ms Ht Hi) as Hc. cbv zeta in Hc.
  destruct (esp_delay_loop_ok timeout_ms intvl_ms blocked (now (env s)) fuel s 0)
    as (s' & H & Hle & Hlt); try assumption; try lia.
  exists s'. split; [assumption | lia].
Qed.

Lemma esp_delay_bounded_witness :
  exists s',
    esp_delay 3 3 (fun s => _connect_pending (ctx s)) 1 demo_state = Done (tt, s') /\
    0 <= now (env s') - now (env demo_state) <= 3 + 1.
Proof.
  apply (esp_delay_bounded 3 1 (fun s => _connect_pending (ctx s)) 3 demo_state).
  - lia.
  - lia.
  - reflexivity.
  - simpl. lia.
Defined.

Lemma esp_delay_loop_hangs now0 fuel : forall s,
  Z.Even (now (env s) - now0) ->
  esp_delay_loop fuel (u32 now0) 4294967295 (fun _ => true) 2 s = Fault OutOfFuel.
Proof.
  induction fuel as [| fuel IH]; intros s Hev.
  - cbn [esp_delay_loop]. unfold bind, millis. rewrite u32_diff.
    assert (u32 (now (env s) - now0) <> 4294967295) as Hne.
    { unfold u32. destruct Hev as [k Hk]. rewrite Hk.
      pose proof (Z.div_mod (2 * k) 4294967296 ltac:(lia)) as Hdm. lia. }
    pose proof (Z.mod_pos_bound (now (env s) - now0) 4294967296 ltac:(lia)) as Hb.
    fold (u32 (now (env s) - now0)) in Hb.
    destruct (Z.ltb_spec (u32 (now (env s) - now0)) 4294967295); [| lia].
    reflexivity.
  - cbn [esp_delay_loop]. unfold bind at 1, millis. rewrite u32_diff.
    assert (u32 (now (env s) - now0) <> 4294967295) as Hne.
    { unfold u32. destruct Hev as [k Hk]. rewrite Hk.
      pose proof (Z.div_mod (2 * k) 4294967296 ltac:(lia)) as Hdm. lia. }
    pose proof (Z.mod_pos_bound (now (env s) - now0) 4294967296 ltac:(lia)) as Hb.
    fold (u32 (now (env s) - now0)) in Hb.
    destruct (Z.ltb_spec (u32 (now (env s) - now0)) 4294967295); [| lia].
    simpl. destruct (delay_ok 2 s) as (s1 & H1 & Hn1 & _).
    unfold bind. rewrite H1. apply IH.
    destruct Hev as [k Hk]. exists (k + 1). lia.
Qed.

(** C9 as stated fails: with the timeout 2^32 - 1 ms, the retry interval
    2 ms and a predicate that stays true, the 32-bit elapsed time is always
    even and never reaches the timeout, so no number of yields ends the
    wait. *)
Lemma esp_delay_can_hang :
  ~ exists fuel s',
      esp_delay fuel 4294967295 (fun _ => true) 2 demo_state = Done (tt, s').
Proof.
  intros (fuel & s' & H). unfold esp_delay, bind, millis in H.
  rewrite esp_delay_loop_hangs in H; [discriminate |].
  exists 0. lia.
Qed.

(** ** connect *)

Lemma quiet_yields_step n ys :
  quiet_yields (S n) ys = true ->
  forallb quiet_event (hd [] ys) = true /\ quiet_yields n (tl ys) = true.
Proof.
  unfold quiet_yields. destruct ys as [| y ys]; simpl.
  - intros _. now rewrite firstn_nil.
  - intros H. apply andb_true_iff in H. exact H.
Qed.

Lemma connect_wait_times_out timeout now0 p fuel : forall s,
  timeout < 4294967296 ->
  0 <= now (env s) - now0 <= timeout ->
  _pcb (ctx s) = Some p -> _connect_pending (ctx s) = true ->
  quiet_yields (Z.to_nat (timeout - (now (env s) - now0))) (yields (env s)) = true ->
  (Z.to_nat (timeout - (now (env s) - now0)) <= fuel)%nat ->
  exists s',
    esp_delay_loop fuel (u32 now0) timeout
      (fun st => _connect_pending (ctx st)) 1 s = Done (tt, s') /\
    _pcb (ctx s') = Some p /\ _connect_pending (ctx s') = true /\
    _timeout_ms (ctx s') = _timeout_ms (ctx s) /\
    calls (env s') = calls (env s) /\ now (env s') = now0 + timeout.
Proof.
  induction fuel as [| fuel IH]; intros s Hmax He Hp Hcp Hq Hfuel.
  - exists s. cbn [esp_delay_loop]. unfold bind, millis.
    rewrite u32_diff, u32_small by lia.
    destruct (Z.ltb_spec (now (env s) - now0) timeout); [lia |].
    simpl. repeat split; try assumption; try reflexivity; lia.
  - cbn [esp_delay_loop]. unfold bind at 1, millis.
    rewrite u32_diff, u32_small by lia.
    destruct (Z.ltb_spec (now (env s) - now0) timeout) as [Hlt | Hge].
    + rewrite Hcp. simpl.
      replace (Z.to_nat (timeout - (now (env s) - now0)))
        with (S (Z.to_nat (timeout - (now (env s) + 1 - now0)))) in Hq by lia.
      apply quiet_yields_step in Hq. destruct Hq as [Hq1 Hq2].
      destruct (delay_ok 1 s) as (s1 & H1 & Hn1 & Hy1 & Hfr).
      destruct (Hfr Hq1) as (Hp1 & Hcp1 & Ht1 & Hc1).
      destruct (IH s1) as (s2 & H2 & Hp2 & Hcp2 & Ht2 & Hc2 & Hn2);
        try assumption; try congruence; try lia.
      exists s2. unfold bind. rewrite H1, H2.
      repeat split; try assumption; congruence.
    + exists s. simpl. repeat split; try assumption; try reflexivity; lia.
Qed.

(** C3.  A [connect] on a context with a transport handle, accepted by
    [tcp_connect], during which the stack runs neither the connected callback
    nor the error callback, nor signals a peer close, for as many yields as
    the timeout has milliseconds: it returns 0 after exactly the timeout, the
    handle is null, and the calls made are the connect request followed by the
    detaching of the five callbacks and [tcp_abort]. *)
Theorem connect_timeout_aborts (fuel : nat) (port : Z) (s : State) (p : tcp_pcb) :
  _pcb (ctx s) = Some p -> connect_ret (env s) = ERR_OK ->
  0 <= _timeout_ms (ctx s) < 4294967296 ->
  quiet_yields (Z.to_nat (_timeout_ms (ctx s))) (yields (env s)) = true ->
  (Z.to_nat (_timeout_ms (ctx s)) <= fuel)%nat ->
  exists s',
    connect fuel port s = Done (0, s') /\
    _pcb (ctx s') = None /\ _connect_pending (ctx s') = false /\
    calls (env s')
    = calls (env s) ++ [C_tcp_connect port ERR_OK] ++ detach_and_abort /\
    now (env s') = now (env s) + _timeout_ms (ctx s).
Proof.
  intros Hp Hret Htm Hq Hfuel.
  destruct s as [[pcb rx off dcb ds dl wr tm st sw cp rc sy] w].
  cbn [ctx env _pcb _timeout_ms] in *. subst pcb.
  unfold connect, tcp_connect. unfold bind at 1 2, self at 1.
  cbn [ctx _pcb]. unfold bind at 1 2 3, call at 1. cbn [env ctx connect_ret].
  rewrite Hret. cbn [Z.eqb ERR_OK when negb]. unfold update at 1, ret at 1.
  cbn [env ctx negb]. change (ERR_OK =? ERR_OK) with true. cbn [negb].
  unfold bind at 1, update at 1. cbn [ctx env].
  unfold bind at 1, millis at 1. cbn [ctx env now].
  unfold bind at 1, update at 1. cbn [ctx env].
  unfold bind at 1, self at 1. cbn [ctx env].
  unfold esp_delay. unfold bind at 1 2, millis at 1. cbn [ctx env now _timeout_ms with_op_start with_connect_pending with_pcb].
  match goal with |- context [esp_delay_loop _ _ _ _ _ ?st] =>
    destruct (connect_wait_times_out tm (now w)
                (mk_pcb SYN_SENT (so_options p) (keep_idle p) (keep_intvl p) (keep_cnt p))
                fuel st)
      as (s2 & H2 & Hp2 & Hcp2 & Ht2 & Hc2 & Hn2)
  end; cbn [ctx env now yields _pcb _connect_pending]; try reflexivity; try lia.
  { rewrite Z.sub_diag, Z.sub_0_r. assumption. }
  rewrite H2.
  unfold bind at 1, update at 1. unfold bind at 1, self at 1.
  cbn [ctx env _pcb with_connect_pending]. rewrite Hp2.
  unfold bind at 1, state at 1. unfold bind at 1, self at 1.
  cbn [ctx env _pcb with_connect_pending]. rewrite Hp2.
  cbn [pcb_state]. unfold ret at 1. cbn [tcp_state_eqb negb].
  destruct s2 as [c2 w2]. cbn [ctx env] in *.
  unfold abort. run. rewrite Hp2. simpl.
  eexists. split; [reflexivity |]. simpl.
  rewrite Hc2. simpl. rewrite <- !app_assoc. simpl. auto.
Qed.

Lemma connect_timeout_aborts_witness :
  exists s',
    connect 3 80 demo_connect_state = Done (0, s') /\
    _pcb (ctx s') = None /\ _connect_pending (ctx s') = false /\
    calls (env s')
    = calls (env demo_connect_state) ++ [C_tcp_connect 80 ERR_OK] ++ detach_and_abort /\
    now (env s') = now (env demo_connect_state) + _timeout_ms (ctx demo_connect_state).
Proof.
  apply (connect_timeout_aborts 3 80 demo_connect_state (mk_pcb CLOSED 0 0 0 0)).
  - reflexivity.
  - reflexivity.
  - simpl. lia.
  - reflexivity.
  - simpl. lia.
Defined.

(** ** The send loop *)

Lemma shiftl_1 k : 0 <= k -> Z.shiftl 1 k = 2 ^ k.
Proof. intros H. rewrite Z.shiftl_mul_pow2 by assumption. lia. Qed.

Lemma code_chunk_eq w rem k :
  0 <= k ->
  (if Z.shiftl 1 k <? Z.min w rem then Z.shiftr (Z.min w rem) k else Z.min w rem)
  = scaled_chunk w rem k.
Proof.
  intros H. unfold scaled_chunk. cbv zeta.
  rewrite shiftl_1, Z.shiftr_div_pow2 by assumption. reflexivity.
Qed.

Lemma scaled_chunk_bounds w rem k :
  0 <= k -> scaled_chunk w rem k <> 0 ->
  0 <= w -> 0 < rem -> 0 < scaled_chunk w rem k <= Z.min w rem.
Proof.
  intros Hk Hnz Hw Hrem. unfold scaled_chunk in *. cbv zeta in *.
  assert (0 < 2 ^ k) by (apply Z.pow_pos_nonneg; lia).
  destruct (Z.ltb_spec (2 ^ k) (Z.min w rem)) as [Hlt | Hge].
  - split.
    + apply Z.div_str_pos. lia.
    + apply Z.div_le_upper_bound; [lia |]. nia.
  - lia.
Qed.

Lemma attempts_ok_nil dl sync wr sc : attempts_ok dl sync wr sc [].
Proof. intros pre w off sz fl ret post H. destruct pre; discriminate. Qed.

Lemma attempts_ok_single dl sync wr sc c : attempts_ok dl sync wr sc [c].
Proof.
  intros pre w off sz fl ret post H.
  destruct pre as [| a [| b pre]]; discriminate.
Qed.

Lemma attempts_ok_cons dl sync wr sc w sz fl ret T :
  sc <= 4 -> 0 < dl - wr ->
  sz = scaled_chunk w (dl - wr) sc -> 0 < sz <= Z.min w (dl - wr) ->
  Z.testbit fl 1 = (sz <? dl - wr) -> Z.testbit fl 0 = negb sync ->
  attempts_ok dl sync (wr + (if ret =? ERR_OK then sz else 0))
    (sc + (if ret =? ERR_MEM then 1 else 0)) T ->
  attempts_ok dl sync wr sc (C_tcp_sndbuf w :: C_tcp_write wr sz fl ret :: T).
Proof.
  intros Hsc Hrem Hsz Hb Hf1 Hf0 HT pre w' off sz' fl' ret' post H.
  destruct pre as [| a pre].
  - simpl in H. inversion H; subst w' off sz' fl' ret' post. cbn [count_mem ok_bytes].
    rewrite !Z.add_0_r. auto 10.
  - destruct pre as [| b pre].
    + simpl in H. inversion H.
    + simpl in H. inversion H; subst a b.
      specialize (HT pre w' off sz' fl' ret' post H3). cbv zeta in HT.
      cbn [count_mem ok_bytes]. cbv zeta.
      replace (sc + ((if ret =? ERR_MEM then 1 else 0) + count_mem pre))
        with (sc + (if ret =? ERR_MEM then 1 else 0) + count_mem pre) by lia.
      replace (wr + ((if ret =? ERR_OK then sz else 0) + ok_bytes pre))
        with (wr + (if ret =? ERR_OK then sz else 0) + ok_bytes pre) by lia.
      exact HT.
Qed.

Lemma count_mem_app l1 l2 : count_mem (l1 ++ l2) = count_mem l1 + count_mem l2.
Proof.
  induction l1 as [| c l1 IH]; [reflexivity |].
  destruct c; cbn [app count_mem]; rewrite IH; lia.
Qed.

Lemma state_pure s : exists st, state s = Done (st, s).
Proof.
  unfold state. unfold bind, self, ret.
  destruct (_pcb (ctx s)) as [p |]; [destruct (pcb_state p) |]; eauto.
Qed.

Lemma attempts_ok_output dl sync wr sc T :
  attempts_ok dl sync wr sc T -> attempts_ok dl sync wr sc (T ++ [C_tcp_output]).
Proof.
  intros HT pre w off sz fl ret post H.
  destruct (exists_last (l := C_tcp_sndbuf w :: C_tcp_write off sz fl ret :: post))
    as (l' & x & Hl); [discriminate |].
  rewrite Hl, app_assoc in H. apply app_inj_tail in H. destruct H as [HTeq Hx].
  destruct post as [| y post].
  - change [C_tcp_sndbuf w; C_tcp_write off sz fl ret]
      with ([C_tcp_sndbuf w] ++ [C_tcp_write off sz fl ret]) in Hl.
    apply app_inj_tail in Hl. destruct Hl as [_ Hl]. congruence.
  - destruct (exists_last (l := y :: post)) as (post' & z & Hp); [discriminate |].
    rewrite Hp in Hl.
    change (C_tcp_sndbuf w :: C_tcp_write off sz fl ret :: post' ++ [z])
      with ((C_tcp_sndbuf w :: C_tcp_write off sz fl ret :: post') ++ [z]) in Hl.
    apply app_inj_tail in Hl. destruct Hl as [Hl _]. subst l'.
    apply (HT pre w off sz fl ret post'). exact HTeq.
Qed.

Lemma write_flags_bits (more sync : bool) :
  let flags := 0 in
  let flags := if more then Z.lor flags TCP_WRITE_FLAG_MORE else flags in
  let flags := if negb sync then Z.lor flags TCP_WRITE_FLAG_COPY else flags in
  Z.testbit flags 1 = more /\ Z.testbit flags 0 = negb sync.
Proof. destruct more, sync; split; reflexivity. Qed.

Lemma write_some_loop_ok fuel : forall hw sc s,
  0 <= sc <= 4 -> 0 <= _written (ctx s) <= _datalen (ctx s) ->
  _datalen (ctx s) < 4294967296 ->
  (Z.to_nat (_datalen (ctx s) - _written (ctx s)) + Z.to_nat (4 - sc) + 1 <= fuel)%nat ->
  exists r s' T,
    write_some_loop fuel hw sc s = Done (r, s') /\
    calls (env s') = calls (env s) ++ T /\
    attempts_ok (_datalen (ctx s)) (_sync (ctx s)) (_written (ctx s)) sc T /\
    sc + count_mem T <= 5.
Proof.
  induction fuel as [| fuel IH]; intros hw sc s Hsc Hwr Hdl Hfuel; [lia |].
  destruct s as [[pcb rx off dcb ds dl wr tm st sw cp rc sy] w].
  cbn [ctx env _written _datalen _sync] in *.
  cbn [write_some_loop]. unfold bind at 1, self at 1. cbn [ctx _written _datalen].
  destruct (Z.ltb_spec wr dl) as [Hlt | Hge].
  2: { exists (Left hw). eexists. exists []. unfold ret.
       split; [reflexivity |]. rewrite app_nil_r.
       split; [reflexivity |]. split; [apply attempts_ok_nil |]. simpl. lia. }
  match goal with |- context [bind state ?k ?st] =>
    destruct (state_pure st) as (tst & Hst) end.
  unfold bind at 1. rewrite Hst.
  destruct (tcp_state_eqb tst CLOSED).
  { exists (Returned false). eexists. exists []. unfold ret.
    split; [reflexivity |]. rewrite app_nil_r.
    split; [reflexivity |]. split; [apply attempts_ok_nil |]. simpl. lia. }
  rewrite (u32_small (dl - wr)) by lia.
  unfold tcp_sndbuf, next_sndbuf. unfold bind at 1 2 3, call at 1, ret at 1.
  cbn [ctx env now calls yields connect_ret close_ret sndbuf_script write_script freed].
  set (wnd := u32 (hd 0 (sndbuf_script w))).
  assert (0 <= wnd) as Hwnd by (apply Z.mod_pos_bound; lia).
  rewrite code_chunk_eq by lia.
  destruct (Z.eqb_spec (scaled_chunk wnd (dl - wr) sc) 0) as [Hz | Hnz].
  { exists (Left hw). eexists. exists [C_tcp_sndbuf wnd]. unfold ret.
    split; [reflexivity |]. cbn [env calls].
    split; [reflexivity |]. split; [apply attempts_ok_single |]. simpl. lia. }
  pose proof (scaled_chunk_bounds wnd (dl - wr) sc ltac:(lia) Hnz Hwnd ltac:(lia)) as Hb.
  set (sz := scaled_chunk wnd (dl - wr) sc) in *.
  pose proof (write_flags_bits (sz <? dl - wr) sy) as Hfl. cbv zeta in Hfl.
  set (fl := if negb sy then _ else _) in *.
  destruct Hfl as [Hf1 Hf0].
  unfold tcp_write, next_write_ret. unfold bind at 1 2 3, call at 1, ret at 1.
  cbn [ctx env now calls yields connect_ret close_ret sndbuf_script write_script freed].
  set (wret := hd ERR_OK (write_script w)).
  destruct (Z.eqb_spec wret ERR_OK) as [Eok | Eok].
  - unfold bind at 1, update at 1. cbn [ctx env].
    rewrite (u32_small (wr + sz)) by lia.
    match goal with |- context [write_some_loop fuel true sc ?st] =>
      destruct (IH true sc st) as (r & s' & T & Hrun & Hcalls & Hatt & Hcnt)
    end; cbn [ctx env _written _datalen _sync with_written with_cursor]; try lia.
    exists r, s', (C_tcp_sndbuf wnd :: C_tcp_write wr sz fl wret :: T).
    split; [exact Hrun |]. cbn [ctx env calls _written _datalen _sync with_written with_cursor] in *.
    split; [rewrite Hcalls, <- !app_assoc; reflexivity |].
    split.
    + apply attempts_ok_cons; try assumption; try lia.
      rewrite Eok. change (ERR_OK =? ERR_MEM) with false.
      change (ERR_OK =? ERR_OK) with true. rewrite Z.add_0_r. exact Hatt.
    + cbn [count_mem]. rewrite Eok. change (ERR_OK =? ERR_MEM) with false. lia.
  - destruct (Z.eqb_spec wret ERR_MEM) as [Emem | Emem].
    + destruct (Z.ltb_spec sc 4) as [Hs4 | Hs4].
      * match goal with |- context [write_some_loop fuel hw (sc + 1) ?st] =>
          destruct (IH hw (sc + 1) st) as (r & s' & T & Hrun & Hcalls & Hatt & Hcnt)
        end; cbn [ctx env _written _datalen _sync]; try lia.
        exists r, s', (C_tcp_sndbuf wnd :: C_tcp_write wr sz fl wret :: T).
        split; [exact Hrun |]. cbn [ctx env calls _written _datalen _sync] in *.
        split; [rewrite Hcalls, <- !app_assoc; reflexivity |].
        split.
        -- apply attempts_ok_cons; try assumption; try lia.
           rewrite Emem. change (ERR_MEM =? ERR_MEM) with true.
           change (ERR_MEM =? ERR_OK) with false. rewrite Z.add_0_r. exact Hatt.
        -- cbn [count_mem]. rewrite Emem. change (ERR_MEM =? ERR_MEM) with true. lia.
      * exists (Left hw). eexists. exists [C_tcp_sndbuf wnd; C_tcp_write wr sz fl wret].
        unfold ret. split; [reflexivity |]. cbn [env calls].
        split; [rewrite <- !app_assoc; reflexivity |]. split.
        -- apply attempts_ok_cons; try assumption; try lia. apply attempts_ok_nil.
        -- cbn [count_mem]. rewrite Emem. change (ERR_MEM =? ERR_MEM) with true. lia.
    + exists (Left hw). eexists. exists [C_tcp_sndbuf wnd; C_tcp_write wr sz fl wret].
      unfold ret. split; [reflexivity |]. cbn [env calls].
      split; [rewrite <- !app_assoc; reflexivity |]. split.
      * apply attempts_ok_cons; try assumption; try lia. apply attempts_ok_nil.
      * cbn [count_mem]. destruct (Z.eqb_spec wret ERR_MEM); [congruence |]. lia.
Qed.

Lemma state_same_pcb s1 s2 st :
  _pcb (ctx s1) = _pcb (ctx s2) -> state s1 = Done (st, s1) ->
  state s2 = Done (st, s2).
Proof.
  unfold state, bind, self, ret. intros <-.
  destruct (_pcb (ctx s1)) as [p |]; [destruct (pcb_state p) |];
    intros H; injection H as <-; reflexivity.
Qed.

Lemma state_open s p st :
  _pcb (ctx s) = Some p -> state s = Done (st, s) -> st <> CLOSED ->
  st = pcb_state p.
Proof.
  unfold state, bind, self, ret. intros -> H Hn.
  destruct (pcb_state p); injection H as <-; try reflexivity; contradiction.
Qed.

Lemma ok_bytes_app l1 l2 : ok_bytes (l1 ++ l2) = ok_bytes l1 + ok_bytes l2.
Proof.
  induction l1 as [| c l1 IH]; [reflexivity |].
  destruct c; cbn [app ok_bytes]; rewrite IH; lia.
Qed.

Lemma count_output_app l1 l2 :
  count_output (l1 ++ l2) = (count_output l1 + count_output l2)%nat.
Proof. unfold count_output. rewrite filter_app, length_app. reflexivity. Qed.

Lemma write_some_loop_acct fuel : forall hw sc s r s',
  0 <= sc ->
  0 <= _written (ctx s) <= _datalen (ctx s) -> _datalen (ctx s) < 4294967296 ->
  write_some_loop fuel hw sc s = Done (r, s') ->
  exists T,
    calls (env s') = calls (env s) ++ T /\
    ctx s' = with_written (_written (ctx s) + ok_bytes T) (ctx s) /\
    0 <= ok_bytes T /\ _written (ctx s) + ok_bytes T <= _datalen (ctx s) /\
    count_output T = 0%nat /\
    now (env s') = now (env s) /\ yields (env s') = yields (env s) /\
    match r with
    | Returned v => v = false /\ T = [] /\ state s = Done (CLOSED, s)
    | Left b => b = hw || (0 <? ok_bytes T)
    end.
Proof.
  assert (forall hw s r s',
            0 <= _written (ctx s) <= _datalen (ctx s) ->
            Done (Left hw, s) = Done (r, s') ->
            exists T,
              calls (env s') = calls (env s) ++ T /\
              ctx s' = with_written (_written (ctx s) + ok_bytes T) (ctx s) /\
              0 <= ok_bytes T /\ _written (ctx s) + ok_bytes T <= _datalen (ctx s) /\
              count_output T = 0%nat /\
              now (env s') = now (env s) /\ yields (env s') = yields (env s) /\
              match r with
              | Returned v => v = false /\ T = [] /\ state s = Done (CLOSED, s)
              | Left b => b = hw || (0 <? ok_bytes T)
              end) as Hstop.
  { intros hw s r s' Hwr Hrun. injection Hrun as <- <-. exists [].
    destruct s as [[pcb rx off dcb ds dl wr tm st sw cp rc sy] w].
    cbn [ok_bytes ctx env calls with_written with_cursor _datasource _datalen _written] in *.
    rewrite app_nil_r, Z.add_0_r, orb_false_r.
    repeat split; auto; lia. }
  induction fuel as [| fuel IH]; intros hw sc s r s' Hsc Hwr Hdl Hrun;
    cbn [write_some_loop] in Hrun; unfold bind at 1, self at 1 in Hrun;
    destruct (Z.ltb_spec (_written (ctx s)) (_datalen (ctx s))) as [Hlt | Hge];
    try discriminate Hrun; try (apply (Hstop hw); assumption).
  destruct s as [[pcb rx off dcb ds dl wr tm st sw cp rc sy] w];
    cbn [ctx env _written _datalen _sync] in *.
  match type of Hrun with context [bind state ?k ?st0] =>
    destruct (state_pure st0) as (tst & Hst) end.
  unfold bind at 1 in Hrun. rewrite Hst in Hrun.
  destruct (tcp_state_eqb tst CLOSED) eqn:Hcl.
  { unfold ret in Hrun. injection Hrun as <- <-. exists [].
    cbn [ok_bytes ctx env calls with_written with_cursor _datasource _datalen].
    rewrite app_nil_r, Z.add_0_r.
    assert (tst = CLOSED) as -> by (destruct tst; try discriminate; reflexivity).
    repeat split; auto; lia. }
  rewrite (u32_small (dl - wr)) in Hrun by lia.
  unfold tcp_sndbuf, next_sndbuf in Hrun.
  unfold bind at 1 2 3, call at 1, ret at 1 in Hrun.
  cbn [ctx env now calls yields connect_ret close_ret sndbuf_script write_script freed]
    in Hrun.
  set (wnd := u32 (hd 0 (sndbuf_script w))) in *.
  assert (0 <= wnd) as Hwnd by (apply Z.mod_pos_bound; lia).
  rewrite code_chunk_eq in Hrun by lia.
  destruct (Z.eqb_spec (scaled_chunk wnd (dl - wr) sc) 0) as [Hz | Hnz].
  { unfold ret in Hrun. injection Hrun as <- <-. exists [C_tcp_sndbuf wnd].
    cbn [ok_bytes ctx env calls now yields with_written with_cursor _datasource _datalen].
    rewrite Z.add_0_r, orb_false_r. repeat split; auto; lia. }
  pose proof (scaled_chunk_bounds wnd (dl - wr) sc ltac:(lia) Hnz Hwnd ltac:(lia)) as Hb.
  set (sz := scaled_chunk wnd (dl - wr) sc) in *.
  set (fl := if negb sy then _ else _) in *.
  unfold tcp_write, next_write_ret in Hrun.
  unfold bind at 1 2 3, call at 1, ret at 1 in Hrun.
  cbn [ctx env now calls yields connect_ret close_ret sndbuf_script write_script freed]
    in Hrun.
  set (wret := hd ERR_OK (write_script w)) in *.
  destruct (Z.eqb_spec wret ERR_OK) as [Eok | Eok].
  - unfold bind at 1, update at 1 in Hrun. cbn [ctx env] in Hrun.
    rewrite (u32_small (wr + sz)) in Hrun by lia.
    apply IH in Hrun;
      cbn [ctx env _written _datalen _sync with_written with_cursor]; try lia.
    destruct Hrun as (T & Hcalls & Hctx & Hok & Hle & Hout & Hnow & Hy & Hr).
    cbn [ctx env calls now yields _written _datalen _sync _datasource with_written with_cursor]
      in *.
    exists (C_tcp_sndbuf wnd :: C_tcp_write wr sz fl wret :: T).
    unfold with_written, with_cursor in *.
    cbn [ok_bytes ctx env calls now yields _written _datalen _sync _datasource
         _pcb _rx_buf _rx_buf_offset _discard_cb _timeout_ms _op_start_time
         _send_waiting _connect_pending _refcnt] in *.
    destruct (Z.eqb_spec wret ERR_OK) as [_ | ?]; [| contradiction].
    split; [rewrite Hcalls, <- !app_assoc; reflexivity |].
    split; [rewrite Hctx; f_equal; lia |].
    split; [lia |]. split; [lia |]. split; [exact Hout |].
    split; [exact Hnow |]. split; [exact Hy |].
    destruct r as [v | b].
    + destruct Hr as (_ & _ & Hst').
      match type of Hst' with state ?s1 = _ =>
        match type of Hst with state ?s0 = _ =>
          pose proof (state_same_pcb s0 s1 tst eq_refl Hst) as Hst2 end end.
      rewrite Hst2 in Hst'. injection Hst' as ->. discriminate Hcl.
    + rewrite Hr. destruct (Z.ltb_spec 0 (sz + ok_bytes T)); [| lia].
      rewrite orb_true_r. reflexivity.
  - assert (exists T0, T0 = [C_tcp_sndbuf wnd; C_tcp_write wr sz fl wret] /\
                      ok_bytes T0 = 0 /\ count_output T0 = 0%nat) as (T0 & HT0 & Hok0 & Hout0).
    { eexists. split; [reflexivity |]. cbn [ok_bytes].
      destruct (Z.eqb_spec wret ERR_OK); [contradiction |]. split; reflexivity. }
    assert (forall b s1,
              Done (Left hw, mk_state (mk_ctx pcb rx off dcb ds dl wr tm st sw cp rc sy)
                               (mk_world (now w) ((calls w ++ [C_tcp_sndbuf wnd]) ++
                                                  [C_tcp_write wr sz fl wret])
                                  (yields w) (connect_ret w) (close_ret w)
                                  (tl (sndbuf_script w)) (tl (write_script w)) (freed w)))
              = Done (b, s1) ->
              exists T,
                calls (env s1) = calls w ++ T /\
                ctx s1 = with_written (wr + ok_bytes T)
                           (mk_ctx pcb rx off dcb ds dl wr tm st sw cp rc sy) /\
                0 <= ok_bytes T /\ wr + ok_bytes T <= dl /\ count_output T = 0%nat /\
                now (env s1) = now w /\ yields (env s1) = yields w /\
                match b with
                | Returned v => v = false /\ T = [] /\
                    state (mk_state (mk_ctx pcb rx off dcb ds dl wr tm st sw cp rc sy) w)
                    = Done (CLOSED, mk_state (mk_ctx pcb rx off dcb ds dl wr tm st sw cp rc sy) w)
                | Left b => b = hw || (0 <? ok_bytes T)
                end) as Hbreak.
    { intros b s1 Heq. injection Heq as <- <-. exists T0. subst T0.
      cbn [ctx env calls now yields with_written with_cursor _datasource _datalen].
      rewrite Hok0, Hout0, Z.add_0_r, orb_false_r, <- app_assoc.
      repeat split; auto; lia. }
    destruct (Z.eqb_spec wret ERR_MEM) as [Emem | Emem]; [| apply Hbreak; exact Hrun].
    destruct (Z.ltb_spec sc 4) as [Hs4 | Hs4]; [| apply Hbreak; exact Hrun].
    apply IH in Hrun; cbn [ctx env _written _datalen _sync]; try lia.
    destruct Hrun as (T & Hcalls & Hctx & Hok & Hle & Hout & Hnow & Hy & Hr).
    cbn [ctx env calls now yields _written _datalen _sync _datasource with_written with_cursor]
      in *.
    exists (T0 ++ T). rewrite ok_bytes_app, count_output_app, Hok0, Hout0, Z.add_0_l.
    subst T0. split; [rewrite Hcalls, <- !app_assoc; reflexivity |].
    split; [exact Hctx |].
    split; [lia |]. split; [lia |]. split; [exact Hout |].
    split; [exact Hnow |]. split; [exact Hy |].
    destruct r as [v | b]; [| exact Hr].
    destruct Hr as (_ & _ & Hst').
    match type of Hst' with state ?s1 = _ =>
      match type of Hst with state ?s0 = _ =>
        pose proof (state_same_pcb s0 s1 tst eq_refl Hst) as Hst2 end end.
    rewrite Hst2 in Hst'. injection Hst' as ->. discriminate Hcl.
Qed.

Lemma write_some_loop_trace fuel : forall hw sc s st r s',
  0 <= sc <= 4 -> 0 <= _written (ctx s) <= _datalen (ctx s) ->
  _datalen (ctx s) < 4294967296 ->
  state s = Done (st, s) -> st <> CLOSED ->
  write_some_loop fuel hw sc s = Done (r, s') ->
  exists T hw',
    r = Left hw' /\ calls (env s') = calls (env s) ++ T /\
    pass_trace (_datalen (ctx s)) (_sync (ctx s)) (_written (ctx s)) sc hw
      (T ++ flush hw').
Proof.
  induction fuel as [| fuel IH]; intros hw sc s st r s' Hsc Hwr Hdl Hst Hncl Hrun;
    cbn [write_some_loop] in Hrun; unfold bind at 1, self at 1 in Hrun;
    destruct (Z.ltb_spec (_written (ctx s)) (_datalen (ctx s))) as [Hlt | Hge];
    try discriminate Hrun;
    try (unfold ret in Hrun; injection Hrun as <- <-; exists [], hw;
         rewrite app_nil_r; split; [reflexivity |]; split; [reflexivity |];
         apply pass_all_written; assumption).
  destruct s as [[pcb rx off dcb ds dl wr tm ost sw cp rc sy] w];
    cbn [ctx env _written _datalen _sync] in *.
  unfold bind at 1 in Hrun. rewrite Hst in Hrun.
  assert (tcp_state_eqb st CLOSED = false) as Hcl
    by (destruct st; try reflexivity; contradiction).
  rewrite Hcl in Hrun.
  rewrite (u32_small (dl - wr)) in Hrun by lia.
  unfold tcp_sndbuf, next_sndbuf in Hrun.
  unfold bind at 1 2 3, call at 1, ret at 1 in Hrun.
  cbn [ctx env now calls yields connect_ret close_ret sndbuf_script write_script freed]
    in Hrun.
  set (wnd := u32 (hd 0 (sndbuf_script w))) in *.
  assert (0 <= wnd) as Hwnd by (apply Z.mod_pos_bound; lia).
  rewrite code_chunk_eq in Hrun by lia.
  destruct (Z.eqb_spec (scaled_chunk wnd (dl - wr) sc) 0) as [Hz | Hnz].
  { unfold ret in Hrun. injection Hrun as <- <-. exists [C_tcp_sndbuf wnd], hw.
    split; [reflexivity |]. split; [reflexivity |].
    apply pass_no_window; assumption. }
  pose proof (scaled_chunk_bounds wnd (dl - wr) sc ltac:(lia) Hnz Hwnd ltac:(lia)) as Hb.
  pose proof (write_flags_bits (scaled_chunk wnd (dl - wr) sc <? dl - wr) sy) as Hfl.
  cbv zeta in Hfl.
  set (fl := if negb sy then _ else _) in *.
  destruct Hfl as [Hf1 Hf0].
  unfold tcp_write, next_write_ret in Hrun.
  unfold bind at 1 2 3, call at 1, ret at 1 in Hrun.
  cbn [ctx env now calls yields connect_ret close_ret sndbuf_script write_script freed]
    in Hrun.
  set (wret := hd ERR_OK (write_script w)) in *.
  destruct (Z.eqb_spec wret ERR_OK) as [Eok | Eok].
  - unfold bind at 1, update at 1 in Hrun. cbn [ctx env] in Hrun.
    rewrite (u32_small (wr + scaled_chunk wnd (dl - wr) sc)) in Hrun by lia.
    match type of Hst with state ?s0 = _ =>
      match type of Hrun with write_some_loop _ _ _ ?s1 = _ =>
        pose proof (state_same_pcb s0 s1 st eq_refl Hst) as Hst1 end end.
    apply (IH true sc _ st) in Hrun; try assumption;
      unfold with_written, with_cursor;
      cbn [ctx env _written _datalen _sync]; try lia.
    destruct Hrun as (T & hw' & Hr & Hcalls & Htr).
    unfold with_written, with_cursor in *.
    cbn [ctx env calls _written _datalen _sync] in *.
    exists (C_tcp_sndbuf wnd :: C_tcp_write wr (scaled_chunk wnd (dl - wr) sc) fl wret :: T),
      hw'.
    split; [exact Hr |].
    split; [rewrite Hcalls, <- !app_assoc; reflexivity |].
    rewrite Eok. cbn [app]. apply pass_accepted; try assumption.
  - destruct (Z.eqb_spec wret ERR_MEM) as [Emem | Emem].
    + destruct (Z.ltb_spec sc 4) as [Hs4 | Hs4].
      * match type of Hst with state ?s0 = _ =>
          match type of Hrun with write_some_loop _ _ _ ?s1 = _ =>
            pose proof (state_same_pcb s0 s1 st eq_refl Hst) as Hst1 end end.
        apply (IH hw (sc + 1) _ st) in Hrun; try assumption;
          cbn [ctx env _written _datalen _sync]; try lia.
        destruct Hrun as (T & hw' & Hr & Hcalls & Htr).
        cbn [ctx env calls _written _datalen _sync] in *.
        exists (C_tcp_sndbuf wnd
                  :: C_tcp_write wr (scaled_chunk wnd (dl - wr) sc) fl wret :: T), hw'.
        split; [exact Hr |].
        split; [rewrite Hcalls, <- !app_assoc; reflexivity |].
        rewrite Emem. cbn [app]. apply pass_retry; assumption.
      * unfold ret in Hrun. injection Hrun as <- <-.
        exists [C_tcp_sndbuf wnd; C_tcp_write wr (scaled_chunk wnd (dl - wr) sc) fl wret],
          hw.
        split; [reflexivity |]. cbn [env calls].
        split; [rewrite <- !app_assoc; reflexivity |].
        rewrite Emem. cbn [app]. apply pass_give_up; try assumption. lia.
    + unfold ret in Hrun. injection Hrun as <- <-.
      exists [C_tcp_sndbuf wnd; C_tcp_write wr (scaled_chunk wnd (dl - wr) sc) fl wret],
        hw.
      split; [reflexivity |]. cbn [env calls].
      split; [rewrite <- !app_assoc; reflexivity |].
      cbn [app]. apply pass_refused; assumption.
Qed.

Lemma write_some_loop_closed fuel hw sc s r s' :
  state s = Done (CLOSED, s) ->
  write_some_loop fuel hw sc s = Done (r, s') ->
  s' = s /\ (r = Returned false \/ r = Left hw).
Proof.
  intros Hst Hrun. destruct fuel as [| fuel];
    cbn [write_some_loop] in Hrun; unfold bind at 1, self at 1 in Hrun;
    destruct (_written (ctx s) <? _datalen (ctx s));
    try discriminate Hrun;
    try (unfold ret in Hrun; injection Hrun as <- <-; auto).
  unfold bind at 1 in Hrun. rewrite Hst in Hrun. cbn [tcp_state_eqb] in Hrun.
  unfold ret in Hrun. injection Hrun as <- <-. auto.
Qed.

(** C6, as the code has it.  One pass of the send loop on a context with a
    source buffer and a transport handle returns.  Every attempt it made (a
    [tcp_sndbuf] answer [w] followed by a [tcp_write] of [sz] bytes at offset
    [off]) obeys [attempts_ok]: with [k] the memory-pressure answers so far
    in the pass, [k] is at most 4; [off] is the bytes written so far; [sz] is
    the minimum of [w] and the remaining bytes, divided by 2^k when that
    minimum exceeds 2^k and left as it is otherwise; the more-data flag is
    set exactly when [sz] is smaller than the remaining bytes, and the copy
    flag exactly when the context is not synchronous.  The pass sees at most
    5 memory-pressure answers.  On a closed connection the pass calls
    nothing and returns false.  On an open one the calls are a [pass_trace]:
    the pass goes on after every accepted chunk while bytes remain, retries
    after each of the first four memory-pressure answers, and ends only when
    all is written, when the chunk size is 0, at the fifth memory-pressure
    answer or at another error, with [tcp_output] exactly if a chunk was
    accepted, which is also what it returns. *)
Theorem write_some_chunks (s : State) (p : tcp_pcb) (base : Z) :
  _datasource (ctx s) = Some base -> _pcb (ctx s) = Some p ->
  0 <= _written (ctx s) <= _datalen (ctx s) -> _datalen (ctx s) < 4294967296 ->
  exists r s' T,
    _write_some s = Done (r, s') /\
    calls (env s') = calls (env s) ++ T /\
    attempts_ok (_datalen (ctx s)) (_sync (ctx s)) (_written (ctx s)) 0 T /\
    count_mem T <= 5 /\
    (state s = Done (CLOSED, s) -> r = false /\ T = []) /\
    (forall st, state s = Done (st, s) -> st <> CLOSED ->
       pass_trace (_datalen (ctx s)) (_sync (ctx s)) (_written (ctx s)) 0 false T /\
       r = (0 <? ok_bytes T)).
Proof.
  intros Hds Hp Hwr Hdl. unfold _write_some. unfold bind at 1, self at 1.
  rewrite Hds, Hp.
  destruct (write_some_loop_ok
              (Z.to_nat (_datalen (ctx s) - _written (ctx s)) + 5) false 0 s)
    as (r & s1 & T & Hrun & Hcalls & Hatt & Hcnt); try lia.
  destruct (write_some_loop_acct _ _ _ _ _ _ (Z.le_refl 0) Hwr Hdl Hrun)
    as (T1 & Hcalls1 & _ & _ & _ & _ & _ & _ & Hr).
  assert (T1 = T) as -> by (rewrite Hcalls in Hcalls1; apply app_inv_head in Hcalls1;
                            congruence).
  assert (forall st, state s = Done (st, s) -> st <> CLOSED ->
            exists hw, r = Left hw /\
              pass_trace (_datalen (ctx s)) (_sync (ctx s)) (_written (ctx s)) 0 false
                (T ++ flush hw)) as Hopen.
  { intros st Hst Hncl.
    destruct (write_some_loop_trace _ false 0 s st _ _ ltac:(lia) Hwr Hdl Hst Hncl Hrun)
      as (T2 & hw & Hr2 & Hcalls2 & Htr).
    assert (T2 = T) as -> by (rewrite Hcalls in Hcalls2; apply app_inv_head in Hcalls2;
                              congruence).
    exists hw. split; assumption. }
  unfold bind at 1. rewrite Hrun.
  destruct r as [v | [|]].
  - exists v, s1, T. unfold ret. split; [reflexivity |]. split; [assumption |].
    split; [assumption |]. split; [lia |].
    destruct Hr as (-> & -> & _). split; [auto |].
    intros st Hst Hncl. destruct (Hopen st Hst Hncl) as (hw & Hl & _). discriminate Hl.
  - exists true. eexists. exists (T ++ [C_tcp_output]).
    unfold when, bind, tcp_output, call, ret. split; [reflexivity |].
    cbn [env calls]. rewrite Hcalls, <- app_assoc.
    split; [reflexivity |]. split; [apply attempts_ok_output; assumption |].
    split; [rewrite count_mem_app; simpl; lia |].
    split.
    + intros Hst. destruct (write_some_loop_closed _ _ _ _ _ _ Hst Hrun) as [_ [H | H]];
        discriminate H.
    + intros st Hst Hncl. destruct (Hopen st Hst Hncl) as (hw & Hl & Htr).
      injection Hl as <-. split; [exact Htr |].
      rewrite ok_bytes_app. cbn [ok_bytes]. rewrite Z.add_0_r. exact Hr.
  - exists false, s1, T. unfold when, bind, ret. split; [reflexivity |].
    split; [assumption |]. split; [assumption |]. split; [lia |].
    split.
    + intros Hst. destruct (write_some_loop_closed _ _ _ _ _ _ Hst Hrun) as [Hs _].
      subst s1. split; [reflexivity |].
      rewrite <- (app_nil_r (calls (env s))) in Hcalls at 1.
      apply app_inv_head in Hcalls. congruence.
    + intros st Hst Hncl. destruct (Hopen st Hst Hncl) as (hw & Hl & Htr).
      injection Hl as <-. cbn [flush] in Htr. rewrite app_nil_r in Htr.
      split; [exact Htr | exact Hr].
Qed.

Lemma write_some_chunks_witness :
  exists r s' T,
    _write_some demo_write_state = Done (r, s') /\
    calls (env s') = calls (env demo_write_state) ++ T /\
    attempts_ok (_datalen (ctx demo_write_state)) (_sync (ctx demo_write_state))
      (_written (ctx demo_write_state)) 0 T /\
    count_mem T <= 5 /\
    (state demo_write_state = Done (CLOSED, demo_write_state) -> r = false /\ T = []) /\
    (forall st, state demo_write_state = Done (st, demo_write_state) -> st <> CLOSED ->
       pass_trace (_datalen (ctx demo_write_state)) (_sync (ctx demo_write_state))
         (_written (ctx demo_write_state)) 0 false T /\
       r = (0 <? ok_bytes T)).
Proof.
  apply (write_some_chunks demo_write_state demo_pcb 0).
  - reflexivity.
  - reflexivity.
  - simpl. lia.
  - simpl. lia.
Defined.

(** C6 as stated fails: three bytes remain and the window is 100.  The first
    attempt is 3 bytes; after one memory-pressure answer the attempt is 1
    byte; after the second the attempt is 3 bytes again, not the minimum
    halved twice. *)
Lemma write_some_regrows_small_chunk :
  exists s',
    _write_some demo_write_state = Done (true, s') /\
    calls (env s')
    = [C_tcp_sndbuf 100; C_tcp_write 0 3 1 ERR_MEM;
       C_tcp_sndbuf 100; C_tcp_write 0 1 3 ERR_MEM;
       C_tcp_sndbuf 100; C_tcp_write 0 3 1 ERR_OK; C_tcp_output] /\
    exists pre w off sz fl ret post,
      calls (env s') = pre ++ C_tcp_sndbuf w :: C_tcp_write off sz fl ret :: post /\
      count_mem pre = 2 /\
      sz <> halved_chunk w (_datalen (ctx demo_write_state) - off) (count_mem pre).
Proof.
  eexists. split; [vm_compute; reflexivity |]. split; [reflexivity |].
  exists [C_tcp_sndbuf 100; C_tcp_write 0 3 1 ERR_MEM;
          C_tcp_sndbuf 100; C_tcp_write 0 1 3 ERR_MEM], 100, 0, 3, 1, ERR_OK,
    [C_tcp_output].
  split; [reflexivity |]. split; [reflexivity |].
  vm_compute. discriminate.
Qed.

(** * Further properties *)

(** ** Timeout units *)

Lemma s32_u32 x : s32 (u32 x) = s32 x.
Proof. unfold s32. f_equal; unfold u32; now rewrite Z.mod_mod by lia. Qed.

(** X1.  [setTimeout] then [getTimeout]: a value below 100 is taken as seconds
    and comes back multiplied by 1000, any other value comes back as it is;
    so the timeout stored for a non-negative argument is 0 or at least
    100 ms. *)
Theorem setTimeout_units (timeout_ms : Z) (s : State) :
  -2147483 <= timeout_ms <= 2147483647 ->
  exists s',
    (setTimeout timeout_ms ;; getTimeout) s
    = Done ((if timeout_ms <? 100 then 1000 * timeout_ms else timeout_ms), s') /\
    (0 <= timeout_ms ->
     _timeout_ms (ctx s') = (if timeout_ms <? 100 then 1000 * timeout_ms else timeout_ms) /\
     (_timeout_ms (ctx s') = 0 \/ 100 <= _timeout_ms (ctx s'))) /\
    _pcb (ctx s') = _pcb (ctx s) /\ env s' = env s.
Proof.
  intros H. destruct s as [c w]. unfold setTimeout, getTimeout. run_z.
  assert ((if timeout_ms <? 100 then s32 (timeout_ms * 1000) else timeout_ms)
          = (if timeout_ms <? 100 then 1000 * timeout_ms else timeout_ms)) as E.
  { destruct (Z.ltb_spec timeout_ms 100); [| reflexivity].
    rewrite s32_small by lia. lia. }
  rewrite E, s32_u32.
  rewrite (s32_small (if timeout_ms <? 100 then 1000 * timeout_ms else timeout_ms))
    by (destruct (Z.ltb_spec timeout_ms 100); lia).
  eexists. split; [reflexivity |]. cbn [ctx env _timeout_ms _pcb with_timeout].
  split; [| split; reflexivity].
  intros Hp. rewrite u32_small by (destruct (Z.ltb_spec timeout_ms 100); lia).
  split; [reflexivity |]. destruct (Z.ltb_spec timeout_ms 100); lia.
Qed.

Lemma setTimeout_units_witness :
  exists s',
    (setTimeout 30 ;; getTimeout) demo_state
    = Done ((if 30 <? 100 then 1000 * 30 else 30), s') /\
    (0 <= 30 ->
     _timeout_ms (ctx s') = (if 30 <? 100 then 1000 * 30 else 30) /\
     (_timeout_ms (ctx s') = 0 \/ 100 <= _timeout_ms (ctx s'))) /\
    _pcb (ctx s') = _pcb (ctx demo_state) /\ env s' = env demo_state.
Proof.
  apply (setTimeout_units 30 demo_state). lia.
Defined.

(** ** Discarding *)

Lemma discard_received_eq s :
  exists s',
    discard_received s = Done (tt, s') /\
    _rx_buf (ctx s') = [] /\ unread (ctx s') = [] /\
    getSize s' = Done (0, s') /\ _pcb (ctx s') = _pcb (ctx s) /\
    calls (env s')
    = calls (env s)
      ++ match _rx_buf (ctx s) with
         | [] => []
         | p :: _ =>
             match _pcb (ctx s) with
             | Some _ => [C_tcp_recved (tot_len p)]
             | None => []
             end ++ [C_pbuf_free]
         end /\
    discard_received s' = Done (tt, s').
Proof.
  destruct s as [[pcb rx off dcb ds dl wr tm st sw cp rc sy] w].
  unfold discard_received, getSize.
  destruct rx as [| p next]; [| destruct pcb as [pc |]]; run;
    eexists; (split; [reflexivity |]); simpl;
    rewrite <- ?app_assoc, ?app_nil_r; unfold unread, zdrop, chain_bytes; simpl;
    rewrite ?skipn_nil; auto 10.
Qed.

(** X2.  [discard_received()] in any state.  Afterwards the chain is null,
    nothing is unread and [getSize()] is 0; the stack is told once, through
    [tcp_recved], the [tot_len] of the head pbuf, and only if there is a
    handle; a second call does nothing. *)
Theorem discard_received_empties (s : State) :
  exists s',
    discard_received s = Done (tt, s') /\
    _rx_buf (ctx s') = [] /\ unread (ctx s') = [] /\
    getSize s' = Done (0, s') /\ _pcb (ctx s') = _pcb (ctx s) /\
    calls (env s')
    = calls (env s)
      ++ match _rx_buf (ctx s) with
         | [] => []
         | p :: _ =>
             match _pcb (ctx s) with
             | Some _ => [C_tcp_recved (tot_len p)]
             | None => []
             end ++ [C_pbuf_free]
         end /\
    discard_received s' = Done (tt, s').
Proof. exact (discard_received_eq s). Qed.

(** X3.  [discard_received()] after part of the head pbuf was read, with a
    handle: what it announces through [tcp_recved] is the unread bytes plus
    the offset already consumed in the head pbuf. *)
Theorem discard_received_announces (s : State) (pc : tcp_pcb) (p : pbuf) (next : chain) :
  rx_inv (ctx s) -> _pcb (ctx s) = Some pc -> _rx_buf (ctx s) = p :: next ->
  exists s',
    discard_received s = Done (tt, s') /\
    calls (env s') = calls (env s) ++ [C_tcp_recved (tot_len p); C_pbuf_free] /\
    tot_len p = zlength (unread (ctx s)) + _rx_buf_offset (ctx s).
Proof.
  intros Hinv Hp Hrx.
  destruct (discard_received_eq s) as (s' & H & _ & _ & _ & _ & Hc & _).
  exists s'. split; [assumption |]. rewrite Hc, Hrx, Hp. split; [reflexivity |].
  pose proof (zlength_unread _ Hinv) as Hl. rewrite Hrx in Hl. simpl in Hl. lia.
Qed.

Lemma discard_received_announces_witness :
  exists s',
    discard_received demo_rx_state = Done (tt, s') /\
    calls (env s') = calls (env demo_rx_state) ++ [C_tcp_recved 7; C_pbuf_free] /\
    7 = zlength (unread (ctx demo_rx_state)) + _rx_buf_offset (ctx demo_rx_state).
Proof.
  apply (discard_received_announces demo_rx_state demo_pcb (mk_pbuf [x0a; x0b] 2 7)
           [mk_pbuf [x01; x02] 2 5; mk_pbuf [x03; x04; x05] 3 3]).
  - unfold rx_inv. simpl. unfold zlength. simpl. lia.
  - reflexivity.
  - reflexivity.
Defined.

(** ** What the reads announce to the stack *)

Lemma recved_total_app l1 l2 :
  recved_total (l1 ++ l2) = recved_total l1 + recved_total l2.
Proof.
  induction l1 as [| c l1 IH]; [reflexivity |].
  destruct c; cbn [app recved_total]; rewrite IH; lia.
Qed.

Lemma consume_recved s p next n s' :
  _rx_buf (ctx s) = p :: next -> _consume n s = Done (tt, s') ->
  _pcb (ctx s') = _pcb (ctx s) /\
  recved_total (calls (env s'))
  = recved_total (calls (env s)) + match _pcb (ctx s) with Some _ => n | None => 0 end.
Proof.
  intros Hrx. destruct s as [c w]. cbn [ctx env] in *.
  unfold _consume. unfold bind at 1, self at 1. cbn [ctx]. rewrite Hrx.
  destruct (0 <? s32 (len p - _rx_buf_offset c - n));
    [| destruct next as [| q r]]; destruct (_pcb c) eqn:Hp; run;
    intros H; inversion H; subst s'; cbn [ctx env calls _pcb with_rx];
    rewrite ?recved_total_app; cbn [recved_total]; split; auto; lia.
Qed.

Lemma read_loop_recved fuel : forall size size_read dst s r s',
  0 <= size < 4294967296 ->
  read_loop fuel size size_read dst s = Done (r, s') ->
  _pcb (ctx s') = _pcb (ctx s) /\
  recved_total (calls (env s'))
  = recved_total (calls (env s)) + match _pcb (ctx s) with Some _ => size | None => 0 end.
Proof.
  induction fuel as [| fuel IH]; intros size size_read dst s r s' Hsz Hrun.
  - cbn [read_loop] in Hrun. destruct (Z.eqb_spec size 0) as [-> |]; [| discriminate].
    unfold ret in Hrun. inversion Hrun; subst. split; [reflexivity |].
    destruct (_pcb (ctx s')); lia.
  - cbn [read_loop] in Hrun. destruct (Z.eqb_spec size 0) as [-> | Hnz].
    { unfold ret in Hrun. inversion Hrun; subst. split; [reflexivity |].
      destruct (_pcb (ctx s')); lia. }
    unfold bind at 1, self at 1 in Hrun.
    destruct (_rx_buf (ctx s)) as [| p next] eqn:Hrx; [discriminate |].
    set (bs := u32 (len p - _rx_buf_offset (ctx s))) in *.
    assert (0 <= bs < 4294967296) as Hbs by (apply Z.mod_pos_bound; lia).
    set (copy := if size <? bs then size else bs) in *.
    assert (0 <= copy <= size) as Hc
      by (unfold copy; destruct (Z.ltb_spec size bs); lia).
    unfold bind at 1 in Hrun.
    destruct (memcpy_from p (_rx_buf_offset (ctx s)) copy s) as [[bytes s0] | f] eqn:Hm;
      [| discriminate].
    apply memcpy_from_pure in Hm. subst s0.
    unfold bind at 1 in Hrun.
    destruct (_consume copy s) as [[[] s1] | f] eqn:Hcons; [| discriminate].
    destruct (consume_recved s p next copy s1 Hrx Hcons) as [Hp1 Hr1].
    rewrite (u32_small (size - copy)) in Hrun by lia.
    assert (0 <= size - copy < 4294967296) as Hsz' by lia.
    destruct (IH _ _ _ _ _ _ Hsz' Hrun) as [Hp2 Hr2].
    split; [congruence |]. rewrite Hr2, Hr1, Hp1.
    destruct (_pcb (ctx s)); lia.
Qed.

Lemma run_read_recved op s :
  rx_inv (ctx s) -> read_op_ok op ->
  exists out s',
    run_read op s = Done (out, s') /\ rx_inv (ctx s') /\
    out = ztake (op_size op) (unread (ctx s)) /\
    unread (ctx s') = zdrop (op_size op) (unread (ctx s)) /\
    _pcb (ctx s') = _pcb (ctx s) /\
    recved_total (calls (env s'))
    = recved_total (calls (env s))
      + match _pcb (ctx s) with Some _ => zlength out | None => 0 end.
Proof.
  intros Hinv Hop.
  destruct (run_read_ok op s Hinv Hop) as (s' & Hrun & Hinv' & Hpcb & Hun).
  exists (ztake (op_size op) (unread (ctx s))), s'.
  split; [assumption |]. split; [assumption |]. split; [reflexivity |].
  split; [assumption |]. split; [assumption |].
  pose proof (zlength_unread _ Hinv) as Hlen.
  destruct op as [| size]; cbn [run_read op_size read_op_ok] in *.
  - unfold bind at 1 in Hrun. rewrite (getSize_ok s Hinv) in Hrun.
    unfold bind at 1, read at 1 in Hrun. unfold bind at 1, self at 1 in Hrun.
    destruct (_rx_buf (ctx s)) as [| p next] eqn:Hrx.
    + unfold ret in Hrun. injection Hrun as Ho Hs. rewrite <- Hs.
      rewrite (unread_null _ Hrx). unfold ztake. simpl.
      destruct (_pcb (ctx s)); unfold zlength; simpl; lia.
    + unfold bind at 1 in Hrun.
      destruct (payload_at p (_rx_buf_offset (ctx s)) s) as [[b s0] | f] eqn:Hpa;
        [| discriminate].
      apply payload_at_pure in Hpa. subst s0.
      unfold bind at 1 in Hrun.
      destruct (_consume 1 s) as [[[] s1] | f] eqn:Hcons; [| discriminate].
      unfold ret in Hrun. injection Hrun as Ho Hs. subst s1.
      destruct (consume_recved s p next 1 s' Hrx Hcons) as [_ Hr].
      rewrite Hr.
      destruct Hinv as [Hwf Hoff]. rewrite Hrx in Hwf, Hoff. simpl in Hwf, Hlen.
      destruct Hwf as (Hl & Hp & Ht & Hm & Hrw).
      pose proof (head_tot_nonneg _ Hrw) as Hn.
      assert (zlength (ztake 1 (unread (ctx s))) = 1) as ->.
      { rewrite <- Ho. destruct (Z.eqb_spec (zlength (unread (ctx s))) 0); [lia |].
        reflexivity. }
      reflexivity.
  - unfold bind at 1, read_buf at 1 in Hrun. unfold bind at 1, self at 1 in Hrun.
    destruct (_rx_buf (ctx s)) as [| p next] eqn:Hrx.
    + unfold ret in Hrun. injection Hrun as Ho Hs. rewrite <- Hs.
      rewrite (unread_null _ Hrx). unfold ztake. rewrite firstn_nil.
      destruct (_pcb (ctx s)); unfold zlength; simpl; lia.
    + destruct Hinv as [Hwf Hoff]. rewrite Hrx in Hwf, Hoff. simpl in Hwf, Hlen.
      destruct Hwf as (Hl & Hp & Ht & Hm & Hr).
      pose proof (head_tot_nonneg _ Hr) as Hn.
      rewrite (u32_small (tot_len p - _rx_buf_offset (ctx s))) in Hrun by lia.
      set (n := if size <? tot_len p - _rx_buf_offset (ctx s)
                then size else tot_len p - _rx_buf_offset (ctx s)) in *.
      assert (n = Z.min size (zlength (unread (ctx s)))) as Hnm
        by (unfold n; destruct (Z.ltb_spec size (tot_len p - _rx_buf_offset (ctx s))); lia).
      match type of Hrun with
      | match ?x with _ => _ end = _ => destruct x as [[r s1] | f] eqn:Hloop
      end; [| discriminate].
      unfold ret in Hrun. injection Hrun as Ho Hs. subst s1.
      assert (0 <= n < 4294967296) as Hnr by lia.
      destruct (read_loop_recved _ _ _ _ _ _ _ Hnr Hloop) as [_ Hrr].
      rewrite Hrr.
      assert (zlength (ztake size (unread (ctx s))) = n) as ->.
      { unfold ztake, zlength in *. rewrite length_firstn. lia. }
      reflexivity.
Qed.

(** X4.  Every byte handed out by a sequence of [read()] and
    [read(dst, size)] calls is announced to the stack through [tcp_recved],
    once: on a context that satisfies the receive-buffer invariant the
    announced total grows by the number of bytes handed out when there is a
    handle, and not at all when there is none. *)
Theorem reads_announce_what_they_deliver (ops : list read_op) (s : State) :
  rx_inv (ctx s) -> Forall read_op_ok ops ->
  exists out s',
    run_reads ops s = Done (out, s') /\
    zlength out = Z.min (demand ops) (zlength (unread (ctx s))) /\
    recved_total (calls (env s'))
    = recved_total (calls (env s))
      + match _pcb (ctx s) with Some _ => zlength out | None => 0 end.
Proof.
  revert s. induction ops as [| op ops IH]; intros s Hinv Hops.
  - exists [], s. cbn [run_reads demand]. unfold ret. split; [reflexivity |].
    pose proof (zlength_nonneg (unread (ctx s))).
    split; [unfold zlength at 1; simpl; lia |].
    destruct (_pcb (ctx s)); unfold zlength; simpl; lia.
  - inversion Hops as [| ? ? Hop Hrest]; subst.
    destruct (run_read_recved op s Hinv Hop)
      as (o1 & s1 & H1 & Hinv1 & Ho1 & Hun1 & Hp1 & Hr1).
    destruct (IH s1 Hinv1 Hrest) as (o2 & s2 & H2 & Hl2 & Hr2).
    exists (o1 ++ o2), s2. cbn [run_reads demand]. unfold bind. rewrite H1, H2.
    unfold ret. split; [reflexivity |].
    pose proof (demand_nonneg _ Hrest) as Hd.
    assert (0 <= op_size op) as Hos
      by (destruct op; cbn [op_size read_op_ok] in *; lia).
    pose proof (zlength_nonneg (unread (ctx s))) as Hu.
    assert (zlength o1 = Z.min (op_size op) (zlength (unread (ctx s)))) as Hl1.
    { rewrite Ho1. unfold ztake, zlength in *. rewrite length_firstn. lia. }
    assert (zlength (unread (ctx s1))
            = zlength (unread (ctx s)) - Z.min (op_size op) (zlength (unread (ctx s)))) as Hl1'.
    { rewrite Hun1. unfold zdrop, zlength in *. rewrite length_skipn. lia. }
    split.
    + rewrite zlength_app, Hl1, Hl2, Hl1'. lia.
    + rewrite Hr2, Hr1, Hp1, zlength_app. destruct (_pcb (ctx s)); lia.
Qed.

Lemma reads_announce_what_they_deliver_witness :
  exists out s',
    run_reads [RdByte; RdBuf 3] demo_rx_state = Done (out, s') /\
    zlength out = Z.min (demand [RdByte; RdBuf 3]) (zlength (unread (ctx demo_rx_state))) /\
    recved_total (calls (env s'))
    = recved_total (calls (env demo_rx_state))
      + match _pcb (ctx demo_rx_state) with Some _ => zlength out | None => 0 end.
Proof.
  apply (reads_announce_what_they_deliver [RdByte; RdBuf 3] demo_rx_state).
  - unfold rx_inv. simpl. unfold zlength. simpl. lia.
  - repeat constructor; simpl; lia.
Defined.

(** ** Closing, aborting, and what a closed context does *)

(** X5.  [close()] tries a graceful close and escalates.  Without a handle it
    returns [ERR_OK] and calls nothing.  With one it detaches the five
    callbacks and calls [tcp_close]; if that answers [ERR_OK] the result is
    [ERR_OK]; otherwise [tcp_abort] follows and the result is [ERR_ABRT].
    The handle is null afterwards in every case. *)
Theorem close_escalates_to_abort (s : State) :
  exists r s',
    close s = Done (r, s') /\ _pcb (ctx s') = None /\
    match _pcb (ctx s) with
    | None => r = ERR_OK /\ s' = s
    | Some _ =>
        calls (env s')
        = calls (env s) ++ detach_all ++ [C_tcp_close (close_ret (env s))]
          ++ (if close_ret (env s) =? ERR_OK then [] else [C_tcp_abort]) /\
        r = (if close_ret (env s) =? ERR_OK then ERR_OK else ERR_ABRT)
    end.
Proof.
  destruct s as [[pcb rx off dcb ds dl wr tm st sw cp rc sy] w].
  unfold close, tcp_close. destruct pcb as [pc |]; run.
  - destruct (Z.eqb_spec (close_ret w) ERR_OK) as [E | E]; simpl;
      do 2 eexists; (split; [reflexivity |]); simpl;
      rewrite <- ?app_assoc; simpl; rewrite ?app_nil_r; auto.
  - do 2 eexists. split; [reflexivity |]. auto.
Qed.

(** X6.  Once the handle is gone, by [abort()], by [close()] or by the error
    callback, nothing reaches the stack any more: [write] returns 0,
    [availableForWrite()] 0, [state()] CLOSED, [wait_until_acked] true, a
    send pass false, [abort()] [ERR_ABRT] and [close()] [ERR_OK], each
    leaving context and trace as they were.  The error callback itself only
    detaches four callbacks, calling neither [tcp_close] nor [tcp_abort], and
    clears both wait flags. *)
Theorem closed_context_is_inert (k : closer) (s : State) :
  exists s1,
    run_closer k s = Done (tt, s1) /\ _pcb (ctx s1) = None /\
    (forall sb mw fuel dfuel afuel ds dl,
       write sb mw fuel dfuel afuel ds dl s1 = Done (Passed 0, s1)) /\
    availableForWrite s1 = Done (0, s1) /\
    state s1 = Done (CLOSED, s1) /\
    (forall sb fuel mw, wait_until_acked sb fuel mw s1 = Done (true, s1)) /\
    _write_some s1 = Done (false, s1) /\
    abort s1 = Done (ERR_ABRT, s1) /\
    close s1 = Done (ERR_OK, s1) /\
    match k with
    | ByError _ =>
        calls (env s1)
        = calls (env s) ++ [C_tcp_arg false; C_tcp_sent false; C_tcp_recv false;
                            C_tcp_err false] /\
        _connect_pending (ctx s1) = false /\ _send_waiting (ctx s1) = false
    | _ => True
    end.
Proof.
  destruct s as [[pcb rx off dcb ds dl wr tm st sw cp rc sy] w].
  assert (forall s1, _pcb (ctx s1) = None ->
    (forall sb mw fuel dfuel afuel ds dl,
       write sb mw fuel dfuel afuel ds dl s1 = Done (Passed 0, s1)) /\
    availableForWrite s1 = Done (0, s1) /\
    state s1 = Done (CLOSED, s1) /\
    (forall sb fuel mw, wait_until_acked sb fuel mw s1 = Done (true, s1)) /\
    _write_some s1 = Done (false, s1) /\
    abort s1 = Done (ERR_ABRT, s1) /\
    close s1 = Done (ERR_OK, s1)) as Hinert.
  { intros s1 Hp. unfold write, availableForWrite, state, wait_until_acked,
      _write_some, abort, close. unfold bind, self, ret. rewrite Hp.
    destruct (_datasource (ctx s1)); destruct s1; auto 10. }
  destruct k as [| | err]; unfold run_closer, abort, close, tcp_close, _error,
    _notify_error.
  - destruct pcb as [pc |]; run; eexists; (split; [reflexivity |]);
      (split; [reflexivity |]);
      repeat (split; [apply Hinert; reflexivity |]); exact I.
  - destruct pcb as [pc |]; run;
      try destruct (Z.eqb_spec (close_ret w) ERR_OK); simpl;
      eexists; (split; [reflexivity |]); (split; [reflexivity |]);
      repeat (split; [apply Hinert; reflexivity |]); exact I.
  - destruct cp; destruct sw; run; eexists; (split; [reflexivity |]);
      (split; [reflexivity |]);
      repeat (split; [apply Hinert; reflexivity |]); simpl;
      rewrite <- ?app_assoc; auto.
Qed.

(** ** The peek-buffer interface *)

(** X7.  The zero-copy interface agrees with [read(dst, size)].  On a context
    that satisfies the receive-buffer invariant and has data, [peekBuffer()]
    points at [peekAvailable()] > 0 bytes, the next unread ones of the head
    pbuf; and for every [k] from 1 to that number, [peekConsume(k)] leaves
    exactly the state that [read(dst, k)] leaves, whose [k] bytes are the
    first [k] of the peeked region. *)
Theorem peek_buffer_agrees_with_read (s : State) (p : pbuf) (next : chain) (k : Z) :
  rx_inv (ctx s) -> _rx_buf (ctx s) = p :: next ->
  0 < k <= len p - _rx_buf_offset (ctx s) ->
  exists region s',
    peekBuffer s = Done (Some region, s) /\
    peekAvailable s = Done (zlength region, s) /\
    0 < zlength region /\
    region = ztake (zlength region) (unread (ctx s)) /\
    peekConsume k s = Done (tt, s') /\
    read_buf k s = Done ((k, ztake k region), s') /\
    unread (ctx s') = zdrop k (unread (ctx s)).
Proof.
  intros Hinv Hrx Hk.
  pose proof (unread_head _ _ _ Hrx Hinv) as Hun.
  assert (Hinv' := Hinv). destruct Hinv' as [Hwf Hoff].
  rewrite Hrx in Hwf, Hoff. simpl in Hwf.
  destruct Hwf as (Hl & Hp & Ht & Hm & Hr).
  pose proof (head_tot_nonneg _ Hr) as Hn.
  destruct (consume_ok s p next k Hrx Hinv ltac:(lia))
    as (s' & Hcons & _ & _ & _ & Hun').
  specialize (Hun' ltac:(lia)).
  set (region := zdrop (_rx_buf_offset (ctx s)) (payload p)).
  assert (zlength region = len p - _rx_buf_offset (ctx s)) as Hlr
    by (unfold region; rewrite zlength_zdrop; lia).
  exists region, s'.
  split; [unfold peekBuffer, bind, self, ret; rewrite Hrx; reflexivity |].
  split.
  { unfold peekAvailable, bind, self, ret. rewrite Hrx, u32_small by lia.
    now rewrite Hlr. }
  split; [lia |]. split.
  { rewrite Hun. fold region. rewrite ztake_app_l by lia.
    symmetry. apply ztake_all. lia. }
  split; [exact Hcons |]. split; [| exact Hun'].
  unfold read_buf. unfold bind at 1, self at 1. rewrite Hrx.
  rewrite (u32_small (tot_len p - _rx_buf_offset (ctx s))) by lia.
  destruct (Z.ltb_spec k (tot_len p - _rx_buf_offset (ctx s))) as [Hlt | Hge].
  - replace (Z.to_nat k + length (p :: next))%nat
      with (S (Z.to_nat k + length next)) by (simpl; lia).
    cbn [read_loop]. destruct (Z.eqb_spec k 0); [lia |].
    unfold bind at 1, self at 1. rewrite Hrx.
    rewrite (u32_small (len p - _rx_buf_offset (ctx s))) by lia.
    destruct (Z.ltb_spec k (len p - _rx_buf_offset (ctx s))).
    + unfold bind at 1. rewrite memcpy_from_ok by lia.
      unfold bind at 1. rewrite Hcons.
      rewrite Z.sub_diag. change (u32 0) with 0. rewrite read_loop_zero.
      rewrite (u32_small (0 + k)) by lia. reflexivity.
    + assert (k = len p - _rx_buf_offset (ctx s)) as Hke by lia.
      rewrite <- Hke.
      unfold bind at 1. rewrite memcpy_from_ok by lia.
      unfold bind at 1. rewrite Hcons.
      rewrite Z.sub_diag. change (u32 0) with 0. rewrite read_loop_zero.
      rewrite (u32_small (0 + k)) by lia. reflexivity.
  - assert (k = tot_len p - _rx_buf_offset (ctx s)) as Hke by lia.
    assert (head_tot next = 0) as Hz by lia.
    rewrite <- Hke.
    replace (Z.to_nat k + length (p :: next))%nat
      with (S (Z.to_nat k + length next)) by (simpl; lia).
    cbn [read_loop]. destruct (Z.eqb_spec k 0); [lia |].
    unfold bind at 1, self at 1. rewrite Hrx.
    rewrite (u32_small (len p - _rx_buf_offset (ctx s))) by lia.
    destruct (Z.ltb_spec k (len p - _rx_buf_offset (ctx s))); [lia |].
    assert (k = len p - _rx_buf_offset (ctx s)) as Hke2 by lia.
    rewrite <- Hke2.
    unfold bind at 1. rewrite memcpy_from_ok by lia.
    unfold bind at 1. rewrite Hcons.
    rewrite Z.sub_diag. change (u32 0) with 0. rewrite read_loop_zero.
    rewrite (u32_small (0 + k)) by lia. reflexivity.
Qed.

Lemma peek_buffer_agrees_with_read_witness :
  exists region s',
    peekBuffer demo_rx_state = Done (Some region, demo_rx_state) /\
    peekAvailable demo_rx_state = Done (zlength region, demo_rx_state) /\
    0 < zlength region /\
    region = ztake (zlength region) (unread (ctx demo_rx_state)) /\
    peekConsume 1 demo_rx_state = Done (tt, s') /\
    read_buf 1 demo_rx_state = Done ((1, ztake 1 region), s') /\
    unread (ctx s') = zdrop 1 (unread (ctx demo_rx_state)).
Proof.
  apply (peek_buffer_agrees_with_read demo_rx_state (mk_pbuf [x0a; x0b] 2 7)
           [mk_pbuf [x01; x02] 2 5; mk_pbuf [x03; x04; x05] 3 3] 1).
  - unfold rx_inv. simpl. unfold zlength. simpl. lia.
  - reflexivity.
  - simpl. lia.
Defined.

(** ** What the wait primitive guarantees on return *)

Lemma esp_delay_loop_unblocked fuel start timeout blocked intvl s :
  blocked s = false ->
  esp_delay_loop fuel start timeout blocked intvl s = Done (tt, s).
Proof.
  intros H. destruct fuel; cbn [esp_delay_loop]; unfold bind, millis;
    rewrite H, andb_false_r; reflexivity.
Qed.

Lemma esp_delay_loop_post timeout intvl blocked now0 fuel : forall s k,
  0 <= timeout -> 1 <= intvl ->
  intvl * ((timeout + intvl - 1) / intvl) < 4294967296 ->
  now (env s) - now0 = intvl * k ->
  0 <= k <= (timeout + intvl - 1) / intvl ->
  (Z.to_nat ((timeout + intvl - 1) / intvl - k) <= fuel)%nat ->
  exists s' j,
    esp_delay_loop fuel (u32 now0) timeout blocked intvl s = Done (tt, s') /\
    (blocked s' = false \/ timeout <= now (env s') - now0) /\
    ((blocked s = false \/ timeout <= now (env s) - now0) -> s' = s) /\
    (0 <= j)%nat /\ now (env s') = now (env s) + intvl * Z.of_nat j /\
    yields (env s') = skipn j (yields (env s)).
Proof.
  induction fuel as [| fuel IH]; intros s k Ht Hi Hmax He Hk Hfuel;
    pose proof (yields_needed timeout intvl Ht Hi) as Hc; cbv zeta in Hc;
    set (c := (timeout + intvl - 1) / intvl) in *;
    assert (0 <= now (env s) - now0 < 4294967296) as Hrange by nia.
  - assert (k = c) as -> by lia.
    exists s, 0%nat. cbn [esp_delay_loop]. unfold bind, millis.
    rewrite u32_diff, u32_small by assumption.
    destruct (Z.ltb_spec (now (env s) - now0) timeout); [lia |].
    simpl. repeat split; auto; lia.
  - cbn [esp_delay_loop]. unfold bind at 1, millis.
    rewrite u32_diff, u32_small by assumption.
    destruct (Z.ltb_spec (now (env s) - now0) timeout) as [Hlt | Hge];
      [| exists s, 0%nat; simpl; repeat split; auto; lia].
    destruct (blocked s) eqn:Hb;
      [| exists s, 0%nat; simpl; repeat split; auto; lia].
    simpl. destruct (delay_ok intvl s) as (s1 & H1 & Hn1 & Hy1 & _).
    assert (k < c) as Hkc by nia.
    destruct (IH s1 (k + 1) Ht Hi Hmax ltac:(lia) ltac:(fold c; lia) ltac:(fold c; lia))
      as (s2 & j & H2 & Hpost & _ & _ & Hn2 & Hy2).
    exists s2, (S j). unfold bind. rewrite H1, H2.
    split; [reflexivity |]. split; [assumption |].
    split; [intros [Hf | Hf]; [discriminate | lia] |].
    split; [lia |]. split; [lia |].
    rewrite Hy2, Hy1. destruct (yields (env s)); simpl; [now rewrite skipn_nil | reflexivity].
Qed.

(** X8.  What [esp_delay] guarantees on return, for a timeout and an interval
    whose first multiple at or above the timeout is below 2^32 ms.  Either
    the predicate is false in the state returned or the timeout has elapsed;
    if the predicate is false at entry, or the timeout is 0, nothing is
    yielded and the state is the one given; otherwise the clock has advanced
    by a whole number of intervals, one per yield taken. *)
Theorem esp_delay_returns_when_released (timeout_ms intvl_ms : Z)
  (blocked : State -> bool) (fuel : nat) (s : State) :
  0 <= timeout_ms -> 1 <= intvl_ms ->
  intvl_ms * ((timeout_ms + intvl_ms - 1) / intvl_ms) < 4294967296 ->
  (Z.to_nat timeout_ms <= fuel)%nat ->
  exists s' j,
    esp_delay fuel timeout_ms blocked intvl_ms s = Done (tt, s') /\
    (blocked s' = false \/ timeout_ms <= now (env s') - now (env s)) /\
    ((blocked s = false \/ timeout_ms = 0) -> s' = s) /\
    now (env s') = now (env s) + intvl_ms * Z.of_nat j /\
    yields (env s') = skipn j (yields (env s)).
Proof.
  intros Ht Hi Hmax Hfuel. unfold esp_delay, bind, millis.
  pose proof (yields_needed timeout_ms intvl_ms Ht Hi) as Hc. cbv zeta in Hc.
  destruct (esp_delay_loop_post timeout_ms intvl_ms blocked (now (env s)) fuel s 0)
    as (s' & j & H & Hpost & Hsame & _ & Hn & Hy); try assumption; try lia.
  exists s', j. split; [assumption |]. split; [assumption |].
  split; [| split; assumption].
  intros [Hb | Hz]; apply Hsame; [now left | right; lia].
Qed.

Lemma esp_delay_returns_when_released_witness :
  exists s' j,
    esp_delay 3 3 (fun s => _connect_pending (ctx s)) 1 demo_connect_state
    = Done (tt, s') /\
    (_connect_pending (ctx s') = false \/
     3 <= now (env s') - now (env demo_connect_state)) /\
    ((_connect_pending (ctx demo_connect_state) = false \/ 3 = 0) ->
     s' = demo_connect_state) /\
    now (env s') = now (env demo_connect_state) + 1 * Z.of_nat j /\
    yields (env s') = skipn j (yields (env demo_connect_state)).
Proof.
  apply (esp_delay_returns_when_released 3 1 (fun s => _connect_pending (ctx s)) 3
           demo_connect_state).
  - lia.
  - lia.
  - reflexivity.
  - simpl. lia.
Defined.

(** ** The other outcomes of connect *)

(** X9.  A [connect] that the stack refuses at once.  When [tcp_connect]
    answers an error, [connect] returns 0 without waiting: no yield is taken,
    the clock has not moved, and the context, handle included, is as it was;
    the handle is neither closed nor aborted. *)
Theorem connect_refused_leaves_handle (fuel : nat) (port : Z) (s : State) (p : tcp_pcb) :
  _pcb (ctx s) = Some p -> connect_ret (env s) <> ERR_OK ->
  exists s',
    connect fuel port s = Done (0, s') /\ ctx s' = ctx s /\
    calls (env s') = calls (env s) ++ [C_tcp_connect port (connect_ret (env s))] /\
    now (env s') = now (env s) /\ yields (env s') = yields (env s).
Proof.
  intros Hp Hret.
  destruct s as [[pcb rx off dcb ds dl wr tm st sw cp rc sy] w].
  cbn [ctx env _pcb] in *. subst pcb.
  unfold connect, tcp_connect. unfold bind at 1 2, self at 1.
  cbn [ctx _pcb]. unfold bind at 1 2 3, call at 1. cbn [env ctx connect_ret].
  apply Z.eqb_neq in Hret. rewrite Hret. cbn [when negb]. unfold ret at 1 2.
  rewrite Hret. cbn [negb]. unfold ret. eexists. split; [reflexivity |]. auto.
Qed.

Lemma connect_refused_leaves_handle_witness :
  exists s',
    connect 0 80 (mk_state demo_ctx (mk_world 0 [] [] ERR_MEM ERR_OK [] [] false))
    = Done (0, s') /\ ctx s' = demo_ctx /\
    calls (env s') = [] ++ [C_tcp_connect 80 ERR_MEM] /\
    now (env s') = 0 /\ yields (env s') = [].
Proof.
  apply (connect_refused_leaves_handle 0 80
           (mk_state demo_ctx (mk_world 0 [] [] ERR_MEM ERR_OK [] [] false)) demo_pcb).
  - reflexivity.
  - discriminate.
Defined.

Lemma dispatch_harmless ev s p :
  _pcb (ctx s) = Some p -> harmless_event ev = true ->
  exists s',
    dispatch ev s = Done (tt, s') /\
    now (env s') = now (env s) /\ yields (env s') = yields (env s) /\
    calls (env s') = calls (env s) /\
    match ev with
    | EvConnected =>
        _pcb (ctx s') = Some (established p) /\ _connect_pending (ctx s') = false
    | _ =>
        _pcb (ctx s') = Some p /\
        _connect_pending (ctx s') = _connect_pending (ctx s)
    end.
Proof.
  intros Hp Hh.
  destruct s as [[pcb rx off dcb ds dl wr tm st sw cp rc sy] w].
  cbn [ctx env _pcb] in *. subst pcb.
  unfold dispatch, set_pcb_state, _connected, _recv, _acked, _poll,
    _write_some_from_cb.
  destruct ev as [| err | pb | n |]; [| discriminate | destruct pb as [| q qs];
    [discriminate |] | |];
    destruct cp; destruct sw; destruct rx as [| r rs];
    run; eexists; (split; [reflexivity |]); simpl; auto 10.
Qed.

Lemma run_events_harmless evs : forall s p,
  _pcb (ctx s) = Some p -> pcb_state p = ESTABLISHED ->
  _connect_pending (ctx s) = false -> forallb harmless_event evs = true ->
  exists s',
    run_events evs s = Done (tt, s') /\
    now (env s') = now (env s) /\ yields (env s') = yields (env s) /\
    calls (env s') = calls (env s) /\
    _pcb (ctx s') = Some p /\ _connect_pending (ctx s') = false.
Proof.
  induction evs as [| ev evs IH]; intros s p Hp Hst Hcp Hh.
  - exists s. simpl. unfold ret. auto 10.
  - cbn [forallb] in Hh. apply andb_true_iff in Hh. destruct Hh as [Ha Hb].
    destruct (dispatch_harmless ev s p Hp Ha) as (s1 & H1 & Hn1 & Hy1 & Hc1 & Hev).
    assert (_pcb (ctx s1) = Some p /\ _connect_pending (ctx s1) = false) as [Hp1 Hcp1].
    { destruct ev; destruct Hev as [Hx Hy]; (split; [| congruence]); try assumption.
      rewrite Hx. f_equal. destruct p; unfold established; simpl in *. congruence. }
    destruct (IH s1 p Hp1 Hst Hcp1 Hb) as (s2 & H2 & Hn2 & Hy2 & Hc2 & Hp2 & Hcp2).
    exists s2. cbn [run_events]. unfold bind. rewrite H1, H2.
    repeat split; congruence.
Qed.

Lemma run_events_connected pre post : forall s p,
  _pcb (ctx s) = Some p -> forallb quiet_event pre = true ->
  forallb harmless_event post = true ->
  exists s',
    run_events (pre ++ EvConnected :: post) s = Done (tt, s') /\
    now (env s') = now (env s) /\ yields (env s') = yields (env s) /\
    calls (env s') = calls (env s) /\
    _pcb (ctx s') = Some (established p) /\ _connect_pending (ctx s') = false.
Proof.
  induction pre as [| ev pre IH]; intros s p Hp Hq Hh.
  - cbn [app run_events].
    destruct (dispatch_harmless EvConnected s p Hp eq_refl)
      as (s1 & H1 & Hn1 & Hy1 & Hc1 & Hp1 & Hcp1).
    destruct (run_events_harmless post s1 (established p) Hp1 eq_refl Hcp1 Hh)
      as (s2 & H2 & Hn2 & Hy2 & Hc2 & Hp2 & Hcp2).
    exists s2. unfold bind. rewrite H1, H2. repeat split; congruence.
  - cbn [forallb] in Hq. apply andb_true_iff in Hq. destruct Hq as [Ha Hb].
    destruct (dispatch_ok ev s) as (s1 & H1 & Hn1 & Hy1 & Hfr).
    destruct (Hfr Ha) as (Hp1 & Hcp1 & Ht1 & Hc1).
    destruct (IH s1 p ltac:(congruence) Hb Hh) as (s2 & H2 & Hn2 & Hy2 & Hc2 & Hp2 & Hcp2).
    exists s2. cbn [app run_events]. unfold bind. rewrite H1, H2.
    repeat split; congruence.
Qed.

Lemma run_events_after_close evs : forall s,
  _pcb (ctx s) = None -> run_events evs s = Done (tt, s).
Proof.
  induction evs as [| ev evs IH]; intros s Hp; [reflexivity |].
  cbn [run_events]. unfold bind, dispatch at 1. unfold bind, self. rewrite Hp.
  unfold ret. apply IH. assumption.
Qed.

Lemma run_events_error pre err post : forall s p,
  _pcb (ctx s) = Some p -> forallb quiet_event pre = true ->
  exists s',
    run_events (pre ++ EvError err :: post) s = Done (tt, s') /\
    now (env s') = now (env s) /\ yields (env s') = yields (env s) /\
    calls (env s')
    = calls (env s) ++ [C_tcp_arg false; C_tcp_sent false; C_tcp_recv false;
                        C_tcp_err false] /\
    _pcb (ctx s') = None /\ _connect_pending (ctx s') = false /\
    _send_waiting (ctx s') = false.
Proof.
  induction pre as [| ev pre IH]; intros s p Hp Hq.
  - cbn [app run_events].
    assert (exists s1, dispatch (EvError err) s = Done (tt, s1) /\
      now (env s1) = now (env s) /\ yields (env s1) = yields (env s) /\
      calls (env s1)
      = calls (env s) ++ [C_tcp_arg false; C_tcp_sent false; C_tcp_recv false;
                          C_tcp_err false] /\
      _pcb (ctx s1) = None /\ _connect_pending (ctx s1) = false /\
      _send_waiting (ctx s1) = false) as (s1 & H1 & Hn1 & Hy1 & Hc1 & Hp1 & Hcp1 & Hsw1).
    { destruct s as [[pcb rx off dcb ds dl wr tm st sw cp rc sy] w].
      cbn [ctx env _pcb] in *. subst pcb.
      unfold dispatch, _error, _notify_error.
      destruct cp; destruct sw; run; eexists; (split; [reflexivity |]); simpl;
        rewrite <- ?app_assoc; auto 10. }
    exists s1. unfold bind. rewrite H1, (run_events_after_close post s1 Hp1).
    auto 10.
  - cbn [forallb] in Hq. apply andb_true_iff in Hq. destruct Hq as [Ha Hb].
    destruct (dispatch_ok ev s) as (s1 & H1 & Hn1 & Hy1 & Hfr).
    destruct (Hfr Ha) as (Hp1 & Hcp1 & Ht1 & Hc1).
    destruct (IH s1 p ltac:(congruence) Hb)
      as (s2 & H2 & Hn2 & Hy2 & Hc2 & Hp2 & Hcp2 & Hsw2).
    exists s2. cbn [app run_events]. unfold bind. rewrite H1, H2.
    repeat split; congruence.
Qed.

Lemma connect_wait_skips_quiet timeout now0 p qs : forall s rest,
  timeout < 4294967296 ->
  0 <= now (env s) - now0 -> now (env s) - now0 + zlength qs <= timeout ->
  _pcb (ctx s) = Some p -> _connect_pending (ctx s) = true ->
  forallb (forallb quiet_event) qs = true ->
  yields (env s) = qs ++ rest ->
  exists s1,
    _pcb (ctx s1) = Some p /\ _connect_pending (ctx s1) = true /\
    _timeout_ms (ctx s1) = _timeout_ms (ctx s) /\
    calls (env s1) = calls (env s) /\
    now (env s1) = now (env s) + zlength qs /\ yields (env s1) = rest /\
    forall fuel,
      esp_delay_loop (length qs + fuel) (u32 now0) timeout
        (fun st => _connect_pending (ctx st)) 1 s
      = esp_delay_loop fuel (u32 now0) timeout
          (fun st => _connect_pending (ctx st)) 1 s1.
Proof.
  induction qs as [| q qs IH]; intros s rest Hmax He0 He Hp Hcp Hq Hy.
  - exists s. unfold zlength. simpl. rewrite Z.add_0_r. auto 10.
  - cbn [forallb] in Hq. apply andb_true_iff in Hq. destruct Hq as [Hq1 Hq2].
    unfold zlength in He. cbn [length] in He.
    destruct (delay_ok 1 s) as (s1 & H1 & Hn1 & Hy1 & Hfr).
    rewrite Hy in Hy1, Hfr. cbn [app hd tl] in Hy1, Hfr.
    destruct (Hfr Hq1) as (Hp1 & Hcp1 & Ht1 & Hc1).
    destruct (IH s1 rest Hmax ltac:(lia) ltac:(unfold zlength; lia)
                ltac:(congruence) ltac:(congruence) Hq2 Hy1)
      as (s2 & Hp2 & Hcp2 & Ht2 & Hc2 & Hn2 & Hy2 & Hloop).
    exists s2. repeat split; try congruence.
    + rewrite Hn2, Hn1. unfold zlength. cbn [length]. lia.
    + intros fuel. cbn [length plus esp_delay_loop]. unfold bind at 1, millis.
      rewrite u32_diff, u32_small by lia.
      destruct (Z.ltb_spec (now (env s) - now0) timeout); [| lia].
      rewrite Hcp. simpl. unfold bind. rewrite H1. apply Hloop.
Qed.

Ltac connect_steps Hret :=
  unfold connect, tcp_connect; unfold bind at 1 2, self at 1;
  cbn [ctx _pcb]; unfold bind at 1 2 3, call at 1; cbn [env ctx connect_ret];
  rewrite Hret; cbn [Z.eqb ERR_OK when negb]; unfold update at 1, ret at 1;
  cbn [env ctx negb]; change (ERR_OK =? ERR_OK) with true; cbn [negb];
  unfold bind at 1, update at 1; cbn [ctx env];
  unfold bind at 1, millis at 1; cbn [ctx env now];
  unfold bind at 1, update at 1; cbn [ctx env];
  unfold bind at 1, self at 1; cbn [ctx env];
  unfold esp_delay; unfold bind at 1 2, millis at 1;
  cbn [ctx env now _timeout_ms with_op_start with_connect_pending with_pcb].

(** X10.  A [connect] that completes.  With a handle, [tcp_connect] accepted,
    quiet callbacks only during the first [j] yields, [j] below the timeout,
    and the connected callback in the next yield (after quiet callbacks, and
    followed by neither an error nor a peer close): [connect] returns 1 after
    [j + 1] ms, the handle is kept with the pcb in ESTABLISHED, no wait is
    pending, and the only call made is the connect request. *)
Theorem connect_succeeds_when_connected (fuel : nat) (port : Z) (s : State)
  (p : tcp_pcb) (qs : list (list StackEvent)) (pre post : list StackEvent)
  (rest : list (list StackEvent)) :
  _pcb (ctx s) = Some p -> connect_ret (env s) = ERR_OK ->
  zlength qs < _timeout_ms (ctx s) < 4294967296 ->
  yields (env s) = qs ++ (pre ++ EvConnected :: post) :: rest ->
  forallb (forallb quiet_event) qs = true ->
  forallb quiet_event pre = true -> forallb harmless_event post = true ->
  (length qs < fuel)%nat ->
  exists s',
    connect fuel port s = Done (1, s') /\
    _pcb (ctx s') = Some (established p) /\ _connect_pending (ctx s') = false /\
    calls (env s') = calls (env s) ++ [C_tcp_connect port ERR_OK] /\
    now (env s') = now (env s) + zlength qs + 1 /\ yields (env s') = rest.
Proof.
  intros Hp Hret Htm Hy Hqs Hpre Hpost Hfuel.
  destruct s as [[pcb rx off dcb ds dl wr tm st sw cp rc sy] w].
  cbn [ctx env _pcb _timeout_ms] in *. subst pcb.
  pose proof (zlength_nonneg qs) as Hl0.
  connect_steps Hret.
  match goal with |- context [esp_delay_loop _ _ _ _ _ ?st0] =>
    destruct (connect_wait_skips_quiet tm (now w)
                (mk_pcb SYN_SENT (so_options p) (keep_idle p) (keep_intvl p) (keep_cnt p))
                qs st0 ((pre ++ EvConnected :: post) :: rest))
      as (s1 & Hp1 & Hcp1 & Ht1 & Hc1 & Hn1 & Hy1 & Hloop)
  end; cbn [ctx env now yields _pcb _connect_pending]; try reflexivity; try lia;
    try assumption.
  replace fuel with (length qs + S (fuel - length qs - 1))%nat by lia.
  rewrite Hloop. cbn [esp_delay_loop]. unfold bind at 1, millis at 1.
  cbn [env now] in Hn1.
  rewrite u32_diff, u32_small by lia.
  destruct (Z.ltb_spec (now (env s1) - now w) tm); [| lia].
  rewrite Hcp1. cbn [andb]. unfold bind at 1, delay at 1.
  rewrite Hy1. cbn [hd tl].
  match goal with |- context [run_events _ ?st1] =>
    destruct (run_events_connected pre post st1
                (mk_pcb SYN_SENT (so_options p) (keep_idle p) (keep_intvl p) (keep_cnt p)))
      as (s2 & H2 & Hn2 & Hy2 & Hc2 & Hp2 & Hcp2)
  end; cbn [ctx env]; try assumption.
  rewrite H2, esp_delay_loop_unblocked by assumption.
  unfold bind at 1, update at 1. unfold bind at 1, self at 1.
  cbn [ctx env _pcb with_connect_pending]. rewrite Hp2.
  unfold bind at 1, state at 1. unfold bind at 1, self at 1.
  cbn [ctx env _pcb with_connect_pending]. rewrite Hp2.
  cbn [pcb_state established]. unfold ret. cbn [tcp_state_eqb negb].
  eexists. split; [reflexivity |].
  cbn [ctx env _pcb _connect_pending with_connect_pending now calls yields] in *.
  split; [exact Hp2 |]. split; [reflexivity |].
  split; [congruence |]. split; [lia | congruence].
Qed.

(** X11.  A [connect] that the stack fails.  With a handle, [tcp_connect]
    accepted, quiet callbacks only during the first [j] yields, [j] below the
    timeout, and the error callback in the next yield: [connect] returns 0
    after [j + 1] ms and the handle is null.  The stack has freed the pcb
    itself, and the class calls neither [tcp_abort] nor [tcp_close]: the
    calls made are the connect request and the detaching of four
    callbacks. *)
Theorem connect_fails_on_error (fuel : nat) (port err : Z) (s : State)
  (p : tcp_pcb) (qs : list (list StackEvent)) (pre post : list StackEvent)
  (rest : list (list StackEvent)) :
  _pcb (ctx s) = Some p -> connect_ret (env s) = ERR_OK ->
  zlength qs < _timeout_ms (ctx s) < 4294967296 ->
  yields (env s) = qs ++ (pre ++ EvError err :: post) :: rest ->
  forallb (forallb quiet_event) qs = true ->
  forallb quiet_event pre = true ->
  (length qs < fuel)%nat ->
  exists s',
    connect fuel port s = Done (0, s') /\
    _pcb (ctx s') = None /\ _connect_pending (ctx s') = false /\
    calls (env s')
    = calls (env s) ++ [C_tcp_connect port ERR_OK; C_tcp_arg false;
                        C_tcp_sent false; C_tcp_recv false; C_tcp_err false] /\
    now (env s') = now (env s) + zlength qs + 1 /\ yields (env s') = rest.
Proof.
  intros Hp Hret Htm Hy Hqs Hpre Hfuel.
  destruct s as [[pcb rx off dcb ds dl wr tm st sw cp rc sy] w].
  cbn [ctx env _pcb _timeout_ms] in *. subst pcb.
  pose proof (zlength_nonneg qs) as Hl0.
  connect_steps Hret.
  match goal with |- context [esp_delay_loop _ _ _ _ _ ?st0] =>
    destruct (connect_wait_skips_quiet tm (now w)
                (mk_pcb SYN_SENT (so_options p) (keep_idle p) (keep_intvl p) (keep_cnt p))
                qs st0 ((pre ++ EvError err :: post) :: rest))
      as (s1 & Hp1 & Hcp1 & Ht1 & Hc1 & Hn1 & Hy1 & Hloop)
  end; cbn [ctx env now yields _pcb _connect_pending]; try reflexivity; try lia;
    try assumption.
  replace fuel with (length qs + S (fuel - length qs - 1))%nat by lia.
  rewrite Hloop. cbn [esp_delay_loop]. unfold bind at 1, millis at 1.
  cbn [env now] in Hn1.
  rewrite u32_diff, u32_small by lia.
  destruct (Z.ltb_spec (now (env s1) - now w) tm); [| lia].
  rewrite Hcp1. cbn [andb]. unfold bind at 1, delay at 1.
  rewrite Hy1. cbn [hd tl].
  match goal with |- context [run_events _ ?st1] =>
    destruct (run_events_error pre err post st1
                (mk_pcb SYN_SENT (so_options p) (keep_idle p) (keep_intvl p) (keep_cnt p)))
      as (s2 & H2 & Hn2 & Hy2 & Hc2 & Hp2 & Hcp2 & _)
  end; cbn [ctx env]; try assumption.
  rewrite H2, esp_delay_loop_unblocked by assumption.
  unfold bind at 1, update at 1. unfold bind at 1, self at 1.
  cbn [ctx env _pcb with_connect_pending]. rewrite Hp2.
  unfold ret. eexists. split; [reflexivity |].
  cbn [ctx env _pcb _connect_pending with_connect_pending now calls yields] in *.
  split; [exact Hp2 |]. split; [reflexivity |].
  split; [rewrite Hc2, Hc1, <- app_assoc; reflexivity |].
  split; [lia | congruence].
Qed.

Lemma connect_succeeds_when_connected_witness :
  exists s',
    connect 3 80
      (mk_state (ctx demo_connect_state)
         (mk_world 0 [] [[EvPoll]; [EvConnected; EvAcked 1]; []] ERR_OK ERR_OK
            [] [] false))
    = Done (1, s') /\
    _pcb (ctx s') = Some (established (mk_pcb CLOSED 0 0 0 0)) /\
    _connect_pending (ctx s') = false /\
    calls (env s') = [] ++ [C_tcp_connect 80 ERR_OK] /\
    now (env s') = 0 + zlength [[EvPoll]] + 1 /\ yields (env s') = [[]].
Proof.
  apply (connect_succeeds_when_connected 3 80
           (mk_state (ctx demo_connect_state)
              (mk_world 0 [] [[EvPoll]; [EvConnected; EvAcked 1]; []] ERR_OK ERR_OK
                 [] [] false))
           (mk_pcb CLOSED 0 0 0 0) [[EvPoll]] [] [EvAcked 1] [[]]).
  - reflexivity.
  - reflexivity.
  - unfold zlength. simpl. lia.
  - reflexivity.
  - reflexivity.
  - reflexivity.
  - reflexivity.
  - simpl. lia.
Defined.

Lemma connect_fails_on_error_witness :
  exists s',
    connect 3 80
      (mk_state (ctx demo_connect_state)
         (mk_world 0 [] [[EvPoll]; [EvError ERR_ABRT; EvPoll]; []] ERR_OK ERR_OK
            [] [] false))
    = Done (0, s') /\
    _pcb (ctx s') = None /\ _connect_pending (ctx s') = false /\
    calls (env s')
    = [] ++ [C_tcp_connect 80 ERR_OK; C_tcp_arg false;
             C_tcp_sent false; C_tcp_recv false; C_tcp_err false] /\
    now (env s') = 0 + zlength [[EvPoll]] + 1 /\ yields (env s') = [[]].
Proof.
  apply (connect_fails_on_error 3 80 ERR_ABRT
           (mk_state (ctx demo_connect_state)
              (mk_world 0 [] [[EvPoll]; [EvError ERR_ABRT; EvPoll]; []] ERR_OK ERR_OK
                 [] [] false))
           (mk_pcb CLOSED 0 0 0 0) [[EvPoll]] [] [EvPoll] [[]]).
  - reflexivity.
  - reflexivity.
  - unfold zlength. simpl. lia.
  - reflexivity.
  - reflexivity.
  - reflexivity.
  - simpl. lia.
Defined.

(** ** What one pass of the send loop accounts for *)

Lemma write_some_pass (s : State) :
  0 <= _written (ctx s) <= _datalen (ctx s) -> _datalen (ctx s) < 4294967296 ->
  exists r s' T,
    _write_some s = Done (r, s') /\
    calls (env s') = calls (env s) ++ T /\
    ctx s' = with_written (_written (ctx s) + ok_bytes T) (ctx s) /\
    0 <= ok_bytes T /\ _written (ctx s) + ok_bytes T <= _datalen (ctx s) /\
    r = (0 <? ok_bytes T) /\
    count_output T = (if r then 1 else 0)%nat /\
    (r = true -> exists T0, T = T0 ++ [C_tcp_output]) /\
    now (env s') = now (env s) /\ yields (env s') = yields (env s).
Proof.
  intros Hwr Hdl. unfold _write_some. unfold bind at 1, self at 1.
  assert (exists r s' T,
            Done (false, s) = Done (r, s') /\
            calls (env s') = calls (env s) ++ T /\
            ctx s' = with_written (_written (ctx s) + ok_bytes T) (ctx s) /\
            0 <= ok_bytes T /\ _written (ctx s) + ok_bytes T <= _datalen (ctx s) /\
            r = (0 <? ok_bytes T) /\
            count_output T = (if r then 1 else 0)%nat /\
            (r = true -> exists T0, T = T0 ++ [C_tcp_output]) /\
            now (env s') = now (env s) /\ yields (env s') = yields (env s)) as Hidle.
  { exists false, s, []. cbn [ok_bytes]. rewrite app_nil_r, Z.add_0_r.
    destruct s as [[pcb rx off dcb ds dl wr tm st sw cp rc sy] w].
    repeat split; auto; try lia; try (intros Hf; discriminate Hf). }
  destruct (_datasource (ctx s)) as [base |]; [| exact Hidle].
  destruct (_pcb (ctx s)) as [p |]; [| exact Hidle]. clear Hidle.
  destruct (write_some_loop_ok
              (Z.to_nat (_datalen (ctx s) - _written (ctx s)) + 5) false 0 s)
    as (r & s1 & T0 & Hrun & _); try lia.
  destruct (write_some_loop_acct _ _ _ _ _ _ (Z.le_refl 0) Hwr Hdl Hrun)
    as (T & Hcalls & Hctx & Hok & Hle & Hout & Hnow & Hy & Hr).
  unfold bind at 1. rewrite Hrun.
  destruct r as [v | hw].
  - destruct Hr as (-> & -> & _). exists false, s1, []. unfold ret.
    cbn [ok_bytes] in *.
    repeat split; auto; try lia; try (intros Hf; discriminate Hf).
  - cbn [orb] in Hr. subst hw.
    destruct (Z.ltb_spec 0 (ok_bytes T)) as [Hpos | Hzero].
    + exists true. eexists. exists (T ++ [C_tcp_output]).
      unfold when, bind, tcp_output, call, ret. split; [reflexivity |].
      cbn [env ctx calls now yields]. rewrite ok_bytes_app, count_output_app, Hout.
      cbn [ok_bytes]. rewrite Z.add_0_r, Hcalls, <- app_assoc.
      destruct (Z.ltb_spec 0 (ok_bytes T)); [| lia].
      repeat split; auto; try lia; try (intros Hf; discriminate Hf).
      intros _. exists T. reflexivity.
    + exists false, s1, T. unfold when, bind, ret.
      destruct (Z.ltb_spec 0 (ok_bytes T)); [lia |].
      repeat split; auto; try lia; try (intros Hf; discriminate Hf).
Qed.

(** X12.  What one pass of the send loop accounts for.  [_write_some] returns
    without yielding (the clock and the schedule of callbacks are as before)
    and changes nothing of the context but [_written], which grows by exactly
    the bytes the stack accepted in this pass and never passes [_datalen].
    The result is true exactly when at least one byte was accepted, and
    [tcp_output] is then called once, as the last call of the pass; a pass
    that had nothing accepted never calls it. *)
Theorem write_some_accounts (s : State) :
  0 <= _written (ctx s) <= _datalen (ctx s) -> _datalen (ctx s) < 4294967296 ->
  exists r s' T,
    _write_some s = Done (r, s') /\
    calls (env s') = calls (env s) ++ T /\
    ctx s' = with_written (_written (ctx s) + ok_bytes T) (ctx s) /\
    0 <= ok_bytes T /\ _written (ctx s) + ok_bytes T <= _datalen (ctx s) /\
    r = (0 <? ok_bytes T) /\
    count_output T = (if r then 1 else 0)%nat /\
    (r = true -> exists T0, T = T0 ++ [C_tcp_output]) /\
    now (env s') = now (env s) /\ yields (env s') = yields (env s).
Proof. exact (write_some_pass s). Qed.

Lemma write_some_accounts_witness :
  exists r s' T,
    _write_some demo_write_state = Done (r, s') /\
    calls (env s') = calls (env demo_write_state) ++ T /\
    ctx s' = with_written (_written (ctx demo_write_state) + ok_bytes T)
               (ctx demo_write_state) /\
    0 <= ok_bytes T /\
    _written (ctx demo_write_state) + ok_bytes T <= _datalen (ctx demo_write_state) /\
    r = (0 <? ok_bytes T) /\
    count_output T = (if r then 1 else 0)%nat /\
    (r = true -> exists T0, T = T0 ++ [C_tcp_output]) /\
    now (env s') = now (env demo_write_state) /\
    yields (env s') = yields (env demo_write_state).
Proof.
  apply (write_some_accounts demo_write_state).
  - simpl. lia.
  - simpl. lia.
Defined.

(** ** Callbacks leave the send cursor alone *)

Lemma cursor_kept_refl s : cursor_kept s s.
Proof.
  unfold cursor_kept. repeat split; try reflexivity.
  exists []. rewrite app_nil_r. split; reflexivity.
Qed.

Lemma cursor_kept_trans s1 s2 s3 :
  cursor_kept s1 s2 -> cursor_kept s2 s3 -> cursor_kept s1 s3.
Proof.
  unfold cursor_kept.
  intros (A1 & A2 & A3 & A4 & A5 & A6 & T1 & A7 & A8)
         (B1 & B2 & B3 & B4 & B5 & B6 & T2 & B7 & B8).
  repeat split; try congruence.
  exists (T1 ++ T2). rewrite B7, A7, <- app_assoc, ok_bytes_app, A8, B8.
  split; reflexivity.
Qed.

Lemma dispatch_cursor ev s :
  exists s',
    dispatch ev s = Done (tt, s') /\
    now (env s') = now (env s) /\ yields (env s') = yields (env s) /\
    cursor_kept s s'.
Proof.
  destruct s as [[pcb rx off dcb ds dl wr tm st sw cp rc sy] w].
  unfold dispatch, set_pcb_state, _connected, _error, _recv, _acked, _poll,
    _write_some_from_cb, _notify_error, abort, cursor_kept.
  destruct pcb as [p |];
    [| run; eexists; split; [reflexivity |]; simpl;
       repeat split; exists []; rewrite app_nil_r; split; reflexivity].
  destruct ev as [| err | pb | n |]; [| | destruct pb as [| q qs] | |];
    destruct cp; destruct sw; destruct rx as [| r rs];
    run; try (destruct (tot_len r =? 0); simpl);
    eexists; (split; [reflexivity |]); simpl;
    (split; [reflexivity |]); (split; [reflexivity |]);
    repeat (split; [reflexivity |]);
    rewrite <- ?app_assoc;
    first [ exists []; rewrite app_nil_r; split; reflexivity
          | eexists; split; reflexivity ].
Qed.

Lemma run_events_cursor evs : forall s,
  exists s',
    run_events evs s = Done (tt, s') /\
    now (env s') = now (env s) /\ yields (env s') = yields (env s) /\
    cursor_kept s s'.
Proof.
  induction evs as [| ev evs IH]; intros s.
  - exists s. simpl. unfold ret. auto using cursor_kept_refl.
  - destruct (dispatch_cursor ev s) as (s1 & H1 & Hn1 & Hy1 & Hk1).
    destruct (IH s1) as (s2 & H2 & Hn2 & Hy2 & Hk2).
    exists s2. cbn [run_events]. unfold bind. rewrite H1, H2.
    split; [reflexivity |]. split; [congruence |]. split; [congruence |].
    eapply cursor_kept_trans; eassumption.
Qed.

Lemma delay_cursor ms s :
  exists s',
    delay ms s = Done (tt, s') /\ now (env s') = now (env s) + ms /\
    cursor_kept s s'.
Proof.
  unfold delay.
  match goal with |- context [run_events ?e ?st] =>
    destruct (run_events_cursor e st) as (s' & H & Hn & Hy & Hk) end.
  exists s'. split; [assumption |]. split; [exact Hn |]. exact Hk.
Qed.

Lemma esp_delay_loop_kept blocked start timeout intvl fuel : forall s s',
  esp_delay_loop fuel start timeout blocked intvl s = Done (tt, s') ->
  cursor_kept s s'.
Proof.
  induction fuel as [| fuel IH]; intros s s' Hrun;
    cbn [esp_delay_loop] in Hrun; unfold bind at 1, millis in Hrun;
    destruct ((u32 (u32 (now (env s)) - start) <? timeout) && blocked s);
    try discriminate Hrun;
    try (injection Hrun as <-; apply cursor_kept_refl).
  destruct (delay_cursor intvl s) as (s1 & H1 & _ & Hk1).
  unfold bind in Hrun. rewrite H1 in Hrun.
  eapply cursor_kept_trans; [exact Hk1 | apply IH; exact Hrun].
Qed.

(** A wait of [_write_from_source]: the flag is set, the timeout is at least
    1 ms, so at least one yield is taken, and at most [timeout] of them. *)
Lemma esp_delay_send_wait dfuel tm s :
  1 <= tm < 4294967296 -> (Z.to_nat tm <= dfuel)%nat ->
  _send_waiting (ctx s) = true ->
  exists s',
    esp_delay dfuel tm (fun st => _send_waiting (ctx st)) 1 s = Done (tt, s') /\
    now (env s) + 1 <= now (env s') <= now (env s) + tm /\
    cursor_kept s s'.
Proof.
  intros Htm Hfuel Hsw. unfold esp_delay. unfold bind at 1, millis at 1.
  destruct dfuel as [| dfuel]; [lia |].
  cbn [esp_delay_loop]. unfold bind at 1, millis at 1.
  rewrite u32_diff, Z.sub_diag. change (u32 0) with 0.
  destruct (Z.ltb_spec 0 tm); [| lia]. rewrite Hsw. cbn [andb].
  destruct (delay_cursor 1 s) as (s1 & H1 & Hn1 & Hk1).
  unfold bind at 1. rewrite H1.
  destruct (esp_delay_loop_ok tm 1 (fun st => _send_waiting (ctx st))
              (now (env s)) dfuel s1 1) as (s2 & H2 & Hle & Hlt);
    try lia.
  { rewrite Z.add_simpl_r, Z.div_1_r. lia. }
  { rewrite Z.add_simpl_r, Z.div_1_r. lia. }
  { rewrite Z.add_simpl_r, Z.div_1_r. lia. }
  exists s2. split; [exact H2 |]. split; [lia |].
  eapply cursor_kept_trans; [exact Hk1 |].
  eapply esp_delay_loop_kept. exact H2.
Qed.

(** ** The loop of [_write_from_source] *)

Lemma is_timeout_eval s n0 :
  _op_start_time (ctx s) = u32 n0 -> 0 <= now (env s) - n0 < 4294967296 ->
  _is_timeout s = Done (_timeout_ms (ctx s) <? now (env s) - n0, s).
Proof.
  intros Hst He. unfold _is_timeout, bind, millis, self, ret.
  rewrite Hst, u32_diff, u32_small by assumption. reflexivity.
Qed.

Lemma write_from_source_loop_ok dfuel tm dl :
  1 <= tm < 2147483648 -> 0 <= dl < 4294967296 -> (Z.to_nat tm <= dfuel)%nat ->
  forall fuel s n0,
  _datalen (ctx s) = dl -> _timeout_ms (ctx s) = tm ->
  0 <= _written (ctx s) <= dl ->
  _op_start_time (ctx s) = u32 n0 -> 0 <= now (env s) - n0 <= 2 * tm ->
  _send_waiting (ctx s) = false ->
  (dl - _written (ctx s)) * (2 * tm + 2) + (2 * tm + 1 - (now (env s) - n0))
  < Z.of_nat fuel ->
  exists s' T,
    write_from_source_loop fuel dfuel s = Done (tt, s') /\
    calls (env s') = calls (env s) ++ T /\
    _written (ctx s') = _written (ctx s) + ok_bytes T /\
    0 <= ok_bytes T /\ _written (ctx s') <= dl /\
    _datasource (ctx s') = None /\ _datalen (ctx s') = 0 /\
    _send_waiting (ctx s') = false /\ _sync (ctx s') = _sync (ctx s) /\
    (_written (ctx s') = dl \/ _is_timeout s' = Done (true, s') \/
     state s' = Done (CLOSED, s')) /\
    0 <= now (env s') - now (env s)
      <= ok_bytes T * (2 * tm) + (2 * tm - (now (env s) - n0)).
Proof.
  intros Htm Hdl Hdfuel.
  induction fuel as [| fuel IH]; intros s n0 Hdl' Htm' Hwr Hst He Hsw Hfuel; [nia |].
  cbn [write_from_source_loop].
  destruct (write_some_pass s) as (r & s1 & T1 & H1 & Hc1 & Hctx1 & Hok1 & Hle1 & Hr
                                   & _ & _ & Hn1 & Hy1); [lia | lia |].
  unfold bind at 1. rewrite H1. clear H1.
  destruct s as [[pcb rx off dcb ds dl0 wr tm0 st sw cp rc sy] w].
  destruct s1 as [c1 w1].
  unfold with_written, with_cursor in Hctx1.
  cbn [ctx env _pcb _rx_buf _rx_buf_offset _discard_cb _datasource _datalen _written
       _timeout_ms _op_start_time _send_waiting _connect_pending _refcnt _sync] in *.
  subst c1 dl0 tm0 st sw.
  set (wr' := wr + ok_bytes T1) in *.
  set (n0' := if r then now w1 else n0).
  assert (0 <= now w1 - n0' <= 2 * tm /\ (r = false -> n0' = n0) /\
          (r = true -> n0' = now w1)) as (He' & Hn0f & Hn0t).
  { subst n0'. destruct r; split; auto; lia. }
  assert ((if r then t <- millis ;; update (with_op_start t) else ret tt)
            (mk_state (mk_ctx pcb rx off dcb ds dl wr' tm (u32 n0) false cp rc sy) w1)
          = Done (tt, mk_state (mk_ctx pcb rx off dcb ds dl wr' tm (u32 n0') false cp rc sy) w1))
    as H2.
  { subst n0'. destruct r; reflexivity. }
  unfold bind at 1. rewrite H2. clear H2.
  unfold bind at 1, self at 1. cbn [ctx _written _datalen _timeout_ms].
  set (s2 := mk_state (mk_ctx pcb rx off dcb ds dl wr' tm (u32 n0') false cp rc sy) w1).
  assert (exists over,
            (if wr' =? dl then ret true
             else to <- _is_timeout ;;
                  if to then ret true
                  else st <- state ;; ret (tcp_state_eqb st CLOSED)) s2
            = Done (over, s2) /\
            (over = true ->
             wr' = dl \/ tm < now w1 - n0' \/ state s2 = Done (CLOSED, s2)) /\
            (over = false -> wr' < dl /\ now w1 - n0' <= tm)) as (over & Hover & Ht & Hf).
  { destruct (Z.eqb_spec wr' dl) as [Heq | Hne].
    - exists true. unfold ret. split; [reflexivity |]. split; [auto | discriminate].
    - unfold bind at 1. rewrite (is_timeout_eval s2 n0') by (subst s2; cbn; auto; lia).
      subst s2. cbn [ctx env _timeout_ms now].
      destruct (Z.ltb_spec tm (now w1 - n0')) as [Hto | Hto].
      + exists true. unfold ret. split; [reflexivity |]. split; [auto | discriminate].
      + match goal with |- context [bind state ?k ?st0] =>
          destruct (state_pure st0) as (tst & Hst0) end.
        unfold bind at 1. rewrite Hst0. unfold ret.
        exists (tcp_state_eqb tst CLOSED). split; [reflexivity |].
        split; [| intros _; lia].
        intros Hcl. right. right.
        assert (tst = CLOSED) as <- by (destruct tst; try discriminate; reflexivity).
        reflexivity. }
  unfold bind at 1. rewrite Hover. clear Hover.
  destruct over.
  - clear Hf. specialize (Ht eq_refl). clear IH.
    eexists. exists T1. unfold update. split; [reflexivity |].
    subst s2. unfold with_cursor.
    cbn [ctx env _pcb _rx_buf _rx_buf_offset _discard_cb _datasource _datalen _written
         _timeout_ms _op_start_time _send_waiting _connect_pending _refcnt _sync] in *.
    split; [exact Hc1 |]. split; [reflexivity |]. split; [exact Hok1 |].
    split; [exact Hle1 |]. split; [reflexivity |]. split; [reflexivity |].
    split; [reflexivity |]. split; [reflexivity |].
    split.
    + destruct Ht as [Ht | [Ht | Ht]]; [left; exact Ht | right; left | right; right].
      * match goal with |- _is_timeout ?st0 = _ =>
          rewrite (is_timeout_eval st0 n0') by (cbn; auto; lia) end.
        cbn [ctx env _timeout_ms now].
        destruct (Z.ltb_spec tm (now w1 - n0')); [reflexivity | lia].
      * eapply state_same_pcb; [| exact Ht]. reflexivity.
    + rewrite Hn1. destruct r.
      * assert (0 < ok_bytes T1) by (apply Z.ltb_lt; congruence). nia.
      * nia.
  - clear Ht. specialize (Hf eq_refl). destruct Hf as [Hlt Hnto].
    unfold bind at 1, update at 1. subst s2. cbn [ctx env]. unfold bind at 1.
    match goal with |- context [esp_delay _ _ _ _ ?st0] =>
      destruct (esp_delay_send_wait dfuel tm st0) as (s4 & H4 & Hn4 & Hk4)
    end; [lia | exact Hdfuel | reflexivity |].
    rewrite H4. clear H4.
    unfold bind at 1, update at 1.
    destruct Hk4 as (K1 & K2 & K3 & K4 & K5 & K6 & Tw & K7 & K8).
    unfold with_send_waiting in *.
    cbn [ctx env _pcb _rx_buf _rx_buf_offset _discard_cb _datasource _datalen _written
         _timeout_ms _op_start_time _send_waiting _connect_pending _refcnt _sync now calls]
      in *.
    match goal with |- context [write_from_source_loop fuel dfuel ?st0] =>
      destruct (IH st0 n0') as (s' & T' & Hrun & Hc' & Hw' & Hok' & Hle' & Hds' & Hdl'
                                & Hsw' & Hsy' & Hend & Htime)
    end;
      cbn [ctx env _pcb _rx_buf _rx_buf_offset _discard_cb _datasource _datalen _written
           _timeout_ms _op_start_time _send_waiting _connect_pending _refcnt _sync now calls];
      try assumption; try reflexivity; try lia.
    { rewrite K3. destruct r.
      - rewrite (Hn0t eq_refl) in *.
        assert (0 < ok_bytes T1) by (apply Z.ltb_lt; congruence). nia.
      - rewrite (Hn0f eq_refl) in *. nia. }
    exists s', (T1 ++ Tw ++ T').
    cbn [ctx env _pcb _rx_buf _rx_buf_offset _discard_cb _datasource _datalen _written
         _timeout_ms _op_start_time _send_waiting _connect_pending _refcnt _sync now calls]
      in *.
    rewrite !ok_bytes_app, K8.
    split; [exact Hrun |].
    split; [rewrite Hc', K7, Hc1, <- !app_assoc; reflexivity |].
    split; [rewrite Hw', K3; lia |]. split; [lia |]. split; [exact Hle' |].
    split; [exact Hds' |]. split; [exact Hdl' |]. split; [exact Hsw' |].
    split; [congruence |]. split; [exact Hend |].
    destruct r.
    + rewrite (Hn0t eq_refl) in *.
      assert (0 < ok_bytes T1) by (apply Z.ltb_lt; congruence). nia.
    + rewrite (Hn0f eq_refl) in *. nia.
Qed.

(** X13.  What [write] reports.  On a context with a handle, no send in
    progress, not synchronous, a timeout between 1 ms and 2^31 - 1 ms, and
    for every schedule of callbacks and every script of window sizes and
    [tcp_write] answers: [write] returns; the value returned is the number of
    bytes the stack accepted in its [tcp_write] calls, at most the size
    asked; the send cursor is cleared again; a value short of the size asked
    means that the operation timed out or that the connection no longer
    accepts data; and the clock, which only yields advance, has advanced by
    at most twice the timeout for each byte accepted and once more. *)
Theorem write_reports_accepted_bytes (TCP_SND_BUF WAIT : Z)
  (fuel dfuel afuel : nat) (ds : option Z) (dl : Z) (s : State) (p : tcp_pcb) :
  _pcb (ctx s) = Some p -> _datasource (ctx s) = None ->
  _send_waiting (ctx s) = false -> _sync (ctx s) = false ->
  1 <= _timeout_ms (ctx s) < 2147483648 -> 0 <= dl < 4294967296 ->
  (dl + 1) * (2 * _timeout_ms (ctx s) + 2) <= Z.of_nat fuel ->
  (Z.to_nat (_timeout_ms (ctx s)) <= dfuel)%nat ->
  exists n s' T,
    write TCP_SND_BUF WAIT fuel dfuel afuel ds dl s = Done (Passed n, s') /\
    calls (env s') = calls (env s) ++ T /\
    n = ok_bytes T /\ 0 <= n <= dl /\ _written (ctx s') = n /\
    _datasource (ctx s') = None /\ _datalen (ctx s') = 0 /\
    _send_waiting (ctx s') = false /\
    (n = dl \/ _is_timeout s' = Done (true, s') \/ state s' = Done (CLOSED, s')) /\
    0 <= now (env s') - now (env s) <= (n + 1) * (2 * _timeout_ms (ctx s)).
Proof.
  intros Hp Hds Hsw Hsy Htm Hdl Hfuel Hdfuel.
  destruct s as [[pcb rx off dcb ds0 dl0 wr tm st sw cp rc sy] w].
  cbn [ctx env _pcb _datasource _send_waiting _sync _timeout_ms] in *.
  subst pcb ds0 sw sy.
  unfold write, _write_from_source. unfold bind at 1, self at 1. cbn [ctx _pcb].
  unfold bind at 1, self at 1. cbn [ctx _datasource _send_waiting negb].
  unfold bind at 1, millis at 1. unfold bind at 1, update at 1.
  unfold bind at 1, update at 1. unfold with_cursor, with_op_start.
  cbn [ctx env _pcb _rx_buf _rx_buf_offset _discard_cb _datasource _datalen _written
       _timeout_ms _op_start_time _send_waiting _connect_pending _refcnt _sync].
  unfold bind at 1.
  match goal with |- context [write_from_source_loop fuel dfuel ?st0] =>
    destruct (write_from_source_loop_ok dfuel tm dl Htm Hdl Hdfuel fuel st0 (now w))
      as (s' & T & Hrun & Hc & Hw & Hok & Hle & Hds' & Hdl' & Hsw' & Hsy' & Hend & Htime)
  end;
    cbn [ctx env _datalen _timeout_ms _written _op_start_time _send_waiting now];
    try reflexivity; try lia.
  cbn [ctx env _pcb _rx_buf _rx_buf_offset _discard_cb _datasource _datalen _written
       _timeout_ms _op_start_time _send_waiting _connect_pending _refcnt _sync now calls]
    in *.
  rewrite Hrun. unfold bind at 1, self at 1. rewrite Hsy'.
  unfold bind at 1, ret at 1. unfold bind, self, ret.
  exists (_written (ctx s')), s', T.
  split; [reflexivity |]. split; [exact Hc |]. split; [lia |]. split; [lia |].
  split; [reflexivity |]. split; [exact Hds' |]. split; [exact Hdl' |].
  split; [exact Hsw' |]. split; [exact Hend |]. nia.
Qed.

Lemma write_reports_accepted_bytes_witness :
  exists n s' T,
    write 100 300 24 2 0 (Some 0) 3
      (mk_state (with_timeout 2 demo_ctx)
         (mk_world 0 [] [[EvAcked 1]; []] ERR_OK ERR_OK [2; 100] [] false))
    = Done (Passed n, s') /\
    calls (env s') = [] ++ T /\
    n = ok_bytes T /\ 0 <= n <= 3 /\ _written (ctx s') = n /\
    _datasource (ctx s') = None /\ _datalen (ctx s') = 0 /\
    _send_waiting (ctx s') = false /\
    (n = 3 \/ _is_timeout s' = Done (true, s') \/ state s' = Done (CLOSED, s')) /\
    0 <= now (env s') - 0 <= (n + 1) * (2 * 2).
Proof.
  apply (write_reports_accepted_bytes 100 300 24 2 0 (Some 0) 3
           (mk_state (with_timeout 2 demo_ctx)
              (mk_world 0 [] [[EvAcked 1]; []] ERR_OK ERR_OK [2; 100] [] false))
           demo_pcb).
  - reflexivity.
  - reflexivity.
  - reflexivity.
  - reflexivity.
  - simpl. lia.
  - lia.
  - simpl. lia.
  - simpl. lia.
Defined.

Lemma write_some_whole p rx off dcb base dl tm st sw cp rc sy nw cs ys cr clr v vs
  wrs fr :
  state (mk_state (mk_ctx (Some p) rx off dcb (Some base) dl 0 tm st sw cp rc sy)
           (mk_world nw cs ys cr clr (v :: vs) wrs fr))
  = Done (pcb_state p,
          mk_state (mk_ctx (Some p) rx off dcb (Some base) dl 0 tm st sw cp rc sy)
            (mk_world nw cs ys cr clr (v :: vs) wrs fr)) ->
  pcb_state p <> CLOSED ->
  0 < dl < 4294967296 -> dl <= u32 v -> hd ERR_OK wrs = ERR_OK ->
  _write_some (mk_state (mk_ctx (Some p) rx off dcb (Some base) dl 0 tm st sw cp rc sy)
                 (mk_world nw cs ys cr clr (v :: vs) wrs fr))
  = Done (true,
          mk_state (mk_ctx (Some p) rx off dcb (Some base) dl dl tm st sw cp rc sy)
            (mk_world nw (cs ++ [C_tcp_sndbuf (u32 v);
                                 C_tcp_write 0 dl (if sy then 0 else TCP_WRITE_FLAG_COPY)
                                   ERR_OK;
                                 C_tcp_output])
               ys cr clr vs (tl wrs) fr)).
Proof.
  intros Hst Hncl Hdl Hwin Hwr.
  unfold _write_some. unfold bind at 1, self at 1. cbn [ctx _datasource _pcb _datalen _written].
  rewrite Z.sub_0_r.
  replace (Z.to_nat dl + 5)%nat with (S (S (Z.to_nat dl + 3))) by lia.
  unfold bind at 1.
  cbn [write_some_loop]. unfold bind at 1, self at 1.
  cbn [ctx _datasource _pcb _datalen _written _sync].
  destruct (Z.ltb_spec 0 dl); [| lia].
  unfold bind at 1. rewrite Hst.
  assert (tcp_state_eqb (pcb_state p) CLOSED = false) as ->
    by (destruct (pcb_state p); try reflexivity; contradiction).
  unfold tcp_sndbuf, next_sndbuf. unfold bind at 1 2 3, call at 1, ret at 1.
  cbn [ctx env now calls yields connect_ret close_ret sndbuf_script write_script freed hd tl].
  rewrite !(Z.sub_0_r dl).
  rewrite (u32_small dl) by lia.
  rewrite !(Z.min_r (u32 v) dl) by lia.
  assert ((if Z.shiftl 1 0 <? dl then Z.shiftr dl 0 else dl) = dl) as ->
    by (destruct (Z.shiftl 1 0 <? dl); [apply Z.shiftr_0_r | reflexivity]).
  destruct (Z.eqb_spec dl 0); [lia |].
  rewrite Z.ltb_irrefl. cbn [negb].
  unfold tcp_write, next_write_ret. unfold bind at 1 2 3, call at 1, ret at 1.
  cbn [ctx env now calls yields connect_ret close_ret sndbuf_script write_script freed hd tl].
  rewrite Hwr. change (ERR_OK =? ERR_OK) with true. cbn iota.
  unfold bind at 1, update at 1. unfold with_written, with_cursor.
  cbn [ctx env _pcb _rx_buf _rx_buf_offset _discard_cb _datasource _datalen _written
       _timeout_ms _op_start_time _send_waiting _connect_pending _refcnt _sync].
  rewrite ?(Z.add_0_l dl).
  rewrite ?(u32_small dl) by lia.
  cbn [write_some_loop]. unfold bind at 1, self at 1.
  cbn [ctx _datasource _pcb _datalen _written _sync].
  rewrite Z.ltb_irrefl. unfold ret at 1.
  unfold when, bind, tcp_output, call, ret.
  cbn [ctx env now calls yields connect_ret close_ret sndbuf_script write_script freed].
  rewrite <- !app_assoc. destruct sy; reflexivity.
Qed.

(** X14.  A [write] that fits the send window.  On a context with a handle
    whose connection accepts data, no send in progress and not synchronous,
    when the stack offers a window of at least the size asked and accepts
    the data: [write] returns the size asked after a single [tcp_write] of
    the whole buffer, flagged to be copied and not flagged as having more to
    come, followed by [tcp_output]; it does not yield, whatever the
    timeout. *)
Theorem write_fits_window (TCP_SND_BUF WAIT : Z) (fuel dfuel afuel : nat)
  (base dl v : Z) (vs : list Z) (s : State) (p : tcp_pcb) (st : tcp_state) :
  _pcb (ctx s) = Some p -> state s = Done (st, s) -> st <> CLOSED ->
  _datasource (ctx s) = None ->
  _send_waiting (ctx s) = false -> _sync (ctx s) = false ->
  0 < dl < 4294967296 ->
  sndbuf_script (env s) = v :: vs -> dl <= u32 v ->
  hd ERR_OK (write_script (env s)) = ERR_OK ->
  (1 <= fuel)%nat ->
  exists s',
    write TCP_SND_BUF WAIT fuel dfuel afuel (Some base) dl s = Done (Passed dl, s') /\
    calls (env s')
    = calls (env s) ++ [C_tcp_sndbuf (u32 v);
                        C_tcp_write 0 dl TCP_WRITE_FLAG_COPY ERR_OK; C_tcp_output] /\
    _written (ctx s') = dl /\ _datasource (ctx s') = None /\ _datalen (ctx s') = 0 /\
    _pcb (ctx s') = Some p /\
    now (env s') = now (env s) /\ yields (env s') = yields (env s).
Proof.
  intros Hp Hst Hncl Hds Hsw Hsy Hdl Hsb Hwin Hwr Hfuel.
  pose proof (state_open s p st Hp Hst Hncl) as Hstp. subst st.
  destruct s as [[pcb rx off dcb ds0 dl0 wr tm st sw cp rc sy] w].
  destruct w as [nw cs ys cr clr sbs wrs fr].
  cbn [ctx env _pcb _datasource _send_waiting _sync _timeout_ms sndbuf_script
       write_script] in *.
  subst pcb ds0 sw sy sbs.
  destruct fuel as [| fuel]; [lia |].
  unfold write, _write_from_source. unfold bind at 1, self at 1. cbn [ctx _pcb].
  unfold bind at 1, self at 1. cbn [ctx _datasource _send_waiting negb].
  unfold bind at 1, millis at 1. unfold bind at 1, update at 1.
  unfold bind at 1, update at 1. unfold with_cursor, with_op_start.
  cbn [ctx env _pcb _rx_buf _rx_buf_offset _discard_cb _datasource _datalen _written
       _timeout_ms _op_start_time _send_waiting _connect_pending _refcnt _sync].
  cbn [write_from_source_loop]. unfold bind at 1 2.
  rewrite write_some_whole; try assumption.
  2: { eapply state_same_pcb; [| exact Hst]. reflexivity. }
  unfold bind at 1, millis at 1. unfold bind at 1, update at 1.
  unfold bind at 1, self at 1. unfold with_op_start.
  cbn [ctx env _pcb _rx_buf _rx_buf_offset _discard_cb _datasource _datalen _written
       _timeout_ms _op_start_time _send_waiting _connect_pending _refcnt _sync].
  rewrite Z.eqb_refl. unfold bind at 1, ret at 1. unfold update at 1.
  unfold bind, self, ret. unfold with_cursor.
  cbn [ctx env _pcb _rx_buf _rx_buf_offset _discard_cb _datasource _datalen _written
       _timeout_ms _op_start_time _send_waiting _connect_pending _refcnt _sync].
  eexists. split; [reflexivity |].
  cbn [ctx env _pcb _datasource _datalen _written now calls yields].
  auto 10.
Qed.

Lemma write_fits_window_witness :
  exists s',
    write 100 300 1 0 0 (Some 0) 3
      (mk_state demo_ctx (mk_world 0 [] [] ERR_OK ERR_OK [100] [] false))
    = Done (Passed 3, s') /\
    calls (env s')
    = [] ++ [C_tcp_sndbuf (u32 100);
             C_tcp_write 0 3 TCP_WRITE_FLAG_COPY ERR_OK; C_tcp_output] /\
    _written (ctx s') = 3 /\ _datasource (ctx s') = None /\ _datalen (ctx s') = 0 /\
    _pcb (ctx s') = Some demo_pcb /\
    now (env s') = 0 /\ yields (env s') = [].
Proof.
  apply (write_fits_window 100 300 1 0 0 0 3 100 []
           (mk_state demo_ctx (mk_world 0 [] [] ERR_OK ERR_OK [100] [] false))
           demo_pcb ESTABLISHED).
  - reflexivity.
  - reflexivity.
  - discriminate.
  - reflexivity.
  - reflexivity.
  - reflexivity.
  - lia.
  - reflexivity.
  - vm_compute. discriminate.
  - reflexivity.
  - lia.
Defined.

(** ** A send that waits for the window *)






(** ** Flushing *)

Lemma wait_until_acked_turn (TCP_SND_BUF : Z) (fuel : nat) (max_wait_ms : Z) p c nw cs ys
  cr clr sbs wrs fr st :
  _pcb c = Some p ->
  state (mk_state c (mk_world nw cs ys cr clr sbs wrs fr))
  = Done (st, mk_state c (mk_world nw cs ys cr clr sbs wrs fr)) ->
  st <> ESTABLISHED \/ s32 (u32 (hd 0 sbs)) = TCP_SND_BUF ->
  wait_until_acked TCP_SND_BUF (S fuel) max_wait_ms
    (mk_state c (mk_world nw cs ys cr clr sbs wrs fr))
  = Done (true,
          mk_state c (mk_world nw (cs ++ [C_tcp_output; C_tcp_sndbuf (u32 (hd 0 sbs))])
                        ys cr clr (tl sbs) wrs fr)).
Proof.
  intros Hp Hst Hdone.
  unfold wait_until_acked. unfold bind at 1, self at 1. cbn [ctx]. rewrite Hp.
  unfold bind at 1, millis at 1. cbn [env now].
  cbn [wait_until_acked_loop]. unfold bind at 1, millis at 1. cbn [env now].
  rewrite Z.sub_diag. change (u32 0) with 0.
  destruct (Z.ltb_spec (u32 max_wait_ms) 0) as [Hneg | _].
  { pose proof (Z.mod_pos_bound max_wait_ms 4294967296 ltac:(lia)) as Hb.
    unfold u32 in Hneg. lia. }
  unfold bind at 1, tcp_output at 1, call at 1.
  unfold tcp_sndbuf, next_sndbuf. unfold bind at 1 2 3, call at 1, ret at 1.
  cbn [ctx env now calls yields connect_ret close_ret sndbuf_script write_script freed].
  unfold bind at 1, millis at 1. unfold bind at 1.
  match goal with |- context [state ?st0] =>
    match type of Hst with state ?s0 = _ =>
      rewrite (state_same_pcb s0 st0 st eq_refl Hst) end end.
  assert (negb (tcp_state_eqb st ESTABLISHED)
          || (s32 (u32 (hd 0 sbs)) =? TCP_SND_BUF) = true) as ->.
  { destruct Hdone as [Hne | ->].
    - destruct st; try reflexivity. contradiction.
    - rewrite Z.eqb_refl. apply orb_true_r. }
  unfold ret. rewrite <- app_assoc. reflexivity.
Qed.

(** X16.  [wait_until_acked] on a context with a handle whose connection is
    not established, or whose send buffer is entirely free: it asks the
    stack to send, reads the window once, and reports success in that first
    turn, whatever the wait allowed, without yielding and without touching
    the context.  (The clock of the model advances in yields only, so no
    time passes before the first test of the deadline.) *)
Theorem wait_until_acked_one_turn (TCP_SND_BUF : Z) (fuel : nat) (max_wait_ms : Z)
  (s : State) (p : tcp_pcb) (st : tcp_state) :
  _pcb (ctx s) = Some p -> state s = Done (st, s) ->
  st <> ESTABLISHED \/ s32 (u32 (hd 0 (sndbuf_script (env s)))) = TCP_SND_BUF ->
  (1 <= fuel)%nat ->
  exists s',
    wait_until_acked TCP_SND_BUF fuel max_wait_ms s = Done (true, s') /\
    ctx s' = ctx s /\
    calls (env s')
    = calls (env s) ++ [C_tcp_output; C_tcp_sndbuf (u32 (hd 0 (sndbuf_script (env s))))] /\
    now (env s') = now (env s) /\ yields (env s') = yields (env s).
Proof.
  intros Hp Hst Hdone Hfuel.
  destruct s as [c w]. destruct w as [nw cs ys cr clr sbs wrs fr].
  cbn [ctx env sndbuf_script] in *.
  destruct fuel as [| fuel]; [lia |].
  rewrite (wait_until_acked_turn TCP_SND_BUF fuel max_wait_ms p c nw cs ys cr clr sbs
             wrs fr st Hp Hst Hdone).
  eexists. split; [reflexivity |]. cbn [ctx env calls now yields]. auto.
Qed.

Lemma wait_until_acked_one_turn_witness :
  exists s',
    wait_until_acked 100 1 300
      (mk_state demo_ctx (mk_world 0 [] [] ERR_OK ERR_OK [100] [] false))
    = Done (true, s') /\
    ctx s' = demo_ctx /\
    calls (env s') = [] ++ [C_tcp_output; C_tcp_sndbuf (u32 (hd 0 [100]))] /\
    now (env s') = 0 /\ yields (env s') = [].
Proof.
  apply (wait_until_acked_one_turn 100 1 300
           (mk_state demo_ctx (mk_world 0 [] [] ERR_OK ERR_OK [100] [] false))
           demo_pcb ESTABLISHED).
  - reflexivity.
  - reflexivity.
  - right. reflexivity.
  - lia.
Defined.

(** X17.  A synchronous [write] that fits the send window.  With [_sync]
    set, the buffer is handed to the stack without the copy flag, and after
    the send loop [write] flushes: it calls [tcp_output] again and reads the
    window; when the connection is no longer established or the send buffer
    is entirely free at that moment, it returns the size asked without
    yielding. *)
Theorem write_sync_flushes (TCP_SND_BUF WAIT : Z) (fuel dfuel afuel : nat)
  (base dl v v2 : Z) (vs : list Z) (s : State) (p : tcp_pcb) (st : tcp_state) :
  _pcb (ctx s) = Some p -> state s = Done (st, s) -> st <> CLOSED ->
  _datasource (ctx s) = None ->
  _send_waiting (ctx s) = false -> _sync (ctx s) = true ->
  0 < dl < 4294967296 ->
  sndbuf_script (env s) = v :: v2 :: vs -> dl <= u32 v ->
  hd ERR_OK (write_script (env s)) = ERR_OK ->
  st <> ESTABLISHED \/ s32 (u32 v2) = TCP_SND_BUF ->
  (1 <= fuel)%nat -> (1 <= afuel)%nat ->
  exists s',
    write TCP_SND_BUF WAIT fuel dfuel afuel (Some base) dl s = Done (Passed dl, s') /\
    calls (env s')
    = calls (env s) ++ [C_tcp_sndbuf (u32 v); C_tcp_write 0 dl 0 ERR_OK; C_tcp_output;
                        C_tcp_output; C_tcp_sndbuf (u32 v2)] /\
    _written (ctx s') = dl /\ _datasource (ctx s') = None /\ _datalen (ctx s') = 0 /\
    _pcb (ctx s') = Some p /\
    now (env s') = now (env s) /\ yields (env s') = yields (env s).
Proof.
  intros Hp Hst Hncl Hds Hsw Hsy Hdl Hsb Hwin Hwr Hflush Hfuel Hafuel.
  pose proof (state_open s p st Hp Hst Hncl) as Hstp. subst st.
  destruct s as [[pcb rx off dcb ds0 dl0 wr tm st sw cp rc sy] w].
  destruct w as [nw cs ys cr clr sbs wrs fr].
  cbn [ctx env _pcb _datasource _send_waiting _sync _timeout_ms sndbuf_script
       write_script] in *.
  subst pcb ds0 sw sy sbs.
  destruct fuel as [| fuel]; [lia |].
  destruct afuel as [| afuel]; [lia |].
  unfold write, _write_from_source. unfold bind at 1, self at 1. cbn [ctx _pcb].
  unfold bind at 1, self at 1. cbn [ctx _datasource _send_waiting negb].
  unfold bind at 1, millis at 1. unfold bind at 1, update at 1.
  unfold bind at 1, update at 1. unfold with_cursor, with_op_start.
  cbn [ctx env _pcb _rx_buf _rx_buf_offset _discard_cb _datasource _datalen _written
       _timeout_ms _op_start_time _send_waiting _connect_pending _refcnt _sync].
  cbn [write_from_source_loop]. unfold bind at 1 2.
  rewrite write_some_whole; try assumption.
  2: { eapply state_same_pcb; [| exact Hst]. reflexivity. }
  unfold bind at 1, millis at 1. unfold bind at 1, update at 1.
  unfold bind at 1, self at 1. unfold with_op_start.
  cbn [ctx env _pcb _rx_buf _rx_buf_offset _discard_cb _datasource _datalen _written
       _timeout_ms _op_start_time _send_waiting _connect_pending _refcnt _sync].
  rewrite Z.eqb_refl. unfold bind at 1, ret at 1. unfold update at 1.
  unfold with_cursor.
  cbn [ctx env _pcb _rx_buf _rx_buf_offset _discard_cb _datasource _datalen _written
       _timeout_ms _op_start_time _send_waiting _connect_pending _refcnt _sync].
  unfold bind at 1, self at 1. cbn [ctx _sync]. unfold bind at 1 2.
  rewrite (wait_until_acked_turn TCP_SND_BUF afuel WAIT p _ _ _ _ _ _ _ _ _
             (pcb_state p));
    [| reflexivity | eapply state_same_pcb; [| exact Hst]; reflexivity
     | cbn [hd]; exact Hflush].
  unfold ret at 1. unfold bind, self, ret.
  eexists. split; [reflexivity |].
  cbn [ctx env _pcb _datasource _datalen _written now calls yields hd].
  rewrite <- app_assoc. auto 10.
Qed.

Lemma write_sync_flushes_witness :
  exists s',
    write 100 300 1 0 1 (Some 0) 3
      (mk_state (mk_ctx (Some demo_pcb) [] 0 true None 0 0 5000 0 false false 0 true)
         (mk_world 0 [] [] ERR_OK ERR_OK [97; 100] [] false))
    = Done (Passed 3, s') /\
    calls (env s')
    = [] ++ [C_tcp_sndbuf (u32 97); C_tcp_write 0 3 0 ERR_OK; C_tcp_output;
             C_tcp_output; C_tcp_sndbuf (u32 100)] /\
    _written (ctx s') = 3 /\ _datasource (ctx s') = None /\ _datalen (ctx s') = 0 /\
    _pcb (ctx s') = Some demo_pcb /\
    now (env s') = 0 /\ yields (env s') = [].
Proof.
  apply (write_sync_flushes 100 300 1 0 1 0 3 97 100 []
           (mk_state (mk_ctx (Some demo_pcb) [] 0 true None 0 0 5000 0 false false 0 true)
              (mk_world 0 [] [] ERR_OK ERR_OK [97; 100] [] false))
           demo_pcb ESTABLISHED).
  - reflexivity.
  - reflexivity.
  - discriminate.
  - reflexivity.
  - reflexivity.
  - reflexivity.
  - lia.
  - reflexivity.
  - vm_compute. discriminate.
  - reflexivity.
  - right. reflexivity.
  - lia.
  - lia.
Defined.

(** ** What keep-alive leaves alone, and what it needs *)

Lemma u8_bits y i :
  0 <= i -> Z.testbit (u8 y) i = if i <? 8 then Z.testbit y i else false.
Proof.
  intros Hi. unfold u8. change 256 with (2 ^ 8).
  destruct (Z.ltb_spec i 8).
  - apply Z.mod_pow2_bits_low. lia.
  - apply Z.mod_pow2_bits_high. lia.
Qed.

Lemma u8_high_bits x i : 0 <= x < 256 -> 8 <= i -> Z.testbit x i = false.
Proof.
  intros Hx Hi. rewrite <- (Z.mod_small x 256) by lia.
  change 256 with (2 ^ 8). apply Z.mod_pow2_bits_high. lia.
Qed.

Lemma lor_keepalive_bits x i :
  0 <= x < 256 -> 0 <= i -> i <> 3 ->
  Z.testbit (u8 (Z.lor x SOF_KEEPALIVE)) i = Z.testbit x i.
Proof.
  intros Hx Hi Hne. rewrite u8_bits by assumption.
  destruct (Z.ltb_spec i 8); [| symmetry; apply u8_high_bits; assumption].
  rewrite Z.lor_spec. unfold SOF_KEEPALIVE. rewrite testbit_8 by assumption.
  destruct (Z.eqb_spec 3 i); [congruence |]. apply orb_false_r.
Qed.

Lemma land_keepalive_bits x i :
  0 <= x < 256 -> 0 <= i -> i <> 3 ->
  Z.testbit (u8 (Z.land x (Z.lnot SOF_KEEPALIVE))) i = Z.testbit x i.
Proof.
  intros Hx Hi Hne. rewrite u8_bits by assumption.
  destruct (Z.ltb_spec i 8); [| symmetry; apply u8_high_bits; assumption].
  rewrite Z.land_spec, Z.lnot_spec by assumption.
  unfold SOF_KEEPALIVE. rewrite testbit_8 by assumption.
  destruct (Z.eqb_spec 3 i); [congruence |]. apply andb_true_r.
Qed.

(** X18.  [keepAlive] touches the keep-alive settings only.  On a context with
    a handle whose option byte is a [uint8_t], it makes no call into the
    stack and changes nothing of the context but the pcb; there the
    connection state and every option bit other than [SOF_KEEPALIVE] stay as
    they were, and switching keep-alive off (an argument is zero) leaves the
    three stored timings as they were. *)
Theorem keepAlive_touches_only_keepalive (s : State) (p : tcp_pcb)
  (idle_sec intv_sec count : Z) :
  _pcb (ctx s) = Some p -> 0 <= so_options p < 256 ->
  exists s' p',
    keepAlive idle_sec intv_sec count s = Done (tt, s') /\
    ctx s' = with_pcb (Some p') (ctx s) /\ env s' = env s /\
    pcb_state p' = pcb_state p /\
    (forall i, 0 <= i -> i <> 3 ->
       Z.testbit (so_options p') i = Z.testbit (so_options p) i) /\
    (idle_sec = 0 \/ intv_sec = 0 \/ count = 0 ->
     keep_idle p' = keep_idle p /\ keep_intvl p' = keep_intvl p /\
     keep_cnt p' = keep_cnt p).
Proof.
  intros Hp Hso. destruct s as [c w]. cbn [ctx] in Hp.
  unfold keepAlive, deref_pcb. run_z. rewrite Hp. run_z.
  destruct (negb (idle_sec =? 0) && negb (intv_sec =? 0) && negb (count =? 0)) eqn:Hall;
    run_z; do 2 eexists; (split; [reflexivity |]); cbn [ctx env];
    (split; [reflexivity |]); (split; [reflexivity |]); (split; [reflexivity |]);
    cbn [so_options keep_idle keep_intvl keep_cnt].
  - split; [intros i Hi Hne; apply lor_keepalive_bits; assumption |].
    intros Hz. exfalso.
    apply andb_true_iff in Hall. destruct Hall as [Hall Hc].
    apply andb_true_iff in Hall. destruct Hall as [Ha Hb].
    apply negb_true_iff, Z.eqb_neq in Ha, Hb, Hc. lia.
  - split; [intros i Hi Hne; apply land_keepalive_bits; assumption |].
    intros _. auto.
Qed.

Lemma keepAlive_touches_only_keepalive_witness :
  exists s' p',
    keepAlive 7200 75 9 (mk_state (with_pcb (Some (mk_pcb ESTABLISHED 5 0 0 0)) demo_ctx)
                           demo_world)
    = Done (tt, s') /\
    ctx s' = with_pcb (Some p') (with_pcb (Some (mk_pcb ESTABLISHED 5 0 0 0)) demo_ctx) /\
    env s' = demo_world /\
    pcb_state p' = ESTABLISHED /\
    (forall i, 0 <= i -> i <> 3 -> Z.testbit (so_options p') i = Z.testbit 5 i) /\
    (7200 = 0 \/ 75 = 0 \/ 9 = 0 ->
     keep_idle p' = 0 /\ keep_intvl p' = 0 /\ keep_cnt p' = 0).
Proof.
  apply (keepAlive_touches_only_keepalive
           (mk_state (with_pcb (Some (mk_pcb ESTABLISHED 5 0 0 0)) demo_ctx) demo_world)
           (mk_pcb ESTABLISHED 5 0 0 0) 7200 75 9).
  - reflexivity.
  - simpl. lia.
Defined.

(** X19.  The keep-alive methods need the handle.  [keepAlive] and its four
    getters dereference [_pcb] without a check: once the handle is gone, by
    [abort()], by [close()] or by the error callback, each of them
    dereferences a null pointer. *)
Theorem keepalive_needs_handle (k : closer) (s : State)
  (idle_sec intv_sec count : Z) :
  exists s1,
    run_closer k s = Done (tt, s1) /\ _pcb (ctx s1) = None /\
    keepAlive idle_sec intv_sec count s1 = Fault NullDeref /\
    isKeepAliveEnabled s1 = Fault NullDeref /\
    getKeepAliveIdle s1 = Fault NullDeref /\
    getKeepAliveInterval s1 = Fault NullDeref /\
    getKeepAliveCount s1 = Fault NullDeref.
Proof.
  assert (forall s1, _pcb (ctx s1) = None ->
    keepAlive idle_sec intv_sec count s1 = Fault NullDeref /\
    isKeepAliveEnabled s1 = Fault NullDeref /\
    getKeepAliveIdle s1 = Fault NullDeref /\
    getKeepAliveInterval s1 = Fault NullDeref /\
    getKeepAliveCount s1 = Fault NullDeref) as Hnull.
  { intros s1 Hp. unfold keepAlive, getKeepAliveIdle, getKeepAliveInterval,
      getKeepAliveCount, isKeepAliveEnabled, deref_pcb.
    unfold bind, self, fail. rewrite Hp. auto. }
  destruct s as [[pcb rx off dcb ds dl wr tm st sw cp rc sy] w].
  destruct k as [| | err]; unfold run_closer, abort, close, tcp_close, _error,
    _notify_error.
  - destruct pcb as [pc |]; run; eexists; (split; [reflexivity |]);
      (split; [reflexivity |]); apply Hnull; reflexivity.
  - destruct pcb as [pc |]; run;
      try destruct (Z.eqb_spec (close_ret w) ERR_OK); simpl;
      eexists; (split; [reflexivity |]); (split; [reflexivity |]);
      apply Hnull; reflexivity.
  - destruct cp; destruct sw; run; eexists; (split; [reflexivity |]);
      (split; [reflexivity |]); apply Hnull; reflexivity.
Qed.
